(** * Math Quiz Master: the three-stage analytics pipeline of [app.py]

    A shallow embedding of the quiz application's core: the answer
    extractor and difficulty heuristic of the question store adapter, the
    correctness judge, work transcription, the Stage-1 and Stage-2
    aggregators, the Stage-3 synthesizer and the page handlers of the
    interactive shell that feed them.

    Conventions of the embedding.
    - A Python [str] is a [string]; every character is read as a code
      point below 256. [len] is [String.length]; a string is truthy when
      it is not empty.
    - A Python [int] is a [Z]. A clock reading ([time.time()]) is a [Q].
    - A [dict] with string keys kept in the session is a [gmap string _];
      a [dict] whose iteration order is observable (JSON objects,
      [concept_data]) is an association list in insertion order.
    - True division of two integers is the exact quotient in [Q]; the
      double that Python computes is the one nearest to it. The [round]
      calls that format a Stage-2 value for output are not part of the
      model: the record fields hold the values before rounding. A value
      the source obtains by further floating-point arithmetic (the
      concept confidence) has no field in the model.
    - What the program asks of its runtime (environment variable, JSON
      codec, [str] of a JSON value, base64, the generative service) is a
      field of the record [runtime]; nothing is assumed about them. *)

From Stdlib Require Import ZArith QArith String Ascii List Lia.
From stdpp Require Import gmap strings list sorting pretty.

Open Scope string_scope.
Open Scope Z_scope.

(** ** Python strings *)

Module Py.

(** [str.isspace] on code points below 256. *)
Definition isspace (c : ascii) : bool :=
  let n := nat_of_ascii c in
  ((9 <=? n) && (n <=? 13) || (28 <=? n) && (n <=? 32)
   || (n =? 133) || (n =? 160))%nat.

(** [str.lower] on one code point below 256: the ASCII capitals and the
    Latin-1 capitals U+00C0..U+00DE, the multiplication sign excepted. *)
Definition lower_char (c : ascii) : ascii :=
  let n := nat_of_ascii c in
  if ((65 <=? n) && (n <=? 90)
      || (192 <=? n) && (n <=? 222) && negb (n =? 215))%nat
  then ascii_of_nat (n + 32) else c.

Fixpoint lower (s : string) : string :=
  match s with
  | EmptyString => EmptyString
  | String c s' => String (lower_char c) (lower s')
  end.

Fixpoint lstrip (s : string) : string :=
  match s with
  | EmptyString => EmptyString
  | String c s' => if isspace c then lstrip s' else s
  end.

Fixpoint rstrip (s : string) : string :=
  match s with
  | EmptyString => EmptyString
  | String c s' =>
      let r := rstrip s' in
      if isspace c && String.eqb r "" then "" else String c r
  end.

(** [s.strip()] *)
Definition strip (s : string) : string := rstrip (lstrip s).

(** Truthiness of a [str]. *)
Definition truthy (s : string) : bool := negb (String.eqb s "").

(** [s.startswith(p)] *)
Definition startswith (p s : string) : bool := String.prefix p s.

(** [s.replace(old, "")] for a non-empty [old]: every occurrence found
    scanning left to right is dropped. [skip] counts the characters of
    an occurrence that are still to be dropped. *)
Fixpoint remove_from (old : string) (skip : nat) (s : string) : string :=
  match s with
  | EmptyString => EmptyString
  | String c s' =>
      match skip with
      | S k => remove_from old k s'
      | O =>
          if String.prefix old s
          then remove_from old (String.length old - 1) s'
          else String c (remove_from old 0 s')
      end
  end.

Definition remove_all (old s : string) : string := remove_from old 0 s.

(** [s[:n]] *)
Fixpoint slice_to (n : nat) (s : string) : string :=
  match n, s with
  | S k, String c s' => String c (slice_to k s')
  | _, _ => EmptyString
  end.

(** [int(x)] of a real number: truncation toward zero. *)
Definition int_of_Q (x : Q) : Z := Z.quot (Qnum x) (Z.pos (Qden x)).

(** The line feed of the f-strings. *)
Definition nl : string := String (ascii_of_nat 10) EmptyString.

End Py.

(** ** JSON values, as [json.loads] builds them *)

#[local] Set Warnings "-register-all".

Inductive json : Type :=
| JNull
| JBool (b : bool)
| JInt (z : Z)
| JFloat (negative : bool) (mantissa : positive) (exponent : Z)
| JFloatZero (negative : bool)
| JFloatInf (negative : bool)
| JFloatNaN
| JStr (s : string)
| JList (l : list json)
| JDict (d : list (string * json)).

(** [key in d] and [d[key]] on an object: keys are unique, the first
    binding is the one. *)
Fixpoint dict_get (key : string) (d : list (string * json)) : option json :=
  match d with
  | [] => None
  | (k, v) :: d' => if String.eqb k key then Some v else dict_get key d'
  end.

(** Truthiness of a JSON value. *)
Definition json_truthy (v : json) : bool :=
  match v with
  | JNull => false
  | JBool b => b
  | JInt z => negb (z =? 0)
  | JFloat _ _ _ => true
  | JFloatZero _ => false
  | JFloatInf _ => true
  | JFloatNaN => true
  | JStr s => Py.truthy s
  | JList l => match l with [] => false | _ => true end
  | JDict d => match d with [] => false | _ => true end
  end.

(** ** Data model *)

(** A question, as [get_questions_from_db] builds it. *)
Record question : Type := {
  question_id : string;
  question_type : string;
  difficulty : string;
  concept_tags : list string;
  question_text : string;
  correct_answer : string;
  answer_type : string;
  unit : string;
  solution : option string
}.

(** An entry of [st.session_state.responses]: a dict in which each key
    may be missing. *)
Record response : Type := {
  final_answer : option string;
  changed_answer : option bool;
  timestamp : option Q;
  typed_work : option string
}.

(** The empty dict [{}]. *)
Definition no_response : response :=
  {| final_answer := None; changed_answer := None;
     timestamp := None; typed_work := None |}.

(** An entry of [st.session_state.uploaded_files]. *)
Record upload : Type := { filename : string; data : string }.

(** The per-question record of the Stage-1 report. *)
Record submission : Type := {
  sub_final_answer : string;
  sub_correct_answer : string;
  sub_is_correct : bool;
  sub_changed_answer : bool
}.

Record question_kpis : Type := {
  time_spent_sec : Z;
  first_attempt_latency_sec : Z;
  num_option_changes : Z;
  revision_outcome : string
}.

Record optional_work : Type := {
  handwritten_uploaded : bool;
  typed_work_provided : bool;
  typed_work_text : string;
  handwritten_work_ocr : string;
  combined_work_text : string
}.

Record question_data : Type := {
  qd_question_id : string;
  qd_question_type : string;
  qd_difficulty : string;
  qd_concept_tags : list string;
  qd_submission : submission;
  qd_kpis : question_kpis;
  qd_optional_work : optional_work
}.

Record score_summary : Type := {
  raw_score : Z;
  max_score : Z;
  correct_count : Z;
  incorrect_count : Z;
  unattempted_count : Z
}.

(** The Stage-1 report. Of [report_meta] the constant entries
    ([exam_target], [subject], [time_limit_sec]) are left out. *)
Record stage1_report : Type := {
  s1_report_id : string;
  s1_generated_at_iso : string;
  s1_assessment_id : string;
  s1_num_questions : Z;
  s1_score_summary : score_summary;
  s1_questions : list question_data
}.

(** A pair of mean and median, as the Stage-2 report lists them. *)
Record avg_median : Type := { avg : Q; median : Q }.

Record concept_kpis : Type := {
  avg_time_spent_sec : Q;
  median_time_spent_sec : Q;
  avg_first_attempt_latency_sec : Q;
  median_first_attempt_latency_sec : Q;
  concept_changed_answer_rate : Q;
  avg_num_option_changes : Q
}.

Record work_quality_rating : Type := {
  wq_value : Z;
  wq_evidence_count : Z;
  wq_evidence_question_ids : list string
}.

Record concept_obj : Type := {
  concept_id : string;
  attempted : Z;
  correct : Z;
  accuracy : Q;
  concept_kpis_of : concept_kpis;
  work_quality : work_quality_rating
}.

Record revision_effect : Type := {
  improved_rate : Q;
  worsened_rate : Q;
  no_change_rate : Q
}.

Record kpis_summary : Type := {
  ks_time_spent_sec : avg_median;
  ks_first_attempt_latency_sec : avg_median;
  ks_num_option_changes : avg_median;
  changed_answer_rate : Q;
  ks_revision_effect : revision_effect;
  overthinking_index : Q;
  easy_time_threshold_sec : Z;
  impulsivity_index : Q;
  impulsive_threshold_sec : Z
}.

Record stage2_report : Type := {
  s2_report_id : string;
  s2_source_stage1_report_id : string;
  s2_generated_at_iso : string;
  s2_kpis_summary : kpis_summary;
  s2_concepts : list concept_obj
}.

(** An entry of [work_summary] in the Stage-3 synthesizer. *)
Record work_item : Type := {
  wi_question_id : string;
  wi_concept_tags : list string;
  wi_is_correct : bool;
  wi_student_work : string;
  wi_correct_answer : string;
  wi_student_answer : string
}.

(** ** What the program asks of its runtime *)

(** A file accepted by the service's upload endpoint. *)
Record file_handle : Type := { fh_path : string; fh_bytes : string }.

(** What is sent to [client.models.generate_content]. Each prompt is a
    fixed text around the values listed here; the service is taken as
    a function of these values. For the Stage-3 prompt the excerpt of
    each work item is already cut to 500 characters. *)
Inductive contents : Type :=
| CheckAnswerPrompt (question_text correct_answer student_answer answer_type : string)
| OcrRequest (instruction : string) (image : file_handle)
| Stage3Prompt (stage2 : stage2_report) (work_context : list work_item)
               (generated_at_iso : string).

(** The generative service answers a request with a response whose
    [text] may be missing, or the call raises. *)
Inductive reply : Type :=
| Raises
| Replies (text : option string).

Record runtime : Type := {
  (** [os.getenv("GEMINI_API_KEY")] after [load_dotenv()] *)
  getenv_api_key : option string;
  (** [json.loads]; [None] when it raises *)
  json_loads : string -> option json;
  (** [json.dumps(_, indent=2)] *)
  json_dumps : json -> string;
  (** [str] of a JSON value *)
  py_str : json -> string;
  (** [base64.b64encode(_).decode()] *)
  b64encode : string -> string;
  (** [base64.b64decode]; [None] when it raises *)
  b64decode : string -> option string;
  (** [client.files.upload(path=_)], by the number of requests made
      before it, the path and the bytes found there; [None] when it
      raises *)
  files_upload : nat -> string -> string -> option file_handle;
  (** [client.models.generate_content(model=_, contents=_)], by the
      number of requests made before it *)
  generate_content : nat -> string -> contents -> reply
}.

(** [if not api_key]: the key is missing or empty. *)
Definition api_key_configured (rt : runtime) : option string :=
  match getenv_api_key rt with
  | Some k => if Py.truthy k then Some k else None
  | None => None
  end.

(** ** The world outside the session: files and what the page shows *)

Inductive notice : Type :=
| WarnLlmCheckFailed
| WarnOcrFailed
| ErrNoApiKey
| ErrStage3Parse (shown : string)
| ErrStage3Failed
| ErrReportFailed.

Record world : Type := {
  files : gmap string string;
  dirs : gset string;
  notices : list notice;
  requests : nat
}.

Definition write_file (path bytes : string) (w : world) : world :=
  {| files := <[path := bytes]> (files w); dirs := dirs w;
     notices := notices w; requests := requests w |}.

Definition remove_file (path : string) (w : world) : world :=
  {| files := delete path (files w); dirs := dirs w;
     notices := notices w; requests := requests w |}.

Definition mkdir (path : string) (w : world) : world :=
  {| files := files w; dirs := {[path]} ∪ dirs w;
     notices := notices w; requests := requests w |}.

Definition notify (n : notice) (w : world) : world :=
  {| files := files w; dirs := dirs w;
     notices := notices w ++ [n]; requests := requests w |}.

(** One more request has been made to the service. *)
Definition tick (w : world) : world :=
  {| files := files w; dirs := dirs w;
     notices := notices w; requests := S (requests w) |}.

Definition model_name : string := "gemini-3-flash-preview".

(** ** Question store adapter *)

(** [extract_answer_from_json]. The input is the text column of the
    store, [None] for SQL NULL; the result is [None] for Python's
    [None]. The bare [except] turns a failure of [json.loads] into the
    raw input. *)
Definition extract_answer_from_json (rt : runtime)
    (answer_json_str : option string) (answer_type : string) : option string :=
  match answer_json_str with
  | None => None
  | Some raw =>
      if negb (Py.truthy raw) then None
      else
        match json_loads rt raw with
        | None => Some raw
        | Some answer_data =>
            let whole := Some (py_str rt answer_data) in
            match answer_data with
            | JDict d =>
                match dict_get "answer" d with
                | Some v => Some (py_str rt v)
                | None =>
                    match dict_get "value" d with
                    | Some v => Some (py_str rt v)
                    | None =>
                        if String.eqb answer_type "integer"
                           || String.eqb answer_type "float"
                        then
                          match dict_get "number" d with
                          | Some v => Some (py_str rt v)
                          | None =>
                              match dict_get "numerical_value" d with
                              | Some v => Some (py_str rt v)
                              | None =>
                                  match dict_get "result" d with
                                  | Some v => Some (py_str rt v)
                                  | None => whole
                                  end
                              end
                          end
                        else whole
                    end
                end
            | JList (first :: _) => Some (py_str rt first)
            | _ => whole
            end
        end
  end.

(** The difficulty label of [get_questions_from_db] for a row of the
    first store ([olympiad.db]), from the [solution] column. *)
Definition olympiad_difficulty (solution : option string) : string :=
  match solution with
  | Some sol =>
      if Py.truthy sol then
        let sol_len := Z.of_nat (String.length sol) in
        if sol_len <? 200 then "easy"
        else if sol_len >? 500 then "hard"
        else "medium"
      else "medium"
  | None => "medium"
  end.

(** [needle in haystack] on strings. *)
Fixpoint contains (needle haystack : string) : bool :=
  String.prefix needle haystack
  || match haystack with
     | EmptyString => false
     | String _ rest => contains needle rest
     end.

(** The difficulty label for a row of the second store ([calculus.db]),
    from the [problem_source] column. *)
Definition calculus_difficulty (problem_source : option string) : string :=
  match problem_source with
  | Some src =>
      if Py.truthy src then
        if contains "easy" (Py.lower src) then "easy"
        else if contains "hard" (Py.lower src) || contains "amc" (Py.lower src)
        then "hard"
        else "medium"
      else "medium"
  | None => "medium"
  end.

(** ** Correctness judge *)

(** [str.upper] restricted to the ASCII letters: the only ones that can
    produce a character of the word looked for in the verdict. *)
Definition upper_char (c : ascii) : ascii :=
  let n := nat_of_ascii c in
  if ((97 <=? n) && (n <=? 122))%nat then ascii_of_nat (n - 32) else c.

Fixpoint upper (s : string) : string :=
  match s with
  | EmptyString => EmptyString
  | String c s' => String (upper_char c) (upper s')
  end.

(** The comparison used without the service:
    [str(student_answer).strip().lower() == str(correct_answer).strip().lower()]. *)
Definition string_comparison (student_answer correct_answer : string) : bool :=
  String.eqb (Py.lower (Py.strip student_answer))
             (Py.lower (Py.strip correct_answer)).

(** [check_answer_with_llm] *)
Definition check_answer_with_llm (rt : runtime)
    (student_answer correct_answer question_text answer_type : string)
    (w : world) : bool * world :=
  match api_key_configured rt with
  | None => (string_comparison student_answer correct_answer, w)
  | Some _ =>
      let prompt :=
        CheckAnswerPrompt question_text correct_answer student_answer answer_type in
      match generate_content rt (requests w) model_name prompt with
      | Replies (Some text) =>
          let result := upper (Py.strip text) in
          (contains "CORRECT" result, tick w)
      | _ =>
          (string_comparison student_answer correct_answer,
           notify WarnLlmCheckFailed (tick w))
      end
  end.

(** ** Work transcription *)

Record work_data : Type := {
  wd_handwritten_work_ocr : string;
  wd_combined_work : string
}.

Definition ocr_instruction : string :=
  "Extract all mathematical work, equations, and text from this handwritten solution. Preserve mathematical notation.".

(** [f"temp_{q_id}.jpg"] *)
Definition temp_path_of (q_id : string) : string :=
  String.append "temp_" (String.append q_id ".jpg").

(** The f-string that joins typed and transcribed work. *)
Definition combined_format (typed_work handwritten_ocr : string) : string :=
  String.concat ""
    [ "**Typed Work:**"; Py.nl; typed_work; Py.nl; Py.nl;
      "**Handwritten Work (OCR):**"; Py.nl; handwritten_ocr ].

(** [process_student_work]. Every exit through the [except] clause keeps
    [handwritten_ocr = ""] and [combined_work = typed_work] and shows a
    warning. *)
Definition process_student_work (rt : runtime) (q : question)
    (responses : gmap string response) (uploaded_files : gmap string upload)
    (w : world) : work_data * world :=
  let q_id := question_id q in
  let resp := default no_response (responses !! q_id) in
  let typed := default "" (typed_work resp) in
  let untouched :=
    {| wd_handwritten_work_ocr := ""; wd_combined_work := typed |} in
  match uploaded_files !! q_id with
  | None => (untouched, w)
  | Some up =>
      match api_key_configured rt with
      | None => (untouched, w)
      | Some _ =>
          match b64decode rt (data up) with
          | None => (untouched, notify WarnOcrFailed w)
          | Some image_bytes =>
              let temp_path := temp_path_of q_id in
              let w1 := write_file temp_path image_bytes w in
              match files_upload rt (requests w1) temp_path image_bytes with
              | None => (untouched, notify WarnOcrFailed (tick w1))
              | Some uploaded_image =>
                  let w2 := tick w1 in
                  match generate_content rt (requests w2) model_name
                          (OcrRequest ocr_instruction uploaded_image) with
                  | Replies (Some text) =>
                      let handwritten_ocr := Py.strip text in
                      let w3 := remove_file temp_path (tick w2) in
                      let combined_work :=
                        if Py.truthy typed && Py.truthy handwritten_ocr
                        then combined_format typed handwritten_ocr
                        else if Py.truthy handwritten_ocr then handwritten_ocr
                        else typed in
                      ({| wd_handwritten_work_ocr := handwritten_ocr;
                          wd_combined_work := combined_work |}, w3)
                  | _ => (untouched, notify WarnOcrFailed (tick w2))
                  end
              end
          end
      end
  end.

(** ** The session *)

Inductive page_name : Type := PageHome | PageQuiz | PageSubmit | PageResults.

(** What a finished submission stores: [stage1_report], [stage2_report],
    [final_report] and [report_file], which are only ever set together. *)
Record finished : Type := {
  fin_stage1_report : stage1_report;
  fin_stage2_report : stage2_report;
  fin_final_report : json;
  fin_report_file : string
}.

(** [st.session_state]. A missing [uploaded_files] entry reads as the
    empty dict everywhere it is used. *)
Record session : Type := {
  page : page_name;
  selected_topic : option string;
  questions : list question;
  current_question_idx : Z;
  responses : gmap string response;
  start_time : option Q;
  question_start_times : gmap string Q;
  first_attempt_times : gmap string Q;
  option_changes : gmap string Z;
  uploaded_files : gmap string upload;
  marked_for_review : gset string;
  finished_reports : option finished
}.

(** [initialize_session_state] on a fresh session. *)
Definition initial_session : session :=
  {| page := PageHome; selected_topic := None; questions := [];
     current_question_idx := 0; responses := ∅; start_time := None;
     question_start_times := ∅; first_attempt_times := ∅;
     option_changes := ∅; uploaded_files := ∅; marked_for_review := ∅;
     finished_reports := None |}.

(** ** Stage-1 aggregator *)

Record tally : Type := {
  t_correct : Z;
  t_incorrect : Z;
  t_unattempted : Z
}.

(** A reading of [datetime.now(timezone.utc)]: its
    [strftime('%Y_%m_%d_%H%M%S')] and its [isoformat()]. *)
Record moment : Type := { strftime_id : string; isoformat : string }.

(** [s.replace(' ', '_')] *)
Fixpoint replace_spaces (s : string) : string :=
  match s with
  | EmptyString => EmptyString
  | String c s' =>
      String (if Ascii.eqb c " "%char then "_"%char else c) (replace_spaces s')
  end.

(** The body of the loop of [generate_performance_report] for one
    question; [clock] is the reading of [time.time()] in it. *)
Definition stage1_question (rt : runtime) (st : session) (q : question)
    (clock : Q) (t : tally) (w : world) : question_data * tally * world :=
  let q_id := question_id q in
  let resp := default no_response (responses st !! q_id) in
  let '(work, w1) :=
    process_student_work rt q (responses st) (uploaded_files st) w in
  let answer := default "" (final_answer resp) in
  let '(is_correct, t1, w2) :=
    if Py.truthy answer then
      let '(verdict, w2) :=
        check_answer_with_llm rt answer (correct_answer q) (question_text q)
          (answer_type q) w1 in
      (verdict,
       if verdict
       then {| t_correct := t_correct t + 1; t_incorrect := t_incorrect t;
               t_unattempted := t_unattempted t |}
       else {| t_correct := t_correct t; t_incorrect := t_incorrect t + 1;
               t_unattempted := t_unattempted t |},
       w2)
    else
      (false,
       {| t_correct := t_correct t; t_incorrect := t_incorrect t;
          t_unattempted := t_unattempted t + 1 |},
       w1) in
  let time_spent :=
    match question_start_times st !! q_id with
    | Some q_start => Py.int_of_Q (clock - q_start)
    | None => 0
    end in
  let first_attempt_latency :=
    Py.int_of_Q (default 0%Q (first_attempt_times st !! q_id)) in
  let num_changes := default 0 (option_changes st !! q_id) in
  let outcome :=
    if num_changes >? 0
    then (if is_correct then "improved" else "worsened")
    else "none" in
  let uploaded := bool_decide (is_Some (uploaded_files st !! q_id)) in
  let typed := default "" (typed_work resp) in
  ({| qd_question_id := q_id;
      qd_question_type := question_type q;
      qd_difficulty := difficulty q;
      qd_concept_tags := concept_tags q;
      qd_submission :=
        {| sub_final_answer := answer;
           sub_correct_answer := correct_answer q;
           sub_is_correct := is_correct;
           sub_changed_answer := default false (changed_answer resp) |};
      qd_kpis :=
        {| time_spent_sec := time_spent;
           first_attempt_latency_sec := first_attempt_latency;
           num_option_changes := num_changes;
           revision_outcome := outcome |};
      qd_optional_work :=
        {| handwritten_uploaded := uploaded;
           typed_work_provided := Py.truthy typed;
           typed_work_text := typed;
           handwritten_work_ocr := wd_handwritten_work_ocr work;
           combined_work_text := wd_combined_work work |} |},
   t1, w2).

(** The loop over [st.session_state.questions], in order; [clocks idx]
    is the reading of the clock while question [idx] is processed. *)
Fixpoint stage1_loop (rt : runtime) (st : session) (clocks : nat -> Q)
    (idx : nat) (qs : list question) (t : tally) (w : world)
  : list question_data * tally * world :=
  match qs with
  | [] => ([], t, w)
  | q :: rest =>
      let '(qd, t1, w1) := stage1_question rt st q (clocks idx) t w in
      let '(qds, t2, w2) := stage1_loop rt st clocks (S idx) rest t1 w1 in
      (qd :: qds, t2, w2)
  end.

(** [generate_performance_report]. The result is [None] when building
    [assessment_id] raises because no topic is selected; the effects of
    the loop have happened by then. *)
Definition generate_performance_report (rt : runtime) (st : session)
    (now : moment) (clocks : nat -> Q) (w : world)
  : option stage1_report * world :=
  let '(questions_data, t, w1) :=
    stage1_loop rt st clocks 0 (questions st)
      {| t_correct := 0; t_incorrect := 0; t_unattempted := 0 |} w in
  match selected_topic st with
  | None => (None, w1)
  | Some topic =>
      let n := Z.of_nat (length (questions st)) in
      (Some
         {| s1_report_id := String.append "rep_" (strftime_id now);
            s1_generated_at_iso := isoformat now;
            s1_assessment_id :=
              String.concat ""
                [ "quiz_"; replace_spaces (Py.lower topic); "_v1" ];
            s1_num_questions := n;
            s1_score_summary :=
              {| raw_score := t_correct t;
                 max_score := n;
                 correct_count := t_correct t;
                 incorrect_count := t_incorrect t;
                 unattempted_count := t_unattempted t |};
            s1_questions := questions_data |},
       w1)
  end.

(** ** Stage-2 aggregator *)

(** [sum(1 for x in l if p(x))] *)
Definition count_if {A : Type} (p : A -> bool) (l : list A) : Z :=
  Z.of_nat (length (List.filter p l)).

(** [len(l)] *)
Definition len {A : Type} (l : list A) : Z := Z.of_nat (length l).

Definition sum_Z (l : list Z) : Z := fold_left Z.add l 0.

(** [a / b] on integers *)
Definition true_div (a b : Z) : Q := (inject_Z a / inject_Z b)%Q.

Definition Qlt_bool (x y : Q) : bool := negb (Qle_bool y x).

(** [statistics.mean] of a non-empty list of integers *)
Definition mean (l : list Z) : Q := true_div (sum_Z l) (len l).

(** [statistics.median] of a non-empty list of integers *)
Definition median_of (l : list Z) : Q :=
  let sorted := merge_sort Z.le l in
  let n := length sorted in
  let i := (n / 2)%nat in
  let lower_mid := nth (i - 1) sorted 0 in
  let upper_mid := nth i sorted 0 in
  if Nat.odd n then inject_Z upper_mid
  else (inject_Z (lower_mid + upper_mid) / 2)%Q.

(** [f(l) if l else 0] *)
Definition or_zero (f : list Z -> Q) (l : list Z) : Q :=
  match l with [] => 0%Q | _ => f l end.

(** [q['submission']['final_answer']] as a condition *)
Definition is_attempted (q : question_data) : bool :=
  Py.truthy (sub_final_answer (qd_submission q)).

Definition easy_time_threshold : Z := 120.
Definition impulsive_threshold : Z := 20.

Definition is_easy (q : question_data) : bool :=
  String.eqb (qd_difficulty q) "easy".

Definition overthinks (q : question_data) : bool :=
  time_spent_sec (qd_kpis q) >? easy_time_threshold.

(** [0 < q['kpis']['first_attempt_latency_sec'] < impulsive_threshold] *)
Definition is_impulsive (q : question_data) : bool :=
  (0 <? first_attempt_latency_sec (qd_kpis q))
  && (first_attempt_latency_sec (qd_kpis q) <? impulsive_threshold).

(** The value kept for one concept tag in [concept_data]. *)
Record concept_acc : Type := {
  ca_questions : list question_data;
  ca_attempted : Z;
  ca_correct : Z;
  ca_time_spent : list Z;
  ca_first_attempt : list Z;
  ca_option_changes : list Z;
  ca_changed_answers : Z;
  ca_work_evidence : list string
}.

Definition new_concept : concept_acc :=
  {| ca_questions := []; ca_attempted := 0; ca_correct := 0;
     ca_time_spent := []; ca_first_attempt := []; ca_option_changes := [];
     ca_changed_answers := 0; ca_work_evidence := [] |}.

(** One question added to the data of one of its concepts. *)
Definition add_question (q : question_data) (c : concept_acc) : concept_acc :=
  let k := qd_kpis q in
  if is_attempted q then
    {| ca_questions := ca_questions c ++ [q];
       ca_attempted := ca_attempted c + 1;
       ca_correct :=
         if sub_is_correct (qd_submission q) then ca_correct c + 1
         else ca_correct c;
       ca_time_spent :=
         if time_spent_sec k >? 0 then ca_time_spent c ++ [time_spent_sec k]
         else ca_time_spent c;
       ca_first_attempt :=
         if first_attempt_latency_sec k >? 0
         then ca_first_attempt c ++ [first_attempt_latency_sec k]
         else ca_first_attempt c;
       ca_option_changes := ca_option_changes c ++ [num_option_changes k];
       ca_changed_answers :=
         if sub_changed_answer (qd_submission q) then ca_changed_answers c + 1
         else ca_changed_answers c;
       ca_work_evidence :=
         if typed_work_provided (qd_optional_work q)
            || handwritten_uploaded (qd_optional_work q)
         then ca_work_evidence c ++ [qd_question_id q]
         else ca_work_evidence c |}
  else
    {| ca_questions := ca_questions c ++ [q];
       ca_attempted := ca_attempted c; ca_correct := ca_correct c;
       ca_time_spent := ca_time_spent c;
       ca_first_attempt := ca_first_attempt c;
       ca_option_changes := ca_option_changes c;
       ca_changed_answers := ca_changed_answers c;
       ca_work_evidence := ca_work_evidence c |}.

(** [concept_data[tag]] is created when missing, at the end of the
    dict, and then updated in place. *)
Fixpoint update_concept (tag : string) (f : concept_acc -> concept_acc)
    (concept_data : list (string * concept_acc)) : list (string * concept_acc) :=
  match concept_data with
  | [] => [(tag, f new_concept)]
  | (k, c) :: rest =>
      if String.eqb k tag then (k, f c) :: rest
      else (k, c) :: update_concept tag f rest
  end.

(** The two nested loops that fill [concept_data]. *)
Definition collect_concepts (qs : list question_data)
  : list (string * concept_acc) :=
  fold_left
    (fun concept_data q =>
       fold_left
         (fun concept_data tag => update_concept tag (add_question q) concept_data)
         (qd_concept_tags q) concept_data)
    qs [].

(** The rule-based rating. The source first sets it to 5; every branch
    below overwrites that value. *)
Definition work_quality_rule (evidence attempted_n : Z) (accuracy_v : Q) : Z :=
  if Qle_bool (inject_Z attempted_n * 0.8) (inject_Z evidence)
  then (if Qlt_bool 0.7 accuracy_v then 8 else 6)
  else if Qle_bool (inject_Z attempted_n * 0.5) (inject_Z evidence)
  then (if Qlt_bool 0.5 accuracy_v then 6 else 4)
  else 3.

(** The entry of [concepts_list] built from one item of [concept_data];
    [None] where the loop [continue]s. The concept confidence, a
    weighted sum that the source computes in floating-point arithmetic,
    is not part of the model. *)
Definition concept_entry (item : string * concept_acc) : option concept_obj :=
  let '(id, c) := item in
  if ca_attempted c =? 0 then None
  else
    let accuracy_v := true_div (ca_correct c) (ca_attempted c) in
    let evidence := len (ca_work_evidence c) in
    let work_quality_v := work_quality_rule evidence (ca_attempted c) accuracy_v in
    Some
      {| concept_id := id;
         attempted := ca_attempted c;
         correct := ca_correct c;
         accuracy := accuracy_v;
         concept_kpis_of :=
           {| avg_time_spent_sec := or_zero mean (ca_time_spent c);
              median_time_spent_sec := or_zero median_of (ca_time_spent c);
              avg_first_attempt_latency_sec := or_zero mean (ca_first_attempt c);
              median_first_attempt_latency_sec :=
                or_zero median_of (ca_first_attempt c);
              concept_changed_answer_rate :=
                true_div (ca_changed_answers c) (ca_attempted c);
              avg_num_option_changes := or_zero mean (ca_option_changes c) |};
         work_quality :=
           {| wq_value := work_quality_v;
              wq_evidence_count := evidence;
              wq_evidence_question_ids := take 5 (ca_work_evidence c) |} |}.

(** [generate_stage2_report]; [now_iso] is the timestamp it reads. *)
Definition generate_stage2_report (r : stage1_report) (now_iso : string)
  : stage2_report :=
  let qs := s1_questions r in
  let time_spent_list :=
    List.filter (fun x => x >? 0) (map (fun q => time_spent_sec (qd_kpis q)) qs) in
  let first_attempt_list :=
    List.filter (fun x => x >? 0)
      (map (fun q => first_attempt_latency_sec (qd_kpis q)) qs) in
  let option_changes_list := map (fun q => num_option_changes (qd_kpis q)) qs in
  let changed_answers :=
    count_if (fun q => sub_changed_answer (qd_submission q)) qs in
  let total_attempted := count_if is_attempted qs in
  let revision_outcomes := map (fun q => revision_outcome (qd_kpis q)) qs in
  let improved_count := count_if (String.eqb "improved") revision_outcomes in
  let worsened_count := count_if (String.eqb "worsened") revision_outcomes in
  let no_change_count := count_if (String.eqb "none") revision_outcomes in
  let total_revisions := improved_count + worsened_count + no_change_count in
  let easy_questions := List.filter is_easy qs in
  let overthinking_count := count_if overthinks easy_questions in
  let overthinking_index_v :=
    match easy_questions with
    | [] => 0%Q
    | _ => true_div overthinking_count (len easy_questions)
    end in
  let impulsive_count := count_if is_impulsive qs in
  let impulsivity_index_v :=
    if total_attempted >? 0 then true_div impulsive_count total_attempted
    else 0%Q in
  let rate (n : Z) : Q :=
    if total_revisions >? 0 then true_div n total_revisions else 0%Q in
  {| s2_report_id := String.append (s1_report_id r) "_stage2";
     s2_source_stage1_report_id := s1_report_id r;
     s2_generated_at_iso := now_iso;
     s2_kpis_summary :=
       {| ks_time_spent_sec :=
            {| avg := or_zero mean time_spent_list;
               median := or_zero median_of time_spent_list |};
          ks_first_attempt_latency_sec :=
            {| avg := or_zero mean first_attempt_list;
               median := or_zero median_of first_attempt_list |};
          ks_num_option_changes :=
            {| avg := or_zero mean option_changes_list;
               median := or_zero median_of option_changes_list |};
          changed_answer_rate :=
            if total_attempted >? 0 then true_div changed_answers total_attempted
            else 0%Q;
          ks_revision_effect :=
            {| improved_rate := rate improved_count;
               worsened_rate := rate worsened_count;
               no_change_rate := rate no_change_count |};
          overthinking_index := overthinking_index_v;
          easy_time_threshold_sec := easy_time_threshold;
          impulsivity_index := impulsivity_index_v;
          impulsive_threshold_sec := impulsive_threshold |};
     s2_concepts := omap concept_entry (collect_concepts qs) |}.

(** ** Stage-3 synthesizer *)

(** The list [work_summary]: one item per question whose combined work
    text is not empty. *)
Definition work_summary_of (r : stage1_report) : list work_item :=
  omap
    (fun q =>
       let combined_work := combined_work_text (qd_optional_work q) in
       if Py.truthy combined_work then
         Some {| wi_question_id := qd_question_id q;
                 wi_concept_tags := qd_concept_tags q;
                 wi_is_correct := sub_is_correct (qd_submission q);
                 wi_student_work := combined_work;
                 wi_correct_answer := sub_correct_answer (qd_submission q);
                 wi_student_answer := sub_final_answer (qd_submission q) |}
       else None)
    (s1_questions r).

(** What [work_context] shows of an item: [student_work[:500]]. *)
Definition excerpt (item : work_item) : work_item :=
  {| wi_question_id := wi_question_id item;
     wi_concept_tags := wi_concept_tags item;
     wi_is_correct := wi_is_correct item;
     wi_student_work := Py.slice_to 500 (wi_student_work item);
     wi_correct_answer := wi_correct_answer item;
     wi_student_answer := wi_student_answer item |}.

Definition fence : string := "```".
Definition json_fence : string := "```json".

(** The Markdown fences are taken off the stripped response. *)
Definition unfence (response_text : string) : string :=
  if Py.startswith json_fence response_text
  then Py.strip (Py.remove_all fence (Py.remove_all json_fence response_text))
  else if Py.startswith fence response_text
  then Py.strip (Py.remove_all fence response_text)
  else response_text.

(** [generate_stage3_report_with_llm]. The result is a Python value:
    what [json.loads] built, or [JNull] for [None]. *)
Definition generate_stage3_report_with_llm (rt : runtime)
    (stage2 : stage2_report) (stage1 : stage1_report) (now_iso : string)
    (w : world) : json * world :=
  match api_key_configured rt with
  | None => (JNull, notify ErrNoApiKey w)
  | Some _ =>
      let work_summary := work_summary_of stage1 in
      let prompt := Stage3Prompt stage2 (map excerpt work_summary) now_iso in
      match generate_content rt (requests w) model_name prompt with
      | Replies (Some text) =>
          let response_text := unfence (Py.strip text) in
          match json_loads rt response_text with
          | Some stage3_report => (stage3_report, tick w)
          | None =>
              (JNull,
               notify (ErrStage3Parse (Py.slice_to 500 response_text)) (tick w))
          end
      | _ => (JNull, notify ErrStage3Failed (tick w))
      end
  end.

(** ** The pages of the interactive shell *)

(** [v[key]] on a Python value; [None] when it raises. *)
Definition subscript (v : json) (key : string) : option json :=
  match v with
  | JDict d => dict_get key d
  | _ => None
  end.

Inductive submit_button : Type := BackToQuiz | SubmitQuiz.

(** What one run of the submit page reads from outside the session. *)
Record submit_input : Type := {
  si_pressed : option submit_button;
  si_now : moment;
  si_clocks : nat -> Q;
  si_stage2_now_iso : string;
  si_stage3_now_iso : string
}.

Definition set_page (p : page_name) (st : session) : session :=
  {| page := p; selected_topic := selected_topic st;
     questions := questions st;
     current_question_idx := current_question_idx st;
     responses := responses st; start_time := start_time st;
     question_start_times := question_start_times st;
     first_attempt_times := first_attempt_times st;
     option_changes := option_changes st;
     uploaded_files := uploaded_files st;
     marked_for_review := marked_for_review st;
     finished_reports := finished_reports st |}.

(** The session after a submission went through. *)
Definition finalize (f : finished) (st : session) : session :=
  {| page := PageResults; selected_topic := selected_topic st;
     questions := questions st;
     current_question_idx := current_question_idx st;
     responses := responses st; start_time := start_time st;
     question_start_times := question_start_times st;
     first_attempt_times := first_attempt_times st;
     option_changes := option_changes st;
     uploaded_files := uploaded_files st;
     marked_for_review := marked_for_review st;
     finished_reports := Some f |}.

Definition reports_dir : string := "quiz_reports".

(** [reports_dir / f"performance_report_{report_id}.json"] *)
Definition report_file_of (report_id : string) : string :=
  String.concat ""
    [ reports_dir; "/"; "performance_report_"; report_id; ".json" ].

(** The handler of the SUBMIT QUIZ button. A run that raises (no topic
    selected, or a report without [report_meta]/[report_id]) stops where
    it is: the session keeps its state and what was done outside the
    session stays done. *)
Definition submit_quiz (rt : runtime) (inp : submit_input) (st : session)
    (w : world) : session * world :=
  match generate_performance_report rt st (si_now inp) (si_clocks inp) w with
  | (None, w1) => (st, w1)
  | (Some stage1, w1) =>
      let stage2 := generate_stage2_report stage1 (si_stage2_now_iso inp) in
      let '(stage3, w2) :=
        generate_stage3_report_with_llm rt stage2 stage1
          (si_stage3_now_iso inp) w1 in
      if json_truthy stage3 then
        let w3 := mkdir reports_dir w2 in
        match subscript stage3 "report_meta" with
        | None => (st, w3)
        | Some meta =>
            match subscript meta "report_id" with
            | None => (st, w3)
            | Some report_id =>
                let report_file := report_file_of (py_str rt report_id) in
                let w4 := write_file report_file (json_dumps rt stage3) w3 in
                (finalize
                   {| fin_stage1_report := stage1;
                      fin_stage2_report := stage2;
                      fin_final_report := stage3;
                      fin_report_file := report_file |} st,
                 w4)
            end
        end
      else (st, notify ErrReportFailed w2)
  end.

(** [render_submit_page] *)
Definition render_submit_page (rt : runtime) (inp : submit_input)
    (st : session) (w : world) : session * world :=
  match si_pressed inp with
  | None => (st, w)
  | Some BackToQuiz => (set_page PageQuiz st, w)
  | Some SubmitQuiz => submit_quiz rt inp st w
  end.

Definition set_current_question_idx (i : Z) (st : session) : session :=
  {| page := page st; selected_topic := selected_topic st;
     questions := questions st; current_question_idx := i;
     responses := responses st; start_time := start_time st;
     question_start_times := question_start_times st;
     first_attempt_times := first_attempt_times st;
     option_changes := option_changes st;
     uploaded_files := uploaded_files st;
     marked_for_review := marked_for_review st;
     finished_reports := finished_reports st |}.

Definition set_responses (m : gmap string response) (st : session) : session :=
  {| page := page st; selected_topic := selected_topic st;
     questions := questions st;
     current_question_idx := current_question_idx st;
     responses := m; start_time := start_time st;
     question_start_times := question_start_times st;
     first_attempt_times := first_attempt_times st;
     option_changes := option_changes st;
     uploaded_files := uploaded_files st;
     marked_for_review := marked_for_review st;
     finished_reports := finished_reports st |}.

Definition set_question_start_times (m : gmap string Q) (st : session) : session :=
  {| page := page st; selected_topic := selected_topic st;
     questions := questions st;
     current_question_idx := current_question_idx st;
     responses := responses st; start_time := start_time st;
     question_start_times := m;
     first_attempt_times := first_attempt_times st;
     option_changes := option_changes st;
     uploaded_files := uploaded_files st;
     marked_for_review := marked_for_review st;
     finished_reports := finished_reports st |}.

Definition set_first_attempt_times (m : gmap string Q) (st : session) : session :=
  {| page := page st; selected_topic := selected_topic st;
     questions := questions st;
     current_question_idx := current_question_idx st;
     responses := responses st; start_time := start_time st;
     question_start_times := question_start_times st;
     first_attempt_times := m;
     option_changes := option_changes st;
     uploaded_files := uploaded_files st;
     marked_for_review := marked_for_review st;
     finished_reports := finished_reports st |}.

Definition set_option_changes (m : gmap string Z) (st : session) : session :=
  {| page := page st; selected_topic := selected_topic st;
     questions := questions st;
     current_question_idx := current_question_idx st;
     responses := responses st; start_time := start_time st;
     question_start_times := question_start_times st;
     first_attempt_times := first_attempt_times st;
     option_changes := m;
     uploaded_files := uploaded_files st;
     marked_for_review := marked_for_review st;
     finished_reports := finished_reports st |}.

Definition set_uploaded_files (m : gmap string upload) (st : session) : session :=
  {| page := page st; selected_topic := selected_topic st;
     questions := questions st;
     current_question_idx := current_question_idx st;
     responses := responses st; start_time := start_time st;
     question_start_times := question_start_times st;
     first_attempt_times := first_attempt_times st;
     option_changes := option_changes st;
     uploaded_files := m;
     marked_for_review := marked_for_review st;
     finished_reports := finished_reports st |}.

Definition set_marked_for_review (s : gset string) (st : session) : session :=
  {| page := page st; selected_topic := selected_topic st;
     questions := questions st;
     current_question_idx := current_question_idx st;
     responses := responses st; start_time := start_time st;
     question_start_times := question_start_times st;
     first_attempt_times := first_attempt_times st;
     option_changes := option_changes st;
     uploaded_files := uploaded_files st;
     marked_for_review := s;
     finished_reports := finished_reports st |}.

(** *** Home page *)

Definition topics : list string :=
  [ "Algebra"; "Combinatorics"; "Calculus"; "Number Theory"; "Geometry";
    "Miscellaneous" ].

Inductive home_button : Type :=
| TopicButton (topic_name : string)
| StartQuiz.

(** What one run of the home page reads from outside the session:
    the button pressed, what [get_questions_from_db] returns and the
    clock. *)
Record home_input : Type := {
  hi_pressed : option home_button;
  hi_fetched : list question;
  hi_now : Q
}.

(** [render_home_page]. The slider value is not kept in the model. *)
Definition render_home_page (inp : home_input) (st : session) : session :=
  match hi_pressed inp with
  | Some (TopicButton topic_name) =>
      if existsb (String.eqb topic_name) topics then
        {| page := page st; selected_topic := Some topic_name;
           questions := questions st;
           current_question_idx := current_question_idx st;
           responses := responses st; start_time := start_time st;
           question_start_times := question_start_times st;
           first_attempt_times := first_attempt_times st;
           option_changes := option_changes st;
           uploaded_files := uploaded_files st;
           marked_for_review := marked_for_review st;
           finished_reports := finished_reports st |}
      else st
  | Some StartQuiz =>
      if Py.truthy (default "" (selected_topic st)) then
        match hi_fetched inp with
        | [] =>
            {| page := page st; selected_topic := selected_topic st;
               questions := [];
               current_question_idx := current_question_idx st;
               responses := responses st; start_time := start_time st;
               question_start_times := question_start_times st;
               first_attempt_times := first_attempt_times st;
               option_changes := option_changes st;
               uploaded_files := uploaded_files st;
               marked_for_review := marked_for_review st;
               finished_reports := finished_reports st |}
        | fetched =>
            {| page := PageQuiz; selected_topic := selected_topic st;
               questions := fetched;
               current_question_idx := 0;
               responses := ∅; start_time := Some (hi_now inp);
               question_start_times := ∅;
               first_attempt_times := ∅;
               option_changes := ∅;
               uploaded_files := uploaded_files st;
               marked_for_review := marked_for_review st;
               finished_reports := finished_reports st |}
        end
      else st
  | None => st
  end.

(** *** Quiz page *)

Inductive quiz_button : Type := Previous | MarkReview | NextOrFinish.

(** The file in the uploader widget; [uw_opens] says whether
    [Image.open] accepts it. *)
Record uploaded_widget : Type := {
  uw_name : string;
  uw_bytes : string;
  uw_opens : bool
}.

(** What one run of the quiz page reads from outside the session: the
    widgets' values, the button pressed and three readings of the
    clock. *)
Record quiz_input : Type := {
  qi_back_home : bool;
  qi_nav : option nat;
  qi_numerical_answer : string;
  qi_uploaded_file : option uploaded_widget;
  qi_typed_work : string;
  qi_pressed : option quiz_button;
  qi_t_shown : Q;
  qi_t_edit : Q;
  qi_t_stamp : Q
}.

(** [l[i]] with Python's negative indices; [None] when it raises. *)
Definition py_index {A : Type} (l : list A) (i : Z) : option A :=
  let n := len l in
  if (0 <=? i) && (i <? n) then l !! Z.to_nat i
  else if (- n <=? i) && (i <? 0) then l !! Z.to_nat (n + i)
  else None.

(** The answer widget holds a new non-empty value for question [q_id]. *)
Definition record_answer (inp : quiz_input) (q_id : string) (st : session)
  : session :=
  let q_start := default (qi_t_shown inp) (question_start_times st !! q_id) in
  let st1 :=
    match first_attempt_times st !! q_id with
    | Some _ => st
    | None =>
        set_first_attempt_times
          (<[q_id := (qi_t_edit inp - q_start)%Q]> (first_attempt_times st)) st
    end in
  let changes :=
    match option_changes st1 !! q_id with
    | None => 0
    | Some n => n + 1
    end in
  let st2 := set_option_changes (<[q_id := changes]> (option_changes st1)) st1 in
  set_responses
    (<[q_id := {| final_answer := Some (qi_numerical_answer inp);
                  changed_answer := Some (changes >? 0);
                  timestamp := Some (qi_t_stamp inp);
                  typed_work := None |}]> (responses st2))
    st2.

(** The typed-work widget holds a non-empty value for question [q_id]. *)
Definition record_typed_work (typed : string) (q_id : string) (st : session)
  : session :=
  match responses st !! q_id with
  | Some r =>
      set_responses
        (<[q_id := {| final_answer := final_answer r;
                      changed_answer := changed_answer r;
                      timestamp := timestamp r;
                      typed_work := Some typed |}]> (responses st))
        st
  | None =>
      set_responses
        (<[q_id := {| final_answer := None; changed_answer := None;
                      timestamp := None; typed_work := Some typed |}]>
           (responses st))
        st
  end.

(** The three buttons below the question. *)
Definition quiz_buttons (pressed : option quiz_button) (q_id : string)
    (st : session) : session :=
  match pressed with
  | Some Previous =>
      if current_question_idx st >? 0
      then set_current_question_idx (current_question_idx st - 1) st
      else st
  | Some MarkReview =>
      if bool_decide (q_id ∈ marked_for_review st)
      then set_marked_for_review (marked_for_review st ∖ {[q_id]}) st
      else set_marked_for_review ({[q_id]} ∪ marked_for_review st) st
  | Some NextOrFinish =>
      if current_question_idx st <? len (questions st) - 1
      then set_current_question_idx (current_question_idx st + 1) st
      else set_page PageSubmit st
  | None => st
  end.

(** [render_quiz_page] *)
Definition render_quiz_page (rt : runtime) (inp : quiz_input) (st : session)
  : session :=
  match questions st with
  | [] => if qi_back_home inp then set_page PageHome st else st
  | _ =>
      let navigated :=
        match qi_nav inp with
        | Some i =>
            if (i <? length (questions st))%nat
               && negb (Z.of_nat i =? current_question_idx st)
            then Some i else None
        | None => None
        end in
      match navigated with
      | Some i => set_current_question_idx (Z.of_nat i) st
      | None =>
          match py_index (questions st) (current_question_idx st) with
          | None => st
          | Some current_question =>
              let q_id := question_id current_question in
              let st1 :=
                match question_start_times st !! q_id with
                | Some _ => st
                | None =>
                    set_question_start_times
                      (<[q_id := qi_t_shown inp]> (question_start_times st)) st
                end in
              let prev_response := default no_response (responses st1 !! q_id) in
              let st2 :=
                if Py.truthy (qi_numerical_answer inp)
                   && negb (String.eqb (qi_numerical_answer inp)
                              (default "" (final_answer prev_response)))
                then record_answer inp q_id st1 else st1 in
              let st3 :=
                match qi_uploaded_file inp with
                | Some f =>
                    set_uploaded_files
                      (<[q_id := {| filename := uw_name f;
                                    data := b64encode rt (uw_bytes f) |}]>
                         (uploaded_files st2))
                      st2
                | None => st2
                end in
              if negb (default true (uw_opens <$> qi_uploaded_file inp))
              then st3
              else
                let st4 :=
                  if Py.truthy (qi_typed_work inp)
                  then record_typed_work (qi_typed_work inp) q_id st3 else st3 in
                quiz_buttons (qi_pressed inp) q_id st4
          end
      end
  end.

(** *** Results page *)

(** [render_results_page]: only the Back to Home button changes the
    session. *)
Definition render_results_page (back_home : bool) (st : session) : session :=
  if back_home then
    {| page := PageHome; selected_topic := None; questions := [];
       current_question_idx := 0; responses := ∅;
       start_time := start_time st;
       question_start_times := question_start_times st;
       first_attempt_times := first_attempt_times st;
       option_changes := option_changes st;
       uploaded_files := uploaded_files st;
       marked_for_review := marked_for_review st;
       finished_reports := finished_reports st |}
  else st.

(** *** Dispatch *)

(** What one run of the script reads from outside the session. *)
Record inputs : Type := {
  in_home : home_input;
  in_quiz : quiz_input;
  in_submit : submit_input;
  in_results : bool
}.

(** [main]: one run of the script on the current page. *)
Definition main (rt : runtime) (inp : inputs) (st : session) (w : world)
  : session * world :=
  match page st with
  | PageHome => (render_home_page (in_home inp) st, w)
  | PageQuiz => (render_quiz_page rt (in_quiz inp) st, w)
  | PageSubmit => render_submit_page rt (in_submit inp) st w
  | PageResults => (render_results_page (in_results inp) st, w)
  end.

(** The sessions the application can be in: the fresh one, and any one
    a run of [main] leads to, whatever it reads from outside. *)
Inductive reachable : session -> Prop :=
| reachable_initial : reachable initial_session
| reachable_run (rt : runtime) (inp : inputs) (st : session) (w : world) :
    reachable st -> reachable (fst (main rt inp st w)).

(** ** Invariants of the session *)

(** A question with a recorded first-attempt time has a stored,
    non-empty final answer. *)
Definition answered_if_timed (st : session) : Prop :=
  forall q_id t, first_attempt_times st !! q_id = Some t ->
    exists r a, responses st !! q_id = Some r
                /\ final_answer r = Some a /\ Py.truthy a = true.

(** The edit counters are never negative. *)
Definition changes_nonneg (st : session) : Prop :=
  forall q_id n, option_changes st !! q_id = Some n -> 0 <= n.

(** Away from the home page a quiz is under way: a topic is selected
    and the timing tables agree with the responses. *)
Definition session_inv (st : session) : Prop :=
  changes_nonneg st
  /\ (page st <> PageHome ->
      answered_if_timed st /\ is_Some (selected_topic st)).

(** ** The KPI formulas in the words of the specification *)

(** The fraction of attempted questions whose first-attempt latency
    lies strictly between 0 and 20 seconds; 0 if nothing is attempted. *)
Definition impulsivity_fraction (qs : list question_data) : Q :=
  let attempted_qs := List.filter is_attempted qs in
  match attempted_qs with
  | [] => 0%Q
  | _ =>
      true_div
        (count_if
           (fun q =>
              (0 <? first_attempt_latency_sec (qd_kpis q))
              && (first_attempt_latency_sec (qd_kpis q) <? 20))
           attempted_qs)
        (len attempted_qs)
  end.

(** The number of questions, attempted or not, whose first-attempt
    latency lies strictly between 0 and 20 seconds, over the number of
    attempted questions; 0 if nothing is attempted. *)
Definition impulsive_over_attempted (qs : list question_data) : Q :=
  let n_attempted := count_if is_attempted qs in
  let n_impulsive :=
    count_if
      (fun q =>
         (0 <? first_attempt_latency_sec (qd_kpis q))
         && (first_attempt_latency_sec (qd_kpis q) <? 20))
      qs in
  if n_attempted =? 0 then 0%Q else true_div n_impulsive n_attempted.

(** The number of easy questions that took more than 120 seconds over
    the number of easy questions; 0 if there is none. Its argument
    lists, for every question of the report, the difficulty and the
    time spent and nothing else. *)
Definition overthinking_fraction (qs : list (string * Z)) : Q :=
  let n_easy := count_if (fun '(d, _) => String.eqb d "easy") qs in
  let n_slow := count_if (fun '(d, t) => String.eqb d "easy" && (120 <? t)) qs in
  if n_easy =? 0 then 0%Q else true_div n_slow n_easy.

(** The keys the extractor looks under, in order, for an answer type. *)
Definition answer_keys (answer_type : string) : list string :=
  [ "answer"; "value" ]
  ++ (if String.eqb answer_type "integer" || String.eqb answer_type "float"
      then [ "number"; "numerical_value"; "result" ] else []).

(** The value at the first key of [keys] that the object has. *)
Fixpoint first_present (keys : list string) (d : list (string * json))
  : option json :=
  match keys with
  | [] => None
  | k :: rest =>
      match dict_get k d with
      | Some v => Some v
      | None => first_present rest d
      end
  end.

(** The combined text as the specification spells it, without the
    Markdown emphasis of the source. *)
Definition combined_format_of_spec (typed ocr : string) : string :=
  String.concat ""
    [ "Typed Work:"; Py.nl; typed; Py.nl; Py.nl;
      "Handwritten Work (OCR):"; Py.nl; ocr ].

(** [t] is [s] without its leading and trailing whitespace. *)
Definition all_space (s : string) : Prop :=
  Forall (fun c => Py.isspace c = true) (list_ascii_of_string s).

Definition trimmed_of (s t : string) : Prop :=
  exists pre post,
    s = String.append pre (String.append t post)
    /\ all_space pre /\ all_space post
    /\ (forall c rest, t = String c rest -> Py.isspace c = false)
    /\ (forall c front, t = String.append front (String c "") ->
        Py.isspace c = false).

(** Two strings of the same letters, whatever their case. *)
Definition same_ignoring_case (s t : string) : Prop :=
  Forall2 (fun a b => Py.lower_char a = Py.lower_char b)
    (list_ascii_of_string s) (list_ascii_of_string t).

(** Stage 3 has no report to give: the key is missing, the call raises
    or answers without text, or the answer does not parse. *)
Definition stage3_fails (rt : runtime) (stage2 : stage2_report)
    (stage1 : stage1_report) (now_iso : string) (w : world) : Prop :=
  api_key_configured rt = None
  \/ match generate_content rt (requests w) model_name
             (Stage3Prompt stage2 (map excerpt (work_summary_of stage1)) now_iso) with
     | Replies (Some text) => json_loads rt (unfence (Py.strip text)) = None
     | _ => True
     end.

(** What the invariant reads of a session. *)
Definition same_tables (st st' : session) : Prop :=
  responses st' = responses st
  /\ first_attempt_times st' = first_attempt_times st
  /\ option_changes st' = option_changes st
  /\ selected_topic st' = selected_topic st.

(** What a Stage-1 record owes to the session it was built from. *)
Definition record_ok (qd : question_data) : Prop :=
  (0 < first_attempt_latency_sec (qd_kpis qd) -> is_attempted qd = true)
  /\ 0 <= num_option_changes (qd_kpis qd)
  /\ revision_outcome (qd_kpis qd)
     = (if num_option_changes (qd_kpis qd) >? 0
        then (if sub_is_correct (qd_submission qd) then "improved" else "worsened")
        else "none").

(** ** Examples: a runtime stub, a short quiz and its session *)

Module Demo.

(** The double quote. *)
Definition dq : string := String (ascii_of_nat 34) EmptyString.

(** The text [{"answer": 42}]. *)
Definition object_text : string :=
  String.concat "" [ "{"; dq; "answer"; dq; ": 42}" ].

Definition list_text : string := "[7, 8]".

(** A JSON codec that knows the two texts above and rejects the rest
    of what the examples feed it. *)
Definition loads (s : string) : option json :=
  if String.eqb s object_text then Some (JDict [("answer", JInt 42)])
  else if String.eqb s list_text then Some (JList [JInt 7; JInt 8])
  else None.

(** [str] of the scalars the examples meet. *)
Definition str (v : json) : string :=
  match v with
  | JNull => "None"
  | JBool true => "True"
  | JBool false => "False"
  | JInt z => pretty z
  | JStr s => s
  | _ => ""
  end.

(** What the service stub answers: the judge is told [CORRECT], the
    transcription reads [x = 2], the synthesis is not JSON. *)
Definition answers (n : nat) (model : string) (c : contents) : reply :=
  match c with
  | CheckAnswerPrompt _ _ _ _ => Replies (Some "CORRECT")
  | OcrRequest _ _ => Replies (Some " x = 2 ")
  | Stage3Prompt _ _ _ => Replies (Some "Sorry, no plan today.")
  end.

(** No credential is configured. *)
Definition offline : runtime :=
  {| getenv_api_key := None;
     json_loads := loads; json_dumps := str; py_str := str;
     b64encode := fun s => s; b64decode := fun s => Some s;
     files_upload := fun _ _ _ => None;
     generate_content := fun _ _ _ => Raises |}.

(** A credential is configured and the service answers. *)
Definition online : runtime :=
  {| getenv_api_key := Some "key";
     json_loads := loads; json_dumps := str; py_str := str;
     b64encode := fun s => s; b64decode := fun s => Some s;
     files_upload :=
       fun _ path bytes => Some {| fh_path := path; fh_bytes := bytes |};
     generate_content := answers |}.

(** A credential is configured and the upload endpoint fails. *)
Definition upload_fails : runtime :=
  {| getenv_api_key := Some "key";
     json_loads := loads; json_dumps := str; py_str := str;
     b64encode := fun s => s; b64decode := fun s => Some s;
     files_upload := fun _ _ _ => None;
     generate_content := answers |}.

Definition the_question : question :=
  {| question_id := "OLY_1"; question_type := "numerical";
     difficulty := "easy"; concept_tags := [ "ALGEBRA" ];
     question_text := "Solve x + 1 = 3."; correct_answer := "2";
     answer_type := "integer"; unit := ""; solution := None |}.

Definition empty_world : world :=
  {| files := ∅; dirs := ∅; notices := []; requests := 0 |}.

Definition a_moment : moment :=
  {| strftime_id := "2026_01_01_000000";
     isoformat := "2026-01-01T00:00:00+00:00" |}.

Definition idle_home : home_input :=
  {| hi_pressed := None; hi_fetched := []; hi_now := 0%Q |}.

Definition idle_quiz : quiz_input :=
  {| qi_back_home := false; qi_nav := None; qi_numerical_answer := "";
     qi_uploaded_file := None; qi_typed_work := ""; qi_pressed := None;
     qi_t_shown := 0%Q; qi_t_edit := 0%Q; qi_t_stamp := 0%Q |}.

Definition submit_pressed : submit_input :=
  {| si_pressed := Some SubmitQuiz; si_now := a_moment;
     si_clocks := fun _ => 200%Q;
     si_stage2_now_iso := "2026-01-01T00:00:01+00:00";
     si_stage3_now_iso := "2026-01-01T00:00:02+00:00" |}.

(** The student picks Algebra, ... *)
Definition pick_topic : inputs :=
  {| in_home := {| hi_pressed := Some (TopicButton "Algebra");
                   hi_fetched := []; hi_now := 0%Q |};
     in_quiz := idle_quiz; in_submit := submit_pressed; in_results := false |}.

(** ... starts a quiz of one question, ... *)
Definition start_quiz : inputs :=
  {| in_home := {| hi_pressed := Some StartQuiz;
                   hi_fetched := [ the_question ]; hi_now := 10%Q |};
     in_quiz := idle_quiz; in_submit := submit_pressed; in_results := false |}.

(** ... answers it after five seconds with typed work and a photo, and
    finishes. *)
Definition answer_and_finish : inputs :=
  {| in_home := idle_home;
     in_quiz :=
       {| qi_back_home := false; qi_nav := None; qi_numerical_answer := "2";
          qi_uploaded_file :=
            Some {| uw_name := "work.jpg"; uw_bytes := "JFIF"; uw_opens := true |};
          qi_typed_work := "subtract 1";
          qi_pressed := Some NextOrFinish;
          qi_t_shown := 11%Q; qi_t_edit := 16%Q; qi_t_stamp := 16%Q |};
     in_submit := submit_pressed; in_results := false |}.

(** The session on the submit page after these three runs. *)
Definition session_at_submit : session :=
  fst (main offline answer_and_finish
         (fst (main offline start_quiz
                 (fst (main offline pick_topic initial_session empty_world))
                 empty_world))
         empty_world).

(** The Stage-1 report of that session; the empty one stands for no
    report. *)
Definition report_of (rt : runtime) : stage1_report :=
  default
    {| s1_report_id := ""; s1_generated_at_iso := ""; s1_assessment_id := "";
       s1_num_questions := 0;
       s1_score_summary :=
         {| raw_score := 0; max_score := 0; correct_count := 0;
            incorrect_count := 0; unattempted_count := 0 |};
       s1_questions := [] |}
    (fst (generate_performance_report rt session_at_submit a_moment
            (fun _ => 200%Q) empty_world)).

(** The only record of that report; the blank one stands for none. *)
Definition record_of (rt : runtime) : question_data :=
  default
    {| qd_question_id := ""; qd_question_type := ""; qd_difficulty := "";
       qd_concept_tags := [];
       qd_submission :=
         {| sub_final_answer := ""; sub_correct_answer := "";
            sub_is_correct := false; sub_changed_answer := false |};
       qd_kpis :=
         {| time_spent_sec := 0; first_attempt_latency_sec := 0;
            num_option_changes := 0; revision_outcome := "" |};
       qd_optional_work :=
         {| handwritten_uploaded := false; typed_work_provided := false;
            typed_work_text := ""; handwritten_work_ocr := "";
            combined_work_text := "" |} |}
    (head (s1_questions (report_of rt))).

(** The only concept of the Stage-2 report built from it; the blank
    one stands for none. *)
Definition concept_of (rt : runtime) : concept_obj :=
  default
    {| concept_id := ""; attempted := 0; correct := 0; accuracy := 0%Q;
       concept_kpis_of :=
         {| avg_time_spent_sec := 0%Q; median_time_spent_sec := 0%Q;
            avg_first_attempt_latency_sec := 0%Q;
            median_first_attempt_latency_sec := 0%Q;
            concept_changed_answer_rate := 0%Q;
            avg_num_option_changes := 0%Q |};
       work_quality :=
         {| wq_value := 0; wq_evidence_count := 0;
            wq_evidence_question_ids := [] |} |}
    (head (s2_concepts (generate_stage2_report (report_of rt) "now"))).

(** A hand-written Stage-1 record: difficulty, time spent, first-attempt
    latency and final answer, everything else blank. *)
Definition record (d : string) (time_spent latency : Z) (answer : string)
  : question_data :=
  {| qd_question_id := ""; qd_question_type := "numerical"; qd_difficulty := d;
     qd_concept_tags := [ "ALGEBRA" ];
     qd_submission :=
       {| sub_final_answer := answer; sub_correct_answer := "2";
          sub_is_correct := String.eqb answer "2"; sub_changed_answer := false |};
     qd_kpis :=
       {| time_spent_sec := time_spent; first_attempt_latency_sec := latency;
          num_option_changes := 0; revision_outcome := "none" |};
     qd_optional_work :=
       {| handwritten_uploaded := false; typed_work_provided := false;
          typed_work_text := ""; handwritten_work_ocr := "";
          combined_work_text := "" |} |}.

(** A hand-written Stage-1 report around such records. *)
Definition report_with (qs : list question_data) : stage1_report :=
  {| s1_report_id := "rep_2026_01_01_000000";
     s1_generated_at_iso := "2026-01-01T00:00:00+00:00";
     s1_assessment_id := "quiz_algebra_v1";
     s1_num_questions := len qs;
     s1_score_summary :=
       {| raw_score := count_if (fun q => sub_is_correct (qd_submission q)) qs;
          max_score := len qs;
          correct_count := count_if (fun q => sub_is_correct (qd_submission q)) qs;
          incorrect_count :=
            count_if
              (fun q => is_attempted q && negb (sub_is_correct (qd_submission q)))
              qs;
          unattempted_count := count_if (fun q => negb (is_attempted q)) qs |};
     s1_questions := qs |}.

(** A text of [n] characters. *)
Definition text_of_length (n : nat) : string :=
  string_of_list_ascii (repeat "x"%char n).

End Demo.

(** ** Question store adapter: fetching a batch *)

(** A row of [problems] in [olympiad.db], in the order of the SELECT.
    [None] is SQL NULL. The columns [problem] and [answer_type] are
    read as text. *)
Record olympiad_row : Type := {
  oly_id : option Z;
  oly_subfield : option string;
  oly_problem : string;
  oly_final_answer_json : option string;
  oly_answer_type : string;
  oly_unit : option string;
  oly_solution : option string
}.

(** A row of [problems] in [calculus.db], in the order of the SELECT;
    [id] is the primary key. *)
Record calculus_row : Type := {
  calc_id : Z;
  calc_problem : string;
  calc_expected_answer : option string;
  calc_problem_type : option string;
  calc_problem_source : option string
}.

(** What [get_questions_from_db] asks of the two stores and of Python:
    the rows a query returns for a subfield filter and a limit ([None]
    when [sqlite3] raises), [random.shuffle] and [str.upper]. *)
Record store : Type := {
  olympiad_rows : option string -> Z -> option (list olympiad_row);
  calculus_rows : Z -> option (list calculus_row);
  shuffled : list question -> list question;
  str_upper : string -> string
}.

(** [topic_mapping.get(topic, ("olympiad.db", None))] *)
Definition topic_mapping (topic : string) : string * option (list string) :=
  if String.eqb topic "Algebra" then ("olympiad.db", Some [ "Algebra" ])
  else if String.eqb topic "Calculus" then ("calculus.db", None)
  else if String.eqb topic "Geometry" then ("olympiad.db", Some [ "Geometry" ])
  else if String.eqb topic "Number Theory"
  then ("olympiad.db", Some [ "Number Theory" ])
  else if String.eqb topic "Combinatorics"
  then ("olympiad.db", Some [ "Combinatorics" ])
  else ("olympiad.db", None).

(** What the loop body does with a row: [continue], raise, or append a
    question. *)
Inductive row_result : Type :=
| Skipped
| Raised
| Kept (q : question).

(** [f"{problem_id}"] *)
Definition format_id (id : option Z) : string :=
  match id with
  | Some z => pretty z
  | None => "None"
  end.

(** The loop body for a row of the first store. A NULL subfield raises
    at [subfield.upper()], after the row passed the answer test. *)
Definition olympiad_question (sto : store) (rt : runtime) (row : olympiad_row)
  : row_result :=
  match extract_answer_from_json rt (oly_final_answer_json row)
          (oly_answer_type row) with
  | None => Skipped
  | Some correct =>
      if negb (Py.truthy correct) then Skipped
      else
        match oly_subfield row with
        | None => Raised
        | Some subfield =>
            Kept
              {| question_id := String.append "OLY_" (format_id (oly_id row));
                 question_type := "numerical";
                 difficulty := olympiad_difficulty (oly_solution row);
                 concept_tags := [ replace_spaces (str_upper sto subfield) ];
                 question_text := oly_problem row;
                 correct_answer := correct;
                 answer_type := oly_answer_type row;
                 unit := default "" (oly_unit row);
                 solution := oly_solution row |}
        end
  end.

(** The loop body for a row of the second store. *)
Definition calculus_question (sto : store) (row : calculus_row) : row_result :=
  let expected := default "" (calc_expected_answer row) in
  if negb (Py.truthy expected) then Skipped
  else
    let problem_type := default "" (calc_problem_type row) in
    Kept
      {| question_id := String.append "CALC_" (pretty (calc_id row));
         question_type := "numerical";
         difficulty := calculus_difficulty (calc_problem_source row);
         concept_tags :=
           [ "CALCULUS";
             if Py.truthy problem_type
             then replace_spaces (str_upper sto problem_type)
             else "GENERAL" ];
         question_text := calc_problem row;
         correct_answer := expected;
         answer_type := "expression";
         unit := "";
         solution := None |}.

(** The loop over the fetched rows; [None] when a row raises. *)
Fixpoint collect_rows {R : Type} (body : R -> row_result) (rows : list R)
  : option (list question) :=
  match rows with
  | [] => Some []
  | row :: rest =>
      match body row with
      | Raised => None
      | Skipped => collect_rows body rest
      | Kept q =>
          match collect_rows body rest with
          | Some qs => Some (q :: qs)
          | None => None
          end
      end
  end.

(** [l[:n]] *)
Definition slice_list {A : Type} (n : Z) (l : list A) : list A :=
  if 0 <=? n then take (Z.to_nat n) l else take (Z.to_nat (len l + n)) l.

(** How a fetch ends: with questions, in the [sqlite3.Error] handler or
    in the handler of any other exception. Both handlers show an error
    and return the empty list. *)
Inductive fetch_outcome : Type :=
| Fetched (qs : list question)
| DatabaseError
| FetchError.

(** [get_questions_from_db] *)
Definition get_questions_from_db (sto : store) (rt : runtime)
    (topic : string) (num_questions : Z) : fetch_outcome :=
  let '(db_file, subfields) := topic_mapping topic in
  let fetched :=
    if String.eqb db_file "olympiad.db" then
      let filter :=
        match subfields with
        | Some [ subfield ] => Some subfield
        | _ => None
        end in
      match olympiad_rows sto filter (num_questions * 2) with
      | None => None
      | Some rows => Some (collect_rows (olympiad_question sto rt) rows)
      end
    else
      match calculus_rows sto (num_questions * 2) with
      | None => None
      | Some rows => Some (collect_rows (calculus_question sto) rows)
      end in
  match fetched with
  | None => DatabaseError
  | Some None => FetchError
  | Some (Some questions_list) =>
      Fetched (slice_list num_questions (shuffled sto questions_list))
  end.

(** The list the caller receives. *)
Definition questions_of (o : fetch_outcome) : list question :=
  match o with
  | Fetched qs => qs
  | _ => []
  end.

(** The subfield the first store is filtered by for a topic. *)
Definition olympiad_filter (topic : string) : option string :=
  match snd (topic_mapping topic) with
  | Some [ subfield ] => Some subfield
  | _ => None
  end.

(** The labels in the order easy, medium, hard. *)
Definition difficulty_rank (label : string) : Z :=
  if String.eqb label "easy" then 0
  else if String.eqb label "medium" then 1
  else 2.

(** What every question built from a row looks like. *)
Definition well_formed_question (q : question) : Prop :=
  Py.truthy (correct_answer q) = true
  /\ question_type q = "numerical"
  /\ In (difficulty q) [ "easy"; "medium"; "hard" ]
  /\ concept_tags q <> [].

(** A row the loop of the first store appends a question for. *)
Definition usable (sto : store) (rt : runtime) (row : olympiad_row) : bool :=
  match olympiad_question sto rt row with
  | Kept _ => true
  | _ => false
  end.

(** ** Further invariants of the session *)

(** Away from the home page the current index points at a question. *)
Definition index_in_range (st : session) : Prop :=
  page st <> PageHome ->
  0 <= current_question_idx st < len (questions st).

(** The edit counter of a question exists exactly when a final answer
    is stored for it, and the stored [changed_answer] flag says whether
    the counter is positive. *)
Definition counters_core (st : session) : Prop :=
  (forall q_id n, option_changes st !! q_id = Some n ->
     exists r a, responses st !! q_id = Some r /\ final_answer r = Some a
                 /\ Py.truthy a = true /\ changed_answer r = Some (n >? 0))
  /\ (forall q_id r, responses st !! q_id = Some r ->
        match final_answer r with
        | Some a =>
            Py.truthy a = true
            /\ exists n, option_changes st !! q_id = Some n
                         /\ changed_answer r = Some (n >? 0)
        | None => option_changes st !! q_id = None /\ changed_answer r = None
        end).

(** It holds away from the home page. *)
Definition counters_agree (st : session) : Prop :=
  page st <> PageHome -> counters_core st.

(** What editing an answer or the work leaves alone. *)
Definition same_quiz (st st' : session) : Prop :=
  questions st' = questions st
  /\ current_question_idx st' = current_question_idx st
  /\ finished_reports st' = finished_reports st
  /\ page st' = page st.

(** The sessions the application can be in when every run stringifies
    Python values with the same [str], here [to_str]. *)
Inductive reachable_with (to_str : json -> string) : session -> Prop :=
| reachable_with_initial : reachable_with to_str initial_session
| reachable_with_run (rt : runtime) (inp : inputs) (st : session) (w : world) :
    py_str rt = to_str ->
    reachable_with to_str st ->
    reachable_with to_str (fst (main rt inp st w)).

(** The stored reports belong together: the Stage-1 report is of a
    quiz with at least one question and counts no more correct answers
    than questions, the Stage-2 report is the aggregation of the stored
    Stage-1 report, the final report is a truthy value, and the stored
    file name is the one built from the text [to_str] gives of its
    [report_meta]/[report_id]. The results page is only shown with
    reports stored. *)
Definition reports_stored (to_str : json -> string) (st : session) : Prop :=
  (page st = PageResults -> is_Some (finished_reports st))
  /\ forall f, finished_reports st = Some f ->
       1 <= max_score (s1_score_summary (fin_stage1_report f))
       /\ 0 <= correct_count (s1_score_summary (fin_stage1_report f))
          <= max_score (s1_score_summary (fin_stage1_report f))
       /\ json_truthy (fin_final_report f) = true
       /\ (exists now_iso,
             fin_stage2_report f
             = generate_stage2_report (fin_stage1_report f) now_iso)
       /\ exists meta report_id,
            subscript (fin_final_report f) "report_meta" = Some meta
            /\ subscript meta "report_id" = Some report_id
            /\ fin_report_file f = report_file_of (to_str report_id).

(** ** Per-concept counts in the words of the aggregation *)

(** How often [tag] occurs in a list of tags. *)
Fixpoint occurrences (tag : string) (tags : list string) : Z :=
  match tags with
  | [] => 0
  | t :: rest => (if String.eqb t tag then 1 else 0) + occurrences tag rest
  end.

(** The sum, over the questions that satisfy [p], of the occurrences of
    [tag] among their concept tags. *)
Fixpoint tagged (p : question_data -> bool) (tag : string)
    (qs : list question_data) : Z :=
  match qs with
  | [] => 0
  | q :: rest =>
      (if p q then occurrences tag (qd_concept_tags q) else 0)
      + tagged p tag rest
  end.

(** [concept_data.get(tag)] *)
Fixpoint concept_get (tag : string) (concept_data : list (string * concept_acc))
  : option concept_acc :=
  match concept_data with
  | [] => None
  | (k, c) :: rest => if String.eqb k tag then Some c else concept_get tag rest
  end.

(** What the two loops keep true of the data of a concept. *)
Definition concept_acc_ok (c : concept_acc) : Prop :=
  0 <= ca_correct c <= ca_attempted c
  /\ 0 <= ca_changed_answers c <= ca_attempted c
  /\ len (ca_work_evidence c) <= ca_attempted c
  /\ len (ca_option_changes c) = ca_attempted c
  /\ Forall (fun x => 0 < x) (ca_time_spent c)
  /\ Forall (fun x => 0 < x) (ca_first_attempt c).

(** The requests Stage 1 can make for one question: upload,
    transcription, judgement. *)
Definition requests_per_question : nat := 3.

(** ** Examples: a store stub *)

Module StoreDemo.

Definition row (id : Z) (subfield : option string) (answer : option string)
    (solution : option string) : olympiad_row :=
  {| oly_id := Some id; oly_subfield := subfield;
     oly_problem := "Find x."; oly_final_answer_json := answer;
     oly_answer_type := "integer"; oly_unit := None;
     oly_solution := solution |}.

(** Three rows, the second without an answer. *)
Definition rows : list olympiad_row :=
  [ row 1 (Some "Number Theory") (Some Demo.object_text) (Some "short");
    row 2 (Some "Algebra") None None;
    row 3 (Some "Algebra") (Some Demo.list_text) None ].

(** A store that returns these rows whatever is asked, leaves the
    order alone and upper-cases ASCII letters. *)
Definition three_rows : store :=
  {| olympiad_rows := fun _ _ => Some rows;
     calculus_rows := fun _ => Some [];
     shuffled := fun l => l;
     str_upper := upper |}.

(** A store whose second usable row has no subfield. *)
Definition null_subfield : store :=
  {| olympiad_rows :=
       fun _ _ =>
         Some [ row 1 (Some "Algebra") (Some Demo.object_text) None;
                row 2 None (Some Demo.list_text) None ];
     calculus_rows := fun _ => Some [];
     shuffled := fun l => l;
     str_upper := upper |}.

(** A runtime whose JSON codec knows the number 5, the empty list and
    the object [{"number": 5}]. *)
Definition number_object_text : string :=
  String.concat "" [ "{"; Demo.dq; "number"; Demo.dq; ": 5}" ].

Definition numbers : runtime :=
  {| getenv_api_key := None;
     json_loads :=
       fun s =>
         if String.eqb s "5" then Some (JInt 5)
         else if String.eqb s "[]" then Some (JList [])
         else if String.eqb s number_object_text
         then Some (JDict [("number", JInt 5)])
         else None;
     json_dumps := Demo.str;
     py_str :=
       fun v =>
         match v with
         | JList [] => "[]"
         | JDict _ => "{'number': 5}"
         | _ => Demo.str v
         end;
     b64encode := fun s => s; b64decode := fun s => Some s;
     files_upload := fun _ _ _ => None;
     generate_content := fun _ _ _ => Raises |}.

End StoreDemo.

(** ** Examples: a service that answers with a plan *)

Module PlanDemo.

(** A Stage-3 report reduced to its identifier. *)
Definition plan : json :=
  JDict
    [ ("schema_version", JStr "stage3.v1");
      ("report_meta", JDict [ ("report_id", JStr "rep_2026_01_01_000000_stage3") ]);
      ("priority_concepts", JList []);
      ("video_requests", JList []) ].

(** The reply of the service: the word PLAN, which stands for the text
    of the report, between Markdown fences. *)
Definition fenced_reply : string :=
  String.concat "" [ "```json"; Py.nl; "PLAN"; Py.nl; "```"; Py.nl ].

(** The judge is told [Incorrect.], the upload raises, the synthesis
    returns the fenced plan; the JSON codec knows the word PLAN only. *)
Definition planner : runtime :=
  {| getenv_api_key := Some "key";
     json_loads := fun s => if String.eqb s "PLAN" then Some plan else None;
     json_dumps := fun _ => "PLAN";
     py_str := Demo.str;
     b64encode := fun s => s; b64decode := fun s => Some s;
     files_upload := fun _ _ _ => None;
     generate_content :=
       fun _ _ c =>
         match c with
         | CheckAnswerPrompt _ _ _ _ => Replies (Some "Incorrect.")
         | OcrRequest _ _ => Raises
         | Stage3Prompt _ _ _ => Replies (Some fenced_reply)
         end |}.

(** The Stage-1 report and world of the example session under this
    runtime. *)
Definition stage1 : stage1_report :=
  default (Demo.report_with [])
    (fst (generate_performance_report planner Demo.session_at_submit
            Demo.a_moment (fun _ => 200%Q) Demo.empty_world)).

Definition world_after_stage1 : world :=
  snd (generate_performance_report planner Demo.session_at_submit
         Demo.a_moment (fun _ => 200%Q) Demo.empty_world).

(** The student of the example changes the answer from 2 to 3. *)
Definition change_answer : inputs :=
  {| in_home := Demo.idle_home;
     in_quiz :=
       {| qi_back_home := false; qi_nav := None; qi_numerical_answer := "3";
          qi_uploaded_file := None; qi_typed_work := "";
          qi_pressed := None;
          qi_t_shown := 20%Q; qi_t_edit := 25%Q; qi_t_stamp := 25%Q |};
     in_submit := Demo.submit_pressed; in_results := false |}.

(** The session on the quiz page, after the first answer. *)
Definition session_at_quiz : session :=
  fst (main Demo.offline
         {| in_home := Demo.idle_home;
            in_quiz :=
              {| qi_back_home := false; qi_nav := None;
                 qi_numerical_answer := "2";
                 qi_uploaded_file := None; qi_typed_work := "";
                 qi_pressed := None;
                 qi_t_shown := 11%Q; qi_t_edit := 16%Q; qi_t_stamp := 16%Q |};
            in_submit := Demo.submit_pressed; in_results := false |}
         (fst (main Demo.offline Demo.start_quiz
                 (fst (main Demo.offline Demo.pick_topic initial_session
                         Demo.empty_world))
                 Demo.empty_world))
         Demo.empty_world).

(** A planner whose report has no [report_meta]. *)
Definition bare_plan : json := JDict [ ("schema_version", JStr "stage3.v1") ].

Definition bare_planner : runtime :=
  {| getenv_api_key := getenv_api_key planner;
     json_loads := fun s => if String.eqb s "PLAN" then Some bare_plan else None;
     json_dumps := json_dumps planner;
     py_str := py_str planner;
     b64encode := b64encode planner; b64decode := b64decode planner;
     files_upload := files_upload planner;
     generate_content := generate_content planner |}.

(** The session on the results page, after the submission of the
    example went through. *)
Definition session_at_results : session :=
  fst (main planner Demo.answer_and_finish Demo.session_at_submit
         Demo.empty_world).

End PlanDemo.

(** * Properties *)

(** ** The session invariant *)

Lemma int_of_Q_zero : Py.int_of_Q 0 = 0.
Proof. reflexivity. Qed.

Lemma session_inv_initial : session_inv initial_session.
Proof.
  split.
  - intros q n H. simpl in H. rewrite lookup_empty in H. discriminate.
  - intros H. simpl in H. congruence.
Qed.

(** The home page keeps the invariant. *)
Lemma render_home_page_inv (inp : home_input) (st : session) :
  page st = PageHome -> session_inv st -> session_inv (render_home_page inp st).
Proof.
  intros Hp [Hc Hq]. unfold render_home_page.
  destruct (hi_pressed inp) as [[name|]|]; [| |by split].
  - destruct (existsb _ _); [|by split].
    split; [exact Hc|]. simpl. intros Hne. congruence.
  - destruct (selected_topic st) as [topic|] eqn:Ht; simpl; [|by split].
    destruct (Py.truthy topic); [|by split].
    destruct (hi_fetched inp) as [|q qs].
    + split; [exact Hc|]. simpl. congruence.
    + split.
      * intros q_id n H. simpl in H. rewrite lookup_empty in H. discriminate.
      * intros _. simpl. split; [|by eexists].
        intros q_id t H. simpl in H. rewrite lookup_empty in H. discriminate.
Qed.

Lemma render_results_page_inv (back : bool) (st : session) :
  session_inv st -> session_inv (render_results_page back st).
Proof.
  intros [Hc Hq]. unfold render_results_page. destruct back; [|by split].
  split; [exact Hc|]. simpl. congruence.
Qed.


Lemma same_tables_answered (st st' : session) :
  same_tables st st' -> answered_if_timed st -> answered_if_timed st'.
Proof.
  intros (H1 & H2 & H3 & H4) Ha q_id t. rewrite H1, H2. apply Ha.
Qed.

Lemma same_tables_nonneg (st st' : session) :
  same_tables st st' -> changes_nonneg st -> changes_nonneg st'.
Proof.
  intros (H1 & H2 & H3 & H4) Ha q_id n. rewrite H3. apply Ha.
Qed.

Lemma quiz_buttons_tables (pressed : option quiz_button) (q_id : string)
    (st : session) : same_tables st (quiz_buttons pressed q_id st).
Proof.
  unfold quiz_buttons.
  destruct pressed as [[| |]|]; repeat case_match; by repeat split.
Qed.

Lemma record_answer_nonneg (inp : quiz_input) (q_id : string) (st : session) :
  changes_nonneg st -> changes_nonneg (record_answer inp q_id st).
Proof.
  intros Hc k n. unfold record_answer.
  destruct (first_attempt_times st !! q_id); simpl;
    (destruct (decide (q_id = k)) as [->|Hne];
     [rewrite lookup_insert_eq | rewrite lookup_insert_ne by done; apply Hc]);
    intros [= <-];
    (destruct (option_changes st !! k) as [m|] eqn:Hm; [|lia]);
    specialize (Hc _ _ Hm); lia.
Qed.

Lemma record_answer_answered (inp : quiz_input) (q_id : string) (st : session) :
  Py.truthy (qi_numerical_answer inp) = true ->
  answered_if_timed st -> answered_if_timed (record_answer inp q_id st).
Proof.
  intros Ht Ha k t. unfold record_answer.
  destruct (first_attempt_times st !! q_id) eqn:Hf; simpl.
  - destruct (decide (q_id = k)) as [->|Hne].
    + intros _. rewrite lookup_insert_eq. by eexists _, _.
    + rewrite lookup_insert_ne by done. apply Ha.
  - destruct (decide (q_id = k)) as [->|Hne].
    + intros _. rewrite lookup_insert_eq. by eexists _, _.
    + rewrite !lookup_insert_ne by done. apply Ha.
Qed.

Lemma record_answer_topic (inp : quiz_input) (q_id : string) (st : session) :
  selected_topic (record_answer inp q_id st) = selected_topic st.
Proof.
  unfold record_answer. by destruct (first_attempt_times st !! q_id).
Qed.

Lemma record_typed_work_nonneg (typed q_id : string) (st : session) :
  changes_nonneg st -> changes_nonneg (record_typed_work typed q_id st).
Proof.
  intros Hc. unfold record_typed_work.
  by destruct (responses st !! q_id).
Qed.

Lemma record_typed_work_answered (typed q_id : string) (st : session) :
  answered_if_timed st -> answered_if_timed (record_typed_work typed q_id st).
Proof.
  intros Ha k t. unfold record_typed_work.
  destruct (responses st !! q_id) as [r|] eqn:Hr; simpl; intros Hk;
    destruct (Ha _ _ Hk) as (r' & a & Hr' & Hfa & Hta);
    (destruct (decide (q_id = k)) as [->|Hne];
     [rewrite lookup_insert_eq | rewrite lookup_insert_ne by done; by eexists _, _]).
  - rewrite Hr in Hr'. injection Hr' as ->. by eexists _, _.
  - congruence.
Qed.

Lemma record_typed_work_topic (typed q_id : string) (st : session) :
  selected_topic (record_typed_work typed q_id st) = selected_topic st.
Proof.
  unfold record_typed_work. by destruct (responses st !! q_id).
Qed.

(** The quiz page keeps the tables in agreement and the topic selected. *)
Lemma render_quiz_page_core (rt : runtime) (inp : quiz_input) (st : session) :
  changes_nonneg st -> answered_if_timed st ->
  changes_nonneg (render_quiz_page rt inp st)
  /\ answered_if_timed (render_quiz_page rt inp st)
  /\ selected_topic (render_quiz_page rt inp st) = selected_topic st.
Proof.
  intros Hc Ha. unfold render_quiz_page.
  destruct (questions st) as [|q0 qs0] eqn:Hqs.
  { by destruct (qi_back_home inp). }
  match goal with |- context [match ?n with Some i => set_current_question_idx _ _ | None => _ end] =>
    destruct n as [i|] end; [by repeat split|].
  destruct (py_index _ _) as [cur|]; [|done].
  set (q_id := question_id cur).
  set (st1 := match question_start_times st !! q_id with
              | Some _ => st | None => _ end).
  assert (H1 : changes_nonneg st1 /\ answered_if_timed st1
               /\ selected_topic st1 = selected_topic st).
  { subst st1. by destruct (question_start_times st !! q_id). }
  destruct H1 as (Hc1 & Ha1 & Ht1).
  set (st2 := if _ && _ then record_answer inp q_id st1 else st1).
  assert (H2 : changes_nonneg st2 /\ answered_if_timed st2
               /\ selected_topic st2 = selected_topic st).
  { subst st2. destruct (Py.truthy (qi_numerical_answer inp)) eqn:Hty; simpl; [|done].
    destruct (negb _); [|done].
    split; [by apply record_answer_nonneg|].
    split; [by apply record_answer_answered|].
    by rewrite record_answer_topic. }
  destruct H2 as (Hc2 & Ha2 & Ht2).
  set (st3 := match qi_uploaded_file inp with Some f => _ | None => st2 end).
  assert (H3 : changes_nonneg st3 /\ answered_if_timed st3
               /\ selected_topic st3 = selected_topic st).
  { subst st3. by destruct (qi_uploaded_file inp). }
  destruct H3 as (Hc3 & Ha3 & Ht3).
  destruct (negb (default true _)); [by repeat split|].
  set (st4 := if Py.truthy (qi_typed_work inp) then _ else st3).
  assert (H4 : changes_nonneg st4 /\ answered_if_timed st4
               /\ selected_topic st4 = selected_topic st).
  { subst st4. destruct (Py.truthy (qi_typed_work inp)); [|done].
    split; [by apply record_typed_work_nonneg|].
    split; [by apply record_typed_work_answered|].
    by rewrite record_typed_work_topic. }
  destruct H4 as (Hc4 & Ha4 & Ht4).
  pose proof (quiz_buttons_tables (qi_pressed inp) q_id st4) as Hb.
  split; [by eapply same_tables_nonneg|].
  split; [by eapply same_tables_answered|].
  destruct Hb as (_ & _ & _ & ->). done.
Qed.

(** A run of the submit page changes, of the session, the page and the
    finished reports only. *)
Lemma submit_quiz_session (rt : runtime) (inp : submit_input) (st : session)
    (w : world) :
  fst (submit_quiz rt inp st w) = st
  \/ exists f, fst (submit_quiz rt inp st w) = finalize f st.
Proof.
  unfold submit_quiz.
  destruct (generate_performance_report _ _ _ _ _) as [[s1|] w1]; [|by left].
  destruct (generate_stage3_report_with_llm _ _ _ _ _) as [s3 w2].
  destruct (json_truthy s3); [|by left].
  destruct (subscript s3 _) as [meta|]; [|by left].
  destruct (subscript meta _) as [rid|]; [|by left].
  right. by eexists.
Qed.

Lemma render_submit_page_inv (rt : runtime) (inp : submit_input)
    (st : session) (w : world) :
  page st = PageSubmit -> session_inv st ->
  session_inv (fst (render_submit_page rt inp st w)).
Proof.
  intros Hp [Hc Hq].
  destruct Hq as [Ha Ht]; [congruence|].
  unfold render_submit_page.
  destruct (si_pressed inp) as [[|]|]; simpl.
  - by split.
  - destruct (submit_quiz_session rt inp st w) as [->|[f ->]]; by split.
  - split; [done|]. by intros _.
Qed.

Lemma render_quiz_page_inv (rt : runtime) (inp : quiz_input) (st : session) :
  page st = PageQuiz -> session_inv st ->
  session_inv (render_quiz_page rt inp st).
Proof.
  intros Hp [Hc Hq].
  destruct Hq as [Ha Ht]; [congruence|].
  destruct (render_quiz_page_core rt inp st Hc Ha) as (Hc' & Ha' & Ht').
  split; [done|]. intros _. split; [done|]. by rewrite Ht'.
Qed.

(** Every session the application can be in satisfies the invariant. *)
Lemma reachable_inv (st : session) : reachable st -> session_inv st.
Proof.
  induction 1 as [|rt inp st w Hr IH].
  - apply session_inv_initial.
  - unfold main. destruct (page st) eqn:Hp; simpl.
    + by apply render_home_page_inv.
    + by apply render_quiz_page_inv.
    + by apply render_submit_page_inv.
    + by apply render_results_page_inv.
Qed.


Lemma stage1_question_ok (rt : runtime) (st : session) (q : question)
    (clock : Q) (t : tally) (w : world) :
  changes_nonneg st -> answered_if_timed st ->
  record_ok (fst (fst (stage1_question rt st q clock t w))).
Proof.
  intros Hc Ha. unfold stage1_question.
  destruct (process_student_work _ _ _ _ _) as [work w1].
  set (resp := default no_response (responses st !! question_id q)).
  set (answer := default "" (final_answer resp)).
  assert (Hlat : 0 < Py.int_of_Q (default 0%Q (first_attempt_times st !! question_id q))
                 -> Py.truthy answer = true).
  { destruct (first_attempt_times st !! question_id q) as [x|] eqn:Hf; simpl.
    - intros _. destruct (Ha _ _ Hf) as (r & a & Hr & Hfa & Hta).
      subst answer resp. by rewrite Hr; simpl; rewrite Hfa.
    - rewrite int_of_Q_zero. lia. }
  assert (Hn : 0 <= default 0 (option_changes st !! question_id q)).
  { destruct (option_changes st !! question_id q) as [n|] eqn:Ho; simpl; [|lia].
    by eapply Hc. }
  destruct (Py.truthy answer) eqn:Hty.
  - destruct (check_answer_with_llm _ _ _ _ _ _) as [verdict w2].
    repeat split; simpl; try done.
  - repeat split; simpl; try done.
    intros H. apply Hlat in H. congruence.
Qed.

Lemma stage1_loop_Forall (P : question_data -> Prop) (rt : runtime)
    (st : session) (clocks : nat -> Q) :
  (forall q clock t w, P (fst (fst (stage1_question rt st q clock t w)))) ->
  forall qs idx t w,
    Forall P (fst (fst (stage1_loop rt st clocks idx qs t w))).
Proof.
  intros HP qs. induction qs as [|q rest IH]; intros idx t w; simpl.
  - constructor.
  - specialize (HP q (clocks idx) t w).
    destruct (stage1_question _ _ _ _ _ _) as [[qd t1] w1].
    specialize (IH (S idx) t1 w1).
    destruct (stage1_loop _ _ _ _ _ _ _) as [[qds t2] w2].
    simpl in *. by constructor.
Qed.

Lemma report_questions (rt : runtime) (st : session) (now : moment)
    (clocks : nat -> Q) (w : world) (r : stage1_report) :
  fst (generate_performance_report rt st now clocks w) = Some r ->
  s1_questions r
  = fst (fst (stage1_loop rt st clocks 0 (questions st)
                {| t_correct := 0; t_incorrect := 0; t_unattempted := 0 |} w)).
Proof.
  unfold generate_performance_report.
  destruct (stage1_loop _ _ _ _ _ _ _) as [[qds t] w1].
  destruct (selected_topic st); simpl; [|discriminate].
  by intros [= <-].
Qed.

(** The records of a report built from a session under way. *)
Lemma report_records_ok (rt : runtime) (st : session) (now : moment)
    (clocks : nat -> Q) (w : world) (r : stage1_report) :
  changes_nonneg st -> answered_if_timed st ->
  fst (generate_performance_report rt st now clocks w) = Some r ->
  Forall record_ok (s1_questions r).
Proof.
  intros Hc Ha Hr. rewrite (report_questions _ _ _ _ _ _ Hr).
  apply stage1_loop_Forall. intros. by apply stage1_question_ok.
Qed.

(** A report is produced whenever a topic is selected. *)
Lemma report_produced (rt : runtime) (st : session) (now : moment)
    (clocks : nat -> Q) (w : world) :
  is_Some (selected_topic st) ->
  is_Some (fst (generate_performance_report rt st now clocks w)).
Proof.
  intros [topic Ht]. unfold generate_performance_report.
  destruct (stage1_loop _ _ _ _ _ _ _) as [[qds t] w1].
  rewrite Ht. by eexists.
Qed.

(** *** Counting *)

Lemma count_if_nonneg {A : Type} (p : A -> bool) (l : list A) : 0 <= count_if p l.
Proof. unfold count_if. lia. Qed.

Lemma count_if_le_len {A : Type} (p : A -> bool) (l : list A) :
  count_if p l <= len l.
Proof.
  unfold count_if, len. pose proof (List.filter_length_le p l). lia.
Qed.

Lemma count_if_filter {A : Type} (p q : A -> bool) (l : list A) :
  count_if p (List.filter q l) = count_if (fun x => q x && p x) l.
Proof.
  unfold count_if. f_equal. f_equal.
  induction l as [|x l IH]; simpl; [done|].
  destruct (q x); simpl; [|done].
  destruct (p x); simpl; by rewrite IH.
Qed.

Lemma count_if_ext_Forall {A : Type} (p q : A -> bool) (l : list A) :
  Forall (fun x => p x = q x) l -> count_if p l = count_if q l.
Proof.
  unfold count_if. intros H. f_equal. f_equal.
  induction H as [|x l Hx _ IH]; simpl; [done|].
  rewrite Hx. destruct (q x); simpl; by rewrite IH.
Qed.

Lemma count_if_map {A B : Type} (f : A -> B) (p : B -> bool) (l : list A) :
  count_if p (map f l) = count_if (fun x => p (f x)) l.
Proof.
  unfold count_if. f_equal.
  induction l as [|x l IH]; simpl; [done|].
  destruct (p (f x)); simpl; by rewrite IH.
Qed.

(** *** Quotients of counts *)

Lemma true_div_unit_interval (a b : Z) :
  0 <= a <= b -> 0 < b -> (0 <= true_div a b <= 1)%Q.
Proof.
  intros [Ha Hab] Hb. unfold true_div.
  assert (Hb' : (0 < inject_Z b)%Q) by (unfold Qlt; simpl; lia).
  split.
  - apply Qle_shift_div_l; [done|]. unfold Qle; simpl. lia.
  - apply Qle_shift_div_r; [done|]. unfold Qle; simpl. lia.
Qed.

Lemma Qzero_unit_interval : (0 <= 0 <= 1)%Q.
Proof. split; unfold Qle; simpl; lia. Qed.

(** On the submit page of a reachable session Stage 1 does produce a
    report. *)
Lemma report_produced_on_submit (rt : runtime) (st : session) (now : moment)
    (clocks : nat -> Q) (w : world) :
  reachable st -> page st = PageSubmit ->
  is_Some (fst (generate_performance_report rt st now clocks w)).
Proof.
  intros Hreach Hpage. apply report_produced.
  destruct (reachable_inv st Hreach) as [_ Hq].
  destruct Hq as [_ Ht]; [congruence|done].
Qed.

(** ** Stage-2 indices *)

Lemma filter_none {A : Type} (p : A -> bool) (l : list A) :
  Forall (fun x => p x = false) l -> List.filter p l = [].
Proof.
  induction 1 as [|x l Hx _ IH]; simpl; [done|]. by rewrite Hx.
Qed.

Lemma overthinking_index_unit_interval (r : stage1_report) (now_iso : string) :
  (0 <= overthinking_index (s2_kpis_summary (generate_stage2_report r now_iso)) <= 1)%Q.
Proof.
  simpl. destruct (List.filter is_easy (s1_questions r)) as [|q l] eqn:He.
  - apply Qzero_unit_interval.
  - apply true_div_unit_interval.
    + split; [apply count_if_nonneg | apply count_if_le_len].
    + unfold len. simpl. lia.
Qed.

(** Where only attempted records carry a latency, the impulsive ones
    are attempted ones. *)
Lemma impulsive_among_attempted (qs : list question_data) :
  Forall (fun q => 0 < first_attempt_latency_sec (qd_kpis q) ->
                   is_attempted q = true) qs ->
  count_if is_impulsive qs = count_if is_impulsive (List.filter is_attempted qs).
Proof.
  intros H. rewrite count_if_filter. apply count_if_ext_Forall.
  eapply Forall_impl; [exact H|]. intros q Hq. simpl in *.
  unfold is_impulsive in *.
  destruct (0 <? first_attempt_latency_sec (qd_kpis q)) eqn:Hl; simpl.
  - rewrite Hq by lia. done.
  - by destruct (is_attempted q).
Qed.

(** With such records the index is the fraction of the attempted
    questions, which is at most 1. *)
Lemma impulsivity_index_of_attempted (r : stage1_report) (now_iso : string) :
  Forall (fun q => 0 < first_attempt_latency_sec (qd_kpis q) ->
                   is_attempted q = true) (s1_questions r) ->
  impulsivity_index (s2_kpis_summary (generate_stage2_report r now_iso))
  = impulsivity_fraction (s1_questions r)
  /\ (impulsivity_index (s2_kpis_summary (generate_stage2_report r now_iso))
      <= 1)%Q.
Proof.
  intros Hok. pose proof (impulsive_among_attempted _ Hok) as Himp.
  assert (Hidx :
    impulsivity_index (s2_kpis_summary (generate_stage2_report r now_iso))
    = impulsivity_fraction (s1_questions r)).
  { simpl. unfold impulsivity_fraction. rewrite Himp.
    change (count_if is_attempted (s1_questions r))
      with (len (List.filter is_attempted (s1_questions r))).
    destruct (List.filter is_attempted (s1_questions r)) as [|q l]; [done|].
    rewrite (proj2 (Z.gtb_lt _ _)) by (unfold len; simpl; lia). done. }
  split; [exact Hidx|]. rewrite Hidx. unfold impulsivity_fraction.
  destruct (List.filter is_attempted (s1_questions r)) as [|q l].
  - apply Qzero_unit_interval.
  - apply true_div_unit_interval.
    + split; [apply count_if_nonneg | apply count_if_le_len].
    + unfold len. simpl. lia.
Qed.

(** C1. For every Stage-1 report, the impulsivity index is the number
    of questions, attempted or not, whose first-attempt latency lies
    strictly between 0 and 20 seconds, over the number of attempted
    questions; it is 0 when no question is attempted and never negative.
    When only attempted questions carry a positive latency, as in every
    report the submit page builds in a reachable session, the index is
    the fraction of attempted questions with such a latency and is at
    most 1. The overthinking index lies between 0 and 1. *)
Theorem impulsivity_index_over_attempted (r : stage1_report) (now_iso : string) :
  let k := s2_kpis_summary (generate_stage2_report r now_iso) in
  let qs := s1_questions r in
  impulsivity_index k = impulsive_over_attempted qs
  /\ (Forall (fun q => is_attempted q = false) qs -> impulsivity_index k = 0%Q)
  /\ (0 <= impulsivity_index k)%Q
  /\ (Forall (fun q => 0 < first_attempt_latency_sec (qd_kpis q) ->
                       is_attempted q = true) qs ->
      impulsivity_index k = impulsivity_fraction qs
      /\ (impulsivity_index k <= 1)%Q)
  /\ (forall (rt : runtime) (st : session) (now : moment) (clocks : nat -> Q)
             (w : world),
        reachable st -> page st = PageSubmit ->
        fst (generate_performance_report rt st now clocks w) = Some r ->
        impulsivity_index k = impulsivity_fraction qs
        /\ (impulsivity_index k <= 1)%Q)
  /\ (0 <= overthinking_index k <= 1)%Q.
Proof.
  intros k qs.
  assert (Hidx : impulsivity_index k = impulsive_over_attempted qs).
  { subst k qs. simpl. unfold impulsive_over_attempted.
    fold impulsive_threshold.
    change (fun q : question_data =>
              (0 <? first_attempt_latency_sec (qd_kpis q))
              && (first_attempt_latency_sec (qd_kpis q) <? impulsive_threshold))
      with is_impulsive.
    pose proof (count_if_nonneg is_attempted (s1_questions r)) as Hn.
    destruct (Z.eqb_spec (count_if is_attempted (s1_questions r)) 0) as [->|Hne];
      [done|].
    by rewrite (proj2 (Z.gtb_lt _ _)) by lia. }
  split; [exact Hidx|]. split; [|split; [|split; [|split]]].
  - intros Hnone. rewrite Hidx. unfold impulsive_over_attempted. cbv zeta.
    unfold count_if at 1. by rewrite (filter_none _ _ Hnone).
  - rewrite Hidx. unfold impulsive_over_attempted. cbv zeta.
    pose proof (count_if_nonneg is_attempted qs) as Hn.
    destruct (Z.eqb_spec (count_if is_attempted qs) 0) as [Heq|Hne];
      [apply Qzero_unit_interval|].
    unfold true_div. apply Qle_shift_div_l; [unfold Qlt; simpl; lia|].
    rewrite Qmult_0_l. unfold Qle. simpl.
    match goal with |- context [count_if ?p qs] =>
      pose proof (count_if_nonneg p qs) end. lia.
  - apply impulsivity_index_of_attempted.
  - intros rt st now clocks w Hreach Hpage Hr.
    apply impulsivity_index_of_attempted.
    destruct (reachable_inv st Hreach) as [Hc Hq].
    destruct Hq as [Ha _]; [congruence|].
    pose proof (report_records_ok rt st now clocks w r Hc Ha Hr) as Hok.
    eapply Forall_impl; [exact Hok|]. by intros q (Hq & _).
  - apply overthinking_index_unit_interval.
Qed.

(** A report in which an unattempted question carries a latency: two
    questions have a latency of 5 seconds, one of them is attempted. The
    index is 2, while the fraction of attempted questions with such a
    latency is 1, and 2 is not within [0,1]. *)
Lemma impulsivity_index_above_one :
  let r :=
    Demo.report_with
      [ Demo.record "easy" 30 5 "2"; Demo.record "easy" 0 5 "" ] in
  let k := s2_kpis_summary (generate_stage2_report r "now") in
  impulsivity_index k = (2 # 1)%Q
  /\ impulsivity_fraction (s1_questions r) = (1 # 1)%Q
  /\ Qle_bool (impulsivity_index k) 1 = false.
Proof. by vm_compute. Qed.

(** The scenario of three easy questions, one answered in 30 seconds,
    one in 150 seconds and one left alone: one in three overthought. *)
Example overthinking_index_of_three_easy :
  overthinking_index
    (s2_kpis_summary
       (generate_stage2_report
          (Demo.report_with
             [ Demo.record "easy" 30 12 "2"; Demo.record "easy" 150 40 "2";
               Demo.record "easy" 0 0 "" ])
          "now"))
  = (1 # 3)%Q.
Proof. by vm_compute. Qed.

(** C2. For every Stage-1 report, the overthinking index is the number
    of easy questions whose time spent exceeds 120 seconds over the
    number of easy questions, whatever their answers are, and 0 when no
    question is easy. *)
Theorem overthinking_index_is_easy_fraction (r : stage1_report) (now_iso : string) :
  overthinking_index (s2_kpis_summary (generate_stage2_report r now_iso))
  = overthinking_fraction
      (map (fun q => (qd_difficulty q, time_spent_sec (qd_kpis q))) (s1_questions r))
  /\ (Forall (fun q => qd_difficulty q <> "easy") (s1_questions r) ->
      overthinking_index (s2_kpis_summary (generate_stage2_report r now_iso)) = 0%Q).
Proof.
  assert (Heq : overthinking_index (s2_kpis_summary (generate_stage2_report r now_iso))
   = overthinking_fraction
      (map (fun q => (qd_difficulty q, time_spent_sec (qd_kpis q))) (s1_questions r))).
  { simpl. unfold overthinking_fraction. rewrite !count_if_map. simpl.
    assert (H1 : count_if (fun x => String.eqb (qd_difficulty x) "easy") (s1_questions r)
                 = len (List.filter is_easy (s1_questions r))) by reflexivity.
    assert (H2 : count_if (fun x => String.eqb (qd_difficulty x) "easy"
                                    && (120 <? time_spent_sec (qd_kpis x)))
                   (s1_questions r)
                 = count_if overthinks (List.filter is_easy (s1_questions r))).
    { rewrite count_if_filter. apply count_if_ext_Forall. apply Forall_forall.
      intros x _. unfold is_easy, overthinks, easy_time_threshold.
      by rewrite Z.gtb_ltb. }
    rewrite H1, H2.
    destruct (List.filter is_easy (s1_questions r)) as [|q l]; [done|].
    by rewrite (proj2 (Z.eqb_neq _ _)) by (unfold len; simpl; lia). }
  split; [exact Heq|].
  intros Hnone. simpl.
  rewrite filter_none; [done|].
  eapply Forall_impl; [exact Hnone|]. intros q Hq. simpl in Hq.
  unfold is_easy. by destruct (String.eqb_spec (qd_difficulty q) "easy").
Qed.

(** ** Per-concept aggregation *)

Lemma work_quality_rule_values (evidence attempted_n : Z) (accuracy_v : Q) :
  In (work_quality_rule evidence attempted_n accuracy_v) [3; 4; 6; 8].
Proof.
  unfold work_quality_rule. repeat case_match; simpl; tauto.
Qed.

Lemma update_concept_Forall (P : concept_acc -> Prop) (tag : string)
    (f : concept_acc -> concept_acc) (d : list (string * concept_acc)) :
  P (f new_concept) -> (forall c, P c -> P (f c)) ->
  Forall (fun item => P (snd item)) d ->
  Forall (fun item => P (snd item)) (update_concept tag f d).
Proof.
  intros Hnew Hf. induction 1 as [|[k c] rest Hc Hrest IH]; simpl.
  - by constructor.
  - destruct (String.eqb k tag); constructor; simpl in *; auto.
Qed.

Lemma add_question_attempted (q : question_data) (c : concept_acc) :
  0 <= ca_attempted c -> 0 <= ca_attempted (add_question q c).
Proof.
  intros H. unfold add_question. destruct (is_attempted q); simpl; lia.
Qed.

Lemma collect_concepts_attempted (qs : list question_data) :
  Forall (fun item => 0 <= ca_attempted (snd item)) (collect_concepts qs).
Proof.
  unfold collect_concepts.
  assert (Hgen : forall d : list (string * concept_acc),
    Forall (fun item => 0 <= ca_attempted (snd item)) d ->
    Forall (fun item => 0 <= ca_attempted (snd item))
      (fold_left
         (fun concept_data q =>
            fold_left
              (fun concept_data tag =>
                 update_concept tag (add_question q) concept_data)
              (qd_concept_tags q) concept_data)
         qs d)).
  { induction qs as [|q rest IH]; intros d Hd; simpl; [done|].
    apply IH. generalize dependent d.
    induction (qd_concept_tags q) as [|tag tags IHt]; intros d Hd; simpl; [done|].
    apply IHt.
    apply (update_concept_Forall (fun c => 0 <= ca_attempted c)); [| |done].
    - apply add_question_attempted. simpl. lia.
    - intros c. apply add_question_attempted. }
  apply Hgen. constructor.
Qed.

(** C10. For every Stage-1 report, every concept that the Stage-2
    aggregator emits has at least one attempted question, and its
    rule-based work-quality rating is 3, 4, 6 or 8. *)
Theorem work_quality_rating_values (r : stage1_report) (now_iso : string)
    (c : concept_obj) :
  In c (s2_concepts (generate_stage2_report r now_iso)) ->
  1 <= attempted c /\ In (wq_value (work_quality c)) [3; 4; 6; 8].
Proof.
  simpl. intros Hin. apply list_elem_of_In in Hin.
  apply list_elem_of_omap in Hin. destruct Hin as ([id acc] & Hitem & Hentry).
  pose proof (collect_concepts_attempted (s1_questions r)) as Hall.
  rewrite Forall_forall in Hall. specialize (Hall _ Hitem). simpl in Hall.
  unfold concept_entry in Hentry.
  destruct (ca_attempted acc =? 0) eqn:Hz; [discriminate|].
  injection Hentry as <-. simpl. split; [lia|].
  apply work_quality_rule_values.
Qed.

(** ** Stage-1 records *)

(** C3. For every record of a Stage-1 report built in a reachable
    session, the revision outcome is "none" exactly when the number of
    option changes is 0, and with a positive number of changes it is
    "improved" for a correct answer and "worsened" otherwise. *)
Theorem revision_outcome_invariant
    (rt : runtime) (st : session) (now : moment) (clocks : nat -> Q)
    (w : world) (r : stage1_report) (qd : question_data) :
  reachable st ->
  fst (generate_performance_report rt st now clocks w) = Some r ->
  In qd (s1_questions r) ->
  (revision_outcome (qd_kpis qd) = "none" <-> num_option_changes (qd_kpis qd) = 0)
  /\ (0 < num_option_changes (qd_kpis qd) ->
      revision_outcome (qd_kpis qd)
      = if sub_is_correct (qd_submission qd) then "improved" else "worsened").
Proof.
  intros Hreach Hr Hin.
  destruct (reachable_inv st Hreach) as [Hc _].
  assert (Hrec : 0 <= num_option_changes (qd_kpis qd)
     /\ revision_outcome (qd_kpis qd)
        = (if num_option_changes (qd_kpis qd) >? 0
           then (if sub_is_correct (qd_submission qd) then "improved" else "worsened")
           else "none")).
  { apply list_elem_of_In in Hin. revert qd Hin. apply Forall_forall.
    rewrite (report_questions _ _ _ _ _ _ Hr).
    apply (stage1_loop_Forall
             (fun qd => 0 <= num_option_changes (qd_kpis qd)
                /\ revision_outcome (qd_kpis qd)
                   = (if num_option_changes (qd_kpis qd) >? 0
                      then (if sub_is_correct (qd_submission qd)
                            then "improved" else "worsened")
                      else "none"))).
    intros q clock t w0. unfold stage1_question.
    destruct (process_student_work _ _ _ _ _) as [work w1].
    assert (Hn : 0 <= default 0 (option_changes st !! question_id q)).
    { destruct (option_changes st !! question_id q) as [n|] eqn:Ho; simpl; [|lia].
      by eapply Hc. }
    destruct (Py.truthy _).
    - destruct (check_answer_with_llm _ _ _ _ _ _) as [verdict w2]. by split.
    - by split. }
  destruct Hrec as [Hn Ho]. rewrite Ho.
  destruct (num_option_changes (qd_kpis qd) >? 0) eqn:Hpos.
  - apply Z.gtb_lt in Hpos. split; [|done].
    split; [|lia]. by destruct (sub_is_correct (qd_submission qd)).
  - assert (num_option_changes (qd_kpis qd) = 0).
    { pose proof (Zgt_cases (num_option_changes (qd_kpis qd)) 0) as Hg.
      rewrite Hpos in Hg. lia. }
    split; [done|]. lia.
Qed.

(** ** Question store adapter *)

Lemma truthy_of_length (s : string) :
  (0 < String.length s)%nat -> Py.truthy s = true.
Proof. destruct s; simpl; [lia|done]. Qed.

(** C4, as amended. In the first store, solution texts of 49, 200 and
    501 characters are labelled easy, medium and hard. *)
Theorem olympiad_difficulty_at_lengths (s49 s200 s501 : string) :
  String.length s49 = 49%nat -> String.length s200 = 200%nat ->
  String.length s501 = 501%nat ->
  olympiad_difficulty (Some s49) = "easy"
  /\ olympiad_difficulty (Some s200) = "medium"
  /\ olympiad_difficulty (Some s501) = "hard".
Proof.
  intros H49 H200 H501. unfold olympiad_difficulty.
  rewrite !truthy_of_length by lia. rewrite H49, H200, H501. done.
Qed.

(** C4 fails as stated: a solution text of exactly 200 characters is
    labelled medium, not easy. *)
Lemma olympiad_difficulty_200_not_easy :
  String.length (Demo.text_of_length 200) = 200%nat
  /\ olympiad_difficulty (Some (Demo.text_of_length 200)) = "medium"
  /\ olympiad_difficulty (Some (Demo.text_of_length 200)) <> "easy".
Proof. vm_compute. repeat split; discriminate. Qed.

Lemma olympiad_difficulty_at_lengths_witness :
  olympiad_difficulty (Some (Demo.text_of_length 49)) = "easy"
  /\ olympiad_difficulty (Some (Demo.text_of_length 200)) = "medium"
  /\ olympiad_difficulty (Some (Demo.text_of_length 501)) = "hard".
Proof.
  apply (olympiad_difficulty_at_lengths
           (Demo.text_of_length 49) (Demo.text_of_length 200)
           (Demo.text_of_length 501)); vm_compute; reflexivity.
Defined.

Lemma first_present_answer_keys (answer_type : string)
    (d : list (string * json)) :
  first_present (answer_keys answer_type) d
  = match dict_get "answer" d with
    | Some v => Some v
    | None =>
        match dict_get "value" d with
        | Some v => Some v
        | None =>
            if String.eqb answer_type "integer" || String.eqb answer_type "float"
            then
              match dict_get "number" d with
              | Some v => Some v
              | None =>
                  match dict_get "numerical_value" d with
                  | Some v => Some v
                  | None => dict_get "result" d
                  end
              end
            else None
        end
    end.
Proof.
  unfold answer_keys.
  destruct (String.eqb answer_type "integer" || String.eqb answer_type "float");
    simpl; repeat case_match; done.
Qed.




(** ** Correctness judge *)

(** *** Stripping *)

Lemma append_nil (s : string) : String.append "" s = s.
Proof. reflexivity. Qed.

Lemma append_cons (c : ascii) (s t : string) :
  String.append (String c s) t = String c (String.append s t).
Proof. reflexivity. Qed.

Lemma all_space_nil : all_space "".
Proof. constructor. Qed.

Lemma all_space_cons (c : ascii) (s : string) :
  all_space (String c s) <-> Py.isspace c = true /\ all_space s.
Proof.
  unfold all_space. simpl. split.
  - intros H. by inversion H.
  - intros [Hc Hs]. by constructor.
Qed.

Lemma lstrip_split (s : string) :
  exists pre, s = String.append pre (Py.lstrip s) /\ all_space pre.
Proof.
  induction s as [|c s (pre & Hs & Hpre)]; simpl.
  - exists "". split; [done|apply all_space_nil].
  - destruct (Py.isspace c) eqn:Hc.
    + exists (String c pre). split; [rewrite append_cons; congruence|].
      by apply all_space_cons.
    + exists "". split; [done|apply all_space_nil].
Qed.

Lemma lstrip_head (s : string) (c : ascii) (rest : string) :
  Py.lstrip s = String c rest -> Py.isspace c = false.
Proof.
  induction s as [|a s IH]; simpl; [discriminate|].
  destruct (Py.isspace a) eqn:Ha; [exact IH|].
  by intros [= <- _].
Qed.

Lemma rstrip_split (s : string) :
  exists post, s = String.append (Py.rstrip s) post /\ all_space post.
Proof.
  induction s as [|c s (post & Hs & Hpost)]; simpl.
  - exists "". split; [done|apply all_space_nil].
  - destruct (Py.isspace c) eqn:Hc; simpl.
    + destruct (String.eqb_spec (Py.rstrip s) "") as [He|Hne].
      * exists (String c post). rewrite He, append_nil in Hs.
        split; [rewrite append_nil; congruence|]. by apply all_space_cons.
      * exists post. split; [rewrite append_cons; congruence|done].
    + exists post. split; [rewrite append_cons; congruence|done].
Qed.

Lemma rstrip_head (s : string) (c : ascii) (rest : string) :
  Py.rstrip s = String c rest -> exists rest', s = String c rest'.
Proof.
  destruct s as [|a s]; simpl; [discriminate|].
  destruct (Py.isspace a && String.eqb (Py.rstrip s) ""); [discriminate|].
  intros [= <- _]. by eexists.
Qed.

Lemma rstrip_last (s : string) (c : ascii) (front : string) :
  Py.rstrip s = String.append front (String c "") -> Py.isspace c = false.
Proof.
  revert front. induction s as [|a s IH]; intros front; simpl.
  - destruct front; discriminate.
  - destruct (Py.isspace a) eqn:Ha; simpl.
    + destruct (String.eqb_spec (Py.rstrip s) "") as [He|Hne].
      * destruct front; discriminate.
      * destruct front as [|b front]; rewrite ?append_nil, ?append_cons.
        -- intros [= _ He]. congruence.
        -- intros [= _ He]. by eapply IH.
    + destruct front as [|b front]; rewrite ?append_nil, ?append_cons.
      * intros [= <- _]. done.
      * intros [= _ He]. by eapply IH.
Qed.

(** [strip] returns the input without its leading and trailing
    whitespace. *)
Lemma strip_trimmed (s : string) : trimmed_of s (Py.strip s).
Proof.
  destruct (lstrip_split s) as (pre & Hs & Hpre).
  destruct (rstrip_split (Py.lstrip s)) as (post & Hl & Hpost).
  exists pre, post. unfold Py.strip.
  split; [by rewrite <- Hl|]. split; [done|]. split; [done|]. split.
  - intros c rest Hc. apply rstrip_head in Hc as [rest' Hc].
    by eapply lstrip_head.
  - intros c front. apply rstrip_last.
Qed.

Lemma lstrip_all_space (s : string) : all_space s -> Py.lstrip s = "".
Proof.
  induction s as [|c s IH]; simpl; [done|].
  intros [Hc Hs]%all_space_cons. rewrite Hc. by apply IH.
Qed.

Lemma rstrip_all_space (s : string) : all_space s -> Py.rstrip s = "".
Proof.
  induction s as [|c s IH]; simpl; [done|].
  intros [Hc Hs]%all_space_cons. by rewrite Hc, IH.
Qed.

Lemma lstrip_app_space (pre s : string) :
  all_space pre -> Py.lstrip (String.append pre s) = Py.lstrip s.
Proof.
  induction pre as [|c pre IH]; [done|].
  intros [Hc Hs]%all_space_cons. rewrite append_cons. simpl.
  rewrite Hc. by apply IH.
Qed.

Lemma rstrip_app_space (s post : string) :
  all_space post -> Py.rstrip (String.append s post) = Py.rstrip s.
Proof.
  intros Hpost. induction s as [|c s IH].
  - rewrite append_nil. by apply rstrip_all_space.
  - rewrite append_cons. simpl. by rewrite IH.
Qed.

Lemma rstrip_fixed (t : string) :
  (forall c front, t = String.append front (String c "") -> Py.isspace c = false) ->
  Py.rstrip t = t.
Proof.
  induction t as [|a t IH]; simpl; [done|]. intros Hlast.
  destruct t as [|b t].
  - simpl. by rewrite (Hlast a "").
  - rewrite IH.
    + simpl. by rewrite andb_false_r.
    + intros c front Hc. apply (Hlast c (String a front)).
      rewrite append_cons. by rewrite Hc.
Qed.

(** Only [strip] does so. *)
Lemma trimmed_unique (s t : string) : trimmed_of s t -> t = Py.strip s.
Proof.
  intros (pre & post & -> & Hpre & Hpost & Hhead & Hlast).
  unfold Py.strip. rewrite lstrip_app_space by done.
  destruct t as [|c rest].
  - rewrite append_nil. by rewrite lstrip_all_space.
  - rewrite append_cons. simpl. rewrite (Hhead c rest) by done.
    rewrite <- append_cons.
    rewrite rstrip_app_space by done. by rewrite rstrip_fixed.
Qed.

(** *** Case *)

Lemma lower_eq_iff (s t : string) :
  Py.lower s = Py.lower t <-> same_ignoring_case s t.
Proof.
  unfold same_ignoring_case. revert t.
  induction s as [|a s IH]; intros [|b t]; simpl; split;
    try discriminate; try (intros H; inversion H; fail); try by constructor.
  - intros [= Hab Hst]. constructor; [done|]. by apply IH.
  - intros H. inversion H as [|? ? ? ? Hab Hst]; subst.
    rewrite Hab. f_equal. by apply IH.
Qed.

(** The comparison used without the service holds exactly for answers
    that are, once trimmed, the same up to case. *)
Lemma string_comparison_spec (student_answer correct_answer : string) :
  string_comparison student_answer correct_answer = true
  <-> exists s c, trimmed_of student_answer s /\ trimmed_of correct_answer c
                  /\ same_ignoring_case s c.
Proof.
  unfold string_comparison. split.
  - intros H. apply String.eqb_eq in H.
    exists (Py.strip student_answer), (Py.strip correct_answer).
    split; [apply strip_trimmed|]. split; [apply strip_trimmed|].
    by apply lower_eq_iff.
  - intros (s & c & Hs & Hc & Hsc).
    apply trimmed_unique in Hs, Hc. subst.
    apply String.eqb_eq. by apply lower_eq_iff.
Qed.

(** C5. When no service credential is configured, the judge makes no
    request and its verdict is true exactly when the two answers,
    trimmed of whitespace, are equal up to case; so 1/2 against 1/2 is
    judged correct and 0.5 against 1/2 is not, whatever the question
    text and answer type. *)
Theorem judge_without_credential
    (rt : runtime) (student_answer correct_answer question_text answer_type : string)
    (w : world) :
  api_key_configured rt = None ->
  snd (check_answer_with_llm rt student_answer correct_answer question_text
         answer_type w) = w
  /\ (fst (check_answer_with_llm rt student_answer correct_answer question_text
             answer_type w) = true
      <-> exists s c, trimmed_of student_answer s /\ trimmed_of correct_answer c
                      /\ same_ignoring_case s c)
  /\ fst (check_answer_with_llm rt "1/2" "1/2" question_text answer_type w) = true
  /\ fst (check_answer_with_llm rt "0.5" "1/2" question_text answer_type w) = false.
Proof.
  intros Hkey. unfold check_answer_with_llm. rewrite Hkey. simpl.
  split; [done|]. split; [apply string_comparison_spec|]. by split.
Qed.

Lemma judge_without_credential_witness :
  snd (check_answer_with_llm Demo.offline " X+1 " "x+1" "Expand." "expression"
         Demo.empty_world) = Demo.empty_world
  /\ (fst (check_answer_with_llm Demo.offline " X+1 " "x+1" "Expand." "expression"
             Demo.empty_world) = true
      <-> exists s c, trimmed_of " X+1 " s /\ trimmed_of "x+1" c
                      /\ same_ignoring_case s c)
  /\ fst (check_answer_with_llm Demo.offline "1/2" "1/2" "Expand." "expression"
            Demo.empty_world) = true
  /\ fst (check_answer_with_llm Demo.offline "0.5" "1/2" "Expand." "expression"
            Demo.empty_world) = false.
Proof.
  apply (judge_without_credential Demo.offline " X+1 " "x+1" "Expand."
           "expression" Demo.empty_world).
  reflexivity.
Defined.

(** ** Work transcription *)

(** C7, as amended. Without an uploaded image for the question, the
    transcription is empty and the combined text is the typed work.
    When the image is transcribed to a non-empty text, the combined
    text is, with typed work present, the typed work under the heading
    [**Typed Work:**] followed by the transcription under the heading
    [**Handwritten Work (OCR):**], and otherwise the transcription. *)
Theorem process_student_work_cases
    (rt : runtime) (q : question) (responses : gmap string response)
    (uploaded_files : gmap string upload) (w : world) :
  let q_id := question_id q in
  let typed := default "" (typed_work (default no_response (responses !! q_id))) in
  let out := fst (process_student_work rt q responses uploaded_files w) in
  (uploaded_files !! q_id = None ->
   wd_handwritten_work_ocr out = "" /\ wd_combined_work out = typed)
  /\ (forall up key image_bytes uploaded_image text,
        uploaded_files !! q_id = Some up ->
        api_key_configured rt = Some key ->
        b64decode rt (data up) = Some image_bytes ->
        files_upload rt (requests w) (temp_path_of q_id) image_bytes
        = Some uploaded_image ->
        generate_content rt (S (requests w)) model_name
          (OcrRequest ocr_instruction uploaded_image) = Replies (Some text) ->
        Py.strip text <> "" ->
        wd_handwritten_work_ocr out = Py.strip text
        /\ wd_combined_work out
           = if Py.truthy typed
             then String.concat ""
                    [ "**Typed Work:**"; Py.nl; typed; Py.nl; Py.nl;
                      "**Handwritten Work (OCR):**"; Py.nl; Py.strip text ]
             else Py.strip text).
Proof.
  intros q_id typed out. subst out. unfold process_student_work.
  fold q_id. fold typed. split.
  - intros ->. done.
  - intros up key image_bytes uploaded_image text Hup Hkey Hdec Hupl Hgen Hocr.
    rewrite Hup, Hkey, Hdec. simpl. rewrite Hupl. simpl. rewrite Hgen. simpl.
    split; [done|].
    assert (Ht : Py.truthy (Py.strip text) = true).
    { unfold Py.truthy. by destruct (String.eqb_spec (Py.strip text) ""). }
    rewrite Ht. by destruct (Py.truthy typed).
Qed.

(** C7 fails as stated: with typed work and a transcription, the
    combined text carries the Markdown emphasis of the source around
    both headings, which the format of the claim does not have. *)
Lemma combined_work_has_markdown_headings :
  wd_handwritten_work_ocr
    (fst (process_student_work Demo.online Demo.the_question
            (responses Demo.session_at_submit)
            (uploaded_files Demo.session_at_submit) Demo.empty_world))
  = "x = 2"
  /\ wd_combined_work
       (fst (process_student_work Demo.online Demo.the_question
               (responses Demo.session_at_submit)
               (uploaded_files Demo.session_at_submit) Demo.empty_world))
     = combined_format "subtract 1" "x = 2"
  /\ combined_format "subtract 1" "x = 2"
     <> combined_format_of_spec "subtract 1" "x = 2".
Proof. vm_compute. repeat split; discriminate. Qed.

Lemma process_student_work_cases_witness :
  wd_handwritten_work_ocr
    (fst (process_student_work Demo.online Demo.the_question
            (responses Demo.session_at_submit)
            (uploaded_files Demo.session_at_submit) Demo.empty_world))
  = Py.strip " x = 2 "
  /\ wd_combined_work
       (fst (process_student_work Demo.online Demo.the_question
               (responses Demo.session_at_submit)
               (uploaded_files Demo.session_at_submit) Demo.empty_world))
     = String.concat ""
         [ "**Typed Work:**"; Py.nl; "subtract 1"; Py.nl; Py.nl;
           "**Handwritten Work (OCR):**"; Py.nl; Py.strip " x = 2 " ].
Proof.
  refine (proj2 (process_student_work_cases Demo.online Demo.the_question
                   (responses Demo.session_at_submit)
                   (uploaded_files Demo.session_at_submit) Demo.empty_world)
            {| filename := "work.jpg"; data := "JFIF" |} "key" "JFIF"
            {| fh_path := "temp_OLY_1.jpg"; fh_bytes := "JFIF" |} " x = 2 "
            _ _ _ _ _ _);
    first [ by vm_compute | vm_compute; discriminate ].
Defined.

(** The temporary file is gone once the transcription has come back. *)
Lemma temp_file_removed_on_success
    (rt : runtime) (q : question) (responses : gmap string response)
    (uploaded_files : gmap string upload) (w : world)
    (up : upload) (key image_bytes : string) (uploaded_image : file_handle)
    (text : string) :
  uploaded_files !! question_id q = Some up ->
  api_key_configured rt = Some key ->
  b64decode rt (data up) = Some image_bytes ->
  files_upload rt (requests w) (temp_path_of (question_id q)) image_bytes
  = Some uploaded_image ->
  generate_content rt (S (requests w)) model_name
    (OcrRequest ocr_instruction uploaded_image) = Replies (Some text) ->
  files (snd (process_student_work rt q responses uploaded_files w))
    !! temp_path_of (question_id q) = None.
Proof.
  intros Hup Hkey Hdec Hupl Hgen. unfold process_student_work.
  rewrite Hup, Hkey, Hdec. simpl. rewrite Hupl. simpl. rewrite Hgen. simpl.
  apply lookup_delete_eq.
Qed.

(** The temporary file stays behind when the upload raises. *)
Lemma temp_file_left_on_failed_upload
    (rt : runtime) (q : question) (responses : gmap string response)
    (uploaded_files : gmap string upload) (w : world)
    (up : upload) (key image_bytes : string) :
  uploaded_files !! question_id q = Some up ->
  api_key_configured rt = Some key ->
  b64decode rt (data up) = Some image_bytes ->
  files_upload rt (requests w) (temp_path_of (question_id q)) image_bytes = None ->
  files (snd (process_student_work rt q responses uploaded_files w))
    !! temp_path_of (question_id q) = Some image_bytes.
Proof.
  intros Hup Hkey Hdec Hupl. unfold process_student_work.
  rewrite Hup, Hkey, Hdec. simpl. rewrite Hupl. simpl.
  apply lookup_insert_eq.
Qed.

(** The temporary file stays behind when the transcription call raises
    or answers without text. *)
Lemma temp_file_left_on_failed_transcription
    (rt : runtime) (q : question) (responses : gmap string response)
    (uploaded_files : gmap string upload) (w : world)
    (up : upload) (key image_bytes : string) (uploaded_image : file_handle) :
  uploaded_files !! question_id q = Some up ->
  api_key_configured rt = Some key ->
  b64decode rt (data up) = Some image_bytes ->
  files_upload rt (requests w) (temp_path_of (question_id q)) image_bytes
  = Some uploaded_image ->
  (forall text,
     generate_content rt (S (requests w)) model_name
       (OcrRequest ocr_instruction uploaded_image) <> Replies (Some text)) ->
  files (snd (process_student_work rt q responses uploaded_files w))
    !! temp_path_of (question_id q) = Some image_bytes.
Proof.
  intros Hup Hkey Hdec Hupl Hgen. unfold process_student_work.
  rewrite Hup, Hkey, Hdec. simpl. rewrite Hupl. simpl.
  destruct (generate_content _ _ _ _) as [|[text|]] eqn:Hg; simpl.
  - apply lookup_insert_eq.
  - by destruct (Hgen text).
  - apply lookup_insert_eq.
Qed.

(** C8, where the code departs from the claim: the upload raises for
    the photo of question OLY_1, and the temporary file written for it
    is still there when work transcription returns. *)
Theorem temp_file_survives_failed_upload :
  files Demo.empty_world !! "temp_OLY_1.jpg" = None
  /\ files
       (snd (process_student_work Demo.upload_fails Demo.the_question
               (responses Demo.session_at_submit)
               (uploaded_files Demo.session_at_submit) Demo.empty_world))
     !! "temp_OLY_1.jpg" = Some "JFIF"
  /\ notices
       (snd (process_student_work Demo.upload_fails Demo.the_question
               (responses Demo.session_at_submit)
               (uploaded_files Demo.session_at_submit) Demo.empty_world))
     = [ WarnOcrFailed ].
Proof. by vm_compute. Qed.

(** ** Stage-3 synthesis and the submit page *)

(** A failed synthesis returns [None], writes no file and shows one
    error. *)
Lemma stage3_failure (rt : runtime) (stage2 : stage2_report)
    (stage1 : stage1_report) (now_iso : string) (w : world) :
  stage3_fails rt stage2 stage1 now_iso w ->
  fst (generate_stage3_report_with_llm rt stage2 stage1 now_iso w) = JNull
  /\ files (snd (generate_stage3_report_with_llm rt stage2 stage1 now_iso w))
     = files w
  /\ dirs (snd (generate_stage3_report_with_llm rt stage2 stage1 now_iso w))
     = dirs w
  /\ exists n,
       notices (snd (generate_stage3_report_with_llm rt stage2 stage1 now_iso w))
       = (notices w ++ [n])%list.
Proof.
  unfold stage3_fails, generate_stage3_report_with_llm.
  destruct (api_key_configured rt) as [key|].
  - intros [Hk|Hg]; [discriminate|].
    destruct (generate_content _ _ _ _) as [|[text|]]; simpl.
    + repeat split; by eexists.
    + rewrite Hg. simpl. repeat split; by eexists.
    + repeat split; by eexists.
  - intros _. simpl. repeat split; by eexists.
Qed.

(** *** What Stage 1 does to the files *)

Lemma check_answer_with_llm_files (rt : runtime) (a c q t : string) (w : world) :
  files (snd (check_answer_with_llm rt a c q t w)) = files w
  /\ dirs (snd (check_answer_with_llm rt a c q t w)) = dirs w.
Proof.
  unfold check_answer_with_llm. destruct (api_key_configured rt); [|done].
  by destruct (generate_content _ _ _ _) as [|[text|]].
Qed.

Lemma process_student_work_files (rt : runtime) (q : question)
    (responses : gmap string response) (uploaded_files : gmap string upload)
    (w : world) (path : string) :
  path <> temp_path_of (question_id q) ->
  files (snd (process_student_work rt q responses uploaded_files w)) !! path
  = files w !! path.
Proof.
  intros Hpath. unfold process_student_work.
  destruct (uploaded_files !! question_id q); [|done].
  destruct (api_key_configured rt); [|done].
  destruct (b64decode rt _); [|done].
  destruct (files_upload _ _ _ _); simpl.
  - destruct (generate_content _ _ _ _) as [|[text|]]; simpl;
      rewrite ?lookup_delete_ne by done; by rewrite lookup_insert_ne.
  - by rewrite lookup_insert_ne.
Qed.

Lemma process_student_work_dirs (rt : runtime) (q : question)
    (responses : gmap string response) (uploaded_files : gmap string upload)
    (w : world) :
  dirs (snd (process_student_work rt q responses uploaded_files w)) = dirs w.
Proof.
  unfold process_student_work.
  destruct (uploaded_files !! question_id q); [|done].
  destruct (api_key_configured rt); [|done].
  destruct (b64decode rt _); [|done].
  destruct (files_upload _ _ _ _); simpl; [|done].
  by destruct (generate_content _ _ _ _) as [|[text|]].
Qed.

Lemma stage1_question_files (rt : runtime) (st : session) (q : question)
    (clock : Q) (t : tally) (w : world) (path : string) :
  path <> temp_path_of (question_id q) ->
  files (snd (stage1_question rt st q clock t w)) !! path = files w !! path
  /\ dirs (snd (stage1_question rt st q clock t w)) = dirs w.
Proof.
  intros Hpath. unfold stage1_question.
  pose proof (process_student_work_files rt q (responses st)
                (uploaded_files st) w path Hpath) as Hf.
  pose proof (process_student_work_dirs rt q (responses st)
                (uploaded_files st) w) as Hd.
  destruct (process_student_work _ _ _ _ _) as [work w1]. simpl in Hf, Hd.
  destruct (Py.truthy _); [|done].
  match goal with |- context [check_answer_with_llm ?r ?a ?c ?qt ?ty ?x] =>
    pose proof (check_answer_with_llm_files r a c qt ty x) as [Hcf Hcd];
    destruct (check_answer_with_llm r a c qt ty x) as [verdict w2] end.
  simpl in *. by rewrite Hcf, Hcd.
Qed.

Lemma stage1_loop_files (rt : runtime) (st : session) (clocks : nat -> Q)
    (path : string) (qs : list question) :
  Forall (fun q => path <> temp_path_of (question_id q)) qs ->
  forall idx t w,
    files (snd (stage1_loop rt st clocks idx qs t w)) !! path = files w !! path
    /\ dirs (snd (stage1_loop rt st clocks idx qs t w)) = dirs w.
Proof.
  induction 1 as [|q rest Hq _ IH]; intros idx t w; simpl; [done|].
  pose proof (stage1_question_files rt st q (clocks idx) t w path Hq) as [Hf Hd].
  destruct (stage1_question _ _ _ _ _ _) as [[qd t1] w1].
  specialize (IH (S idx) t1 w1).
  destruct (stage1_loop _ _ _ _ _ _ _) as [[qds t2] w2].
  simpl in *. destruct IH as [IHf IHd]. by rewrite IHf, IHd.
Qed.

(** A report file is never one of the temporary files of Stage 1. *)
Lemma report_file_not_temp (report_id q_id : string) :
  report_file_of report_id <> temp_path_of q_id.
Proof.
  intros H. apply (f_equal (String.get 0)) in H. vm_compute in H. discriminate.
Qed.

(** Stage 1 writes and removes temporary files only. *)
Lemma generate_performance_report_files (rt : runtime) (st : session)
    (now : moment) (clocks : nat -> Q) (w : world) (report_id : string) :
  files (snd (generate_performance_report rt st now clocks w))
    !! report_file_of report_id
  = files w !! report_file_of report_id
  /\ dirs (snd (generate_performance_report rt st now clocks w)) = dirs w.
Proof.
  unfold generate_performance_report.
  pose proof (stage1_loop_files rt st clocks (report_file_of report_id)
                (questions st)) as H.
  specialize (H ltac:(apply Forall_forall; intros; apply report_file_not_temp)
                0%nat {| t_correct := 0; t_incorrect := 0; t_unattempted := 0 |} w).
  destruct (stage1_loop _ _ _ _ _ _ _) as [[qds t] w1].
  by destruct (selected_topic st).
Qed.

(** C9. Stage-3 synthesis returns no result whenever the credential is
    missing, the call fails or its response does not parse as JSON. The
    submit page then leaves the session as it was, so the quiz is not
    finalized and no report is stored; it writes no report file and
    creates no directory, the files being those that Stage 1 left; and it
    ends on the error message. The Stage-1 and Stage-2 reports it
    computed are the values handed to the synthesizer, which has no way
    to change them. *)
Theorem stage3_failure_is_fatal
    (rt : runtime) (inp : submit_input) (st : session) (w : world)
    (stage1 : stage1_report) (w1 : world) :
  si_pressed inp = Some SubmitQuiz ->
  generate_performance_report rt st (si_now inp) (si_clocks inp) w
  = (Some stage1, w1) ->
  let stage2 := generate_stage2_report stage1 (si_stage2_now_iso inp) in
  stage3_fails rt stage2 stage1 (si_stage3_now_iso inp) w1 ->
  fst (generate_stage3_report_with_llm rt stage2 stage1
         (si_stage3_now_iso inp) w1) = JNull
  /\ fst (render_submit_page rt inp st w) = st
  /\ files (snd (render_submit_page rt inp st w)) = files w1
  /\ (forall report_id,
        files (snd (render_submit_page rt inp st w)) !! report_file_of report_id
        = files w !! report_file_of report_id)
  /\ dirs (snd (render_submit_page rt inp st w)) = dirs w
  /\ last (notices (snd (render_submit_page rt inp st w))) = Some ErrReportFailed.
Proof.
  intros Hpressed Hs1 stage2 Hfail.
  destruct (stage3_failure _ _ _ _ _ Hfail) as (Hnull & Hfiles & Hdirs & n & Hn).
  split; [exact Hnull|].
  assert (Hframe : forall report_id,
            files w1 !! report_file_of report_id = files w !! report_file_of report_id).
  { intros report_id.
    pose proof (generate_performance_report_files rt st (si_now inp)
                  (si_clocks inp) w report_id) as [Hf _].
    by rewrite Hs1 in Hf. }
  assert (Hdirs1 : dirs w1 = dirs w).
  { pose proof (generate_performance_report_files rt st (si_now inp)
                  (si_clocks inp) w "") as [_ Hd].
    by rewrite Hs1 in Hd. }
  unfold render_submit_page, submit_quiz. rewrite Hpressed, Hs1. fold stage2.
  destruct (generate_stage3_report_with_llm _ _ _ _ _) as [stage3 w2].
  simpl in *. subst stage3. simpl.
  split; [done|]. split; [done|]. split; [|split].
  - intros report_id. rewrite Hfiles. apply Hframe.
  - congruence.
  - by rewrite Hn, last_snoc.
Qed.

Lemma stage3_failure_is_fatal_witness :
  fst (generate_stage3_report_with_llm Demo.online
         (generate_stage2_report (Demo.report_of Demo.online)
            (si_stage2_now_iso Demo.submit_pressed))
         (Demo.report_of Demo.online)
         (si_stage3_now_iso Demo.submit_pressed)
         (snd (generate_performance_report Demo.online Demo.session_at_submit
                 Demo.a_moment (fun _ => 200%Q) Demo.empty_world))) = JNull
  /\ fst (render_submit_page Demo.online Demo.submit_pressed
            Demo.session_at_submit Demo.empty_world) = Demo.session_at_submit
  /\ files (snd (render_submit_page Demo.online Demo.submit_pressed
                   Demo.session_at_submit Demo.empty_world))
     = files (snd (generate_performance_report Demo.online Demo.session_at_submit
                     Demo.a_moment (fun _ => 200%Q) Demo.empty_world))
  /\ (forall report_id,
        files (snd (render_submit_page Demo.online Demo.submit_pressed
                      Demo.session_at_submit Demo.empty_world))
          !! report_file_of report_id
        = files Demo.empty_world !! report_file_of report_id)
  /\ dirs (snd (render_submit_page Demo.online Demo.submit_pressed
                  Demo.session_at_submit Demo.empty_world))
     = dirs Demo.empty_world
  /\ last (notices (snd (render_submit_page Demo.online Demo.submit_pressed
                           Demo.session_at_submit Demo.empty_world)))
     = Some ErrReportFailed.
Proof.
  apply (stage3_failure_is_fatal Demo.online Demo.submit_pressed
           Demo.session_at_submit Demo.empty_world (Demo.report_of Demo.online)).
  - reflexivity.
  - by vm_compute.
  - right. by vm_compute.
Defined.

(** ** Examples for the Stage-1 and Stage-2 theorems *)

Lemma session_at_submit_reachable : reachable Demo.session_at_submit.
Proof.
  unfold Demo.session_at_submit. do 3 apply reachable_run.
  apply reachable_initial.
Defined.

Lemma impulsivity_index_over_attempted_witness :
  impulsivity_index
    (s2_kpis_summary (generate_stage2_report (Demo.report_of Demo.online) "now"))
  = impulsivity_fraction (s1_questions (Demo.report_of Demo.online))
  /\ (impulsivity_index
        (s2_kpis_summary
           (generate_stage2_report (Demo.report_of Demo.online) "now"))
      <= 1)%Q.
Proof.
  refine (proj1 (proj2 (proj2 (proj2 (proj2
            (impulsivity_index_over_attempted (Demo.report_of Demo.online) "now")))))
            Demo.online Demo.session_at_submit Demo.a_moment (fun _ => 200%Q)
            Demo.empty_world _ _ _).
  - exact session_at_submit_reachable.
  - by vm_compute.
  - by vm_compute.
Defined.

Lemma revision_outcome_invariant_witness :
  (revision_outcome (qd_kpis (Demo.record_of Demo.online)) = "none"
   <-> num_option_changes (qd_kpis (Demo.record_of Demo.online)) = 0)
  /\ (0 < num_option_changes (qd_kpis (Demo.record_of Demo.online)) ->
      revision_outcome (qd_kpis (Demo.record_of Demo.online))
      = if sub_is_correct (qd_submission (Demo.record_of Demo.online))
        then "improved" else "worsened").
Proof.
  apply (revision_outcome_invariant Demo.online Demo.session_at_submit
           Demo.a_moment (fun _ => 200%Q) Demo.empty_world
           (Demo.report_of Demo.online) (Demo.record_of Demo.online)).
  - exact session_at_submit_reachable.
  - by vm_compute.
  - vm_compute. by left.
Defined.

Lemma work_quality_rating_values_witness :
  1 <= attempted (Demo.concept_of Demo.online)
  /\ In (wq_value (work_quality (Demo.concept_of Demo.online))) [3; 4; 6; 8].
Proof.
  apply (work_quality_rating_values (Demo.report_of Demo.online) "now"
           (Demo.concept_of Demo.online)).
  vm_compute. by left.
Defined.

(** * Further properties *)

(** ** Question store adapter *)

(** X1. The extractor returns nothing exactly for a missing or empty
    input: whatever [json.loads] and [str] do, every other input yields
    an answer text. *)
Theorem extract_answer_from_json_none_iff (rt : runtime)
    (answer_json_str : option string) (answer_type : string) :
  extract_answer_from_json rt answer_json_str answer_type = None
  <-> answer_json_str = None \/ answer_json_str = Some "".
Proof.
  unfold extract_answer_from_json. split.
  - destruct answer_json_str as [raw|]; [|by left].
    destruct (Py.truthy raw) eqn:Ht; simpl.
    + intros H. exfalso. revert H.
      destruct (json_loads rt raw) as [v|]; [|discriminate].
      destruct v as [| | | | | | | |[|first rest]|d]; try discriminate.
      repeat case_match; discriminate.
    + intros _. right. f_equal. unfold Py.truthy in Ht.
      by destruct (String.eqb_spec raw "").
  - by intros [->| ->].
Qed.

(** X2. A parsed payload that offers nothing to pick is stringified
    whole: an object without any of the keys looked for, an empty list
    and every scalar. *)
Theorem extract_answer_from_json_whole (rt : runtime)
    (raw answer_type : string) (v : json) :
  raw <> "" -> json_loads rt raw = Some v ->
  match v with
  | JDict d => first_present (answer_keys answer_type) d = None
  | JList l => l = []
  | _ => True
  end ->
  extract_answer_from_json rt (Some raw) answer_type = Some (py_str rt v).
Proof.
  intros Hraw Hl Hv. unfold extract_answer_from_json.
  assert (Ht : Py.truthy raw = true).
  { unfold Py.truthy. by destruct (String.eqb_spec raw ""). }
  rewrite Ht, Hl. simpl.
  destruct v as [| | | | | | | |l|d]; try done.
  - by subst l.
  - rewrite first_present_answer_keys in Hv.
    destruct (dict_get "answer" d); [discriminate|].
    destruct (dict_get "value" d); [discriminate|].
    destruct (String.eqb answer_type "integer" || String.eqb answer_type "float");
      [|done].
    destruct (dict_get "number" d); [discriminate|].
    destruct (dict_get "numerical_value" d); [discriminate|].
    by rewrite Hv.
Qed.

Lemma extract_answer_from_json_whole_witness :
  extract_answer_from_json StoreDemo.numbers
    (Some StoreDemo.number_object_text) "expression"
  = Some "{'number': 5}".
Proof.
  exact (extract_answer_from_json_whole StoreDemo.numbers
           StoreDemo.number_object_text "expression" (JDict [("number", JInt 5)])
           ltac:(discriminate) eq_refl eq_refl).
Defined.

Lemma olympiad_difficulty_of_length (s : string) :
  s <> "" ->
  olympiad_difficulty (Some s)
  = if Z.of_nat (String.length s) <? 200 then "easy"
    else if Z.of_nat (String.length s) >? 500 then "hard" else "medium".
Proof.
  intros Hs. unfold olympiad_difficulty.
  assert (Ht : Py.truthy s = true).
  { unfold Py.truthy. by destruct (String.eqb_spec s ""). }
  by rewrite Ht.
Qed.

(** X3. In the first store a longer solution never gets an easier
    label than a shorter one, provided both are non-empty; a missing or
    empty solution is labelled medium, whatever its neighbours get. *)
Theorem olympiad_difficulty_monotone (s1 s2 : string) :
  s1 <> "" -> s2 <> "" ->
  (String.length s1 <= String.length s2)%nat ->
  difficulty_rank (olympiad_difficulty (Some s1))
  <= difficulty_rank (olympiad_difficulty (Some s2))
  /\ olympiad_difficulty None = "medium"
  /\ olympiad_difficulty (Some "") = "medium".
Proof.
  intros H1 H2 Hlen. split; [|done].
  rewrite !olympiad_difficulty_of_length by done.
  destruct (Z.ltb_spec (Z.of_nat (String.length s1)) 200);
    destruct (Z.ltb_spec (Z.of_nat (String.length s2)) 200); try done; try lia.
  - by repeat case_match.
  - destruct (Z.of_nat (String.length s1) >? 500) eqn:G1;
      destruct (Z.of_nat (String.length s2) >? 500) eqn:G2; try done.
    apply Z.gtb_lt in G1.
    pose proof (Zgt_cases (Z.of_nat (String.length s2)) 500) as G.
    rewrite G2 in G. lia.
Qed.

Lemma olympiad_difficulty_monotone_witness :
  difficulty_rank (olympiad_difficulty (Some (Demo.text_of_length 199)))
  <= difficulty_rank (olympiad_difficulty (Some (Demo.text_of_length 200)))
  /\ olympiad_difficulty None = "medium"
  /\ olympiad_difficulty (Some "") = "medium".
Proof.
  apply (olympiad_difficulty_monotone (Demo.text_of_length 199)
           (Demo.text_of_length 200)); [discriminate | discriminate |].
  vm_compute. lia.
Defined.

Lemma same_ignoring_case_truthy (s t : string) :
  same_ignoring_case s t -> Py.truthy s = Py.truthy t.
Proof.
  unfold same_ignoring_case. intros H.
  destruct s, t; simpl in *; try done; inversion H.
Qed.

(** X4. In the second store the label depends on the source text only
    up to the case of its letters. *)
Theorem calculus_difficulty_ignores_case (s t : string) :
  same_ignoring_case s t ->
  calculus_difficulty (Some s) = calculus_difficulty (Some t).
Proof.
  intros H. unfold calculus_difficulty.
  rewrite (same_ignoring_case_truthy s t H).
  apply lower_eq_iff in H. by rewrite H.
Qed.

Lemma calculus_difficulty_ignores_case_witness :
  calculus_difficulty (Some "AMC 10 Easy") = calculus_difficulty (Some "amc 10 easy").
Proof.
  apply (calculus_difficulty_ignores_case "AMC 10 Easy" "amc 10 easy").
  apply lower_eq_iff. reflexivity.
Defined.

(** *** Fetching a batch *)

Lemma slice_list_length {A : Type} (n : Z) (l : list A) :
  0 <= n -> len (slice_list n l) = Z.min n (len l).
Proof.
  intros Hn. unfold slice_list, len.
  rewrite (proj2 (Z.leb_le 0 n)) by done. rewrite length_take. lia.
Qed.

Lemma slice_list_subseteq {A : Type} (n : Z) (l : list A) (x : A) :
  x ∈ slice_list n l -> x ∈ l.
Proof.
  unfold slice_list. destruct (0 <=? n); intros H;
    by apply (subseteq_take _ l) in H.
Qed.

Lemma collect_rows_kept {R : Type} (body : R -> row_result) (rows : list R)
    (qs : list question) (q : question) :
  collect_rows body rows = Some qs -> q ∈ qs ->
  exists row, row ∈ rows /\ body row = Kept q.
Proof.
  revert qs. induction rows as [|row rest IH]; intros qs; simpl.
  - intros [= <-] Hq. by apply elem_of_nil in Hq.
  - destruct (body row) as [| |q0] eqn:Hb; [|discriminate|].
    + intros Hc Hq. destruct (IH _ Hc Hq) as (r & Hr & Hk).
      exists r. split; [by right|done].
    + destruct (collect_rows body rest) as [qs0|]; [|discriminate].
      intros [= <-] Hq. apply elem_of_cons in Hq as [->|Hq].
      * exists row. split; [by left|done].
      * destruct (IH _ eq_refl Hq) as (r & Hr & Hk).
        exists r. split; [by right|done].
Qed.

Lemma collect_rows_length {R : Type} (body : R -> row_result) (rows : list R)
    (qs : list question) :
  collect_rows body rows = Some qs ->
  len qs
  = count_if (fun row => match body row with Kept _ => true | _ => false end) rows.
Proof.
  unfold len, count_if. revert qs.
  induction rows as [|row rest IH]; intros qs; simpl.
  - by intros [= <-].
  - destruct (body row) as [| |q0] eqn:Hb; [|discriminate|].
    + apply IH.
    + destruct (collect_rows body rest) as [qs0|]; [|discriminate].
      intros [= <-]. simpl. specialize (IH _ eq_refl). lia.
Qed.

Lemma collect_rows_raised {R : Type} (body : R -> row_result) (rows : list R)
    (row : R) :
  row ∈ rows -> body row = Raised -> collect_rows body rows = None.
Proof.
  induction rows as [|r rest IH]; intros Hin Hr.
  - by apply elem_of_nil in Hin.
  - simpl. apply elem_of_cons in Hin as [<-|Hin].
    + by rewrite Hr.
    + rewrite (IH Hin Hr). by destruct (body r).
Qed.

Lemma collect_rows_total {R : Type} (body : R -> row_result) (rows : list R) :
  Forall (fun row => body row <> Raised) rows ->
  is_Some (collect_rows body rows).
Proof.
  induction 1 as [|row rest Hrow _ IH]; simpl; [by eexists|].
  destruct (body row); [done|done|].
  destruct IH as [qs ->]. by eexists.
Qed.

Lemma olympiad_difficulty_label (solution : option string) :
  In (olympiad_difficulty solution) [ "easy"; "medium"; "hard" ].
Proof.
  unfold olympiad_difficulty. repeat case_match; simpl; tauto.
Qed.

Lemma calculus_difficulty_label (source : option string) :
  In (calculus_difficulty source) [ "easy"; "medium"; "hard" ].
Proof.
  unfold calculus_difficulty. repeat case_match; simpl; tauto.
Qed.

Lemma olympiad_question_well_formed (sto : store) (rt : runtime)
    (row : olympiad_row) (q : question) :
  olympiad_question sto rt row = Kept q -> well_formed_question q.
Proof.
  unfold olympiad_question.
  destruct (extract_answer_from_json _ _ _) as [correct|]; [|discriminate].
  destruct (Py.truthy correct) eqn:Ht; simpl; [|discriminate].
  destruct (oly_subfield row); [|discriminate].
  intros [= <-]. repeat split; simpl; try done.
  apply olympiad_difficulty_label.
Qed.

Lemma calculus_question_well_formed (sto : store) (row : calculus_row)
    (q : question) :
  calculus_question sto row = Kept q -> well_formed_question q.
Proof.
  unfold calculus_question.
  destruct (Py.truthy (default "" (calc_expected_answer row))) eqn:Ht; simpl;
    [|discriminate].
  intros [= <-]. repeat split; simpl; try done.
  apply calculus_difficulty_label.
Qed.

Lemma topic_mapping_olympiad (topic : string) :
  topic <> "Calculus" -> fst (topic_mapping topic) = "olympiad.db".
Proof.
  intros H. unfold topic_mapping.
  destruct (String.eqb_spec topic "Calculus"); [done|].
  by repeat case_match.
Qed.

(** The fetch from the first store, spelled out. *)
Lemma get_questions_from_db_olympiad (sto : store) (rt : runtime)
    (topic : string) (num_questions : Z) :
  topic <> "Calculus" ->
  get_questions_from_db sto rt topic num_questions
  = match olympiad_rows sto (olympiad_filter topic) (num_questions * 2) with
    | None => DatabaseError
    | Some rows =>
        match collect_rows (olympiad_question sto rt) rows with
        | None => FetchError
        | Some questions_list =>
            Fetched (slice_list num_questions (shuffled sto questions_list))
        end
    end.
Proof.
  intros H. pose proof (topic_mapping_olympiad topic H) as Hdb.
  unfold get_questions_from_db, olympiad_filter.
  destruct (topic_mapping topic) as [db_file subfields]. simpl in *. subst db_file.
  simpl.
  by destruct (olympiad_rows sto _ _) as [rows|].
Qed.

(** X5. Whatever the stores return, a fetch hands the caller at most
    the requested number of questions, and each of them has a non-empty
    correct answer, the type numerical, one of the three difficulty
    labels and at least one concept tag; the shuffle only has to
    permute its argument. *)
Theorem get_questions_from_db_batch (sto : store) (rt : runtime)
    (topic : string) (num_questions : Z) :
  0 <= num_questions ->
  (forall l, shuffled sto l ≡ₚ l) ->
  len (questions_of (get_questions_from_db sto rt topic num_questions))
  <= num_questions
  /\ Forall well_formed_question
       (questions_of (get_questions_from_db sto rt topic num_questions)).
Proof.
  intros Hn Hperm. unfold get_questions_from_db.
  destruct (topic_mapping topic) as [db_file subfields].
  set (filter := match subfields with Some [subfield] => Some subfield | _ => None end).
  assert (Hgen : forall (R : Type) (body : R -> row_result) (rows : list R),
    (forall row q, body row = Kept q -> well_formed_question q) ->
    forall qs, collect_rows body rows = Some qs ->
    len (slice_list num_questions (shuffled sto qs)) <= num_questions
    /\ Forall well_formed_question (slice_list num_questions (shuffled sto qs))).
  { intros R body rows Hbody qs Hc. split.
    - rewrite slice_list_length by done. lia.
    - apply Forall_forall. intros q Hq. apply slice_list_subseteq in Hq.
      rewrite (Hperm qs) in Hq.
      destruct (collect_rows_kept body rows qs q Hc Hq) as (row & _ & Hk).
      by eapply Hbody. }
  destruct (String.eqb db_file "olympiad.db").
  - destruct (olympiad_rows sto filter _) as [rows|]; simpl; [|by split; [|constructor]].
    destruct (collect_rows _ rows) as [qs|] eqn:Hc; simpl; [|by split; [|constructor]].
    eapply Hgen; [|exact Hc]. apply olympiad_question_well_formed.
  - destruct (calculus_rows sto _) as [rows|]; simpl; [|by split; [|constructor]].
    destruct (collect_rows _ rows) as [qs|] eqn:Hc; simpl; [|by split; [|constructor]].
    eapply Hgen; [|exact Hc]. apply calculus_question_well_formed.
Qed.

Lemma get_questions_from_db_batch_witness :
  len (questions_of (get_questions_from_db StoreDemo.three_rows Demo.offline
                       "Algebra" 1)) <= 1
  /\ Forall well_formed_question
       (questions_of (get_questions_from_db StoreDemo.three_rows Demo.offline
                        "Algebra" 1)).
Proof.
  apply (get_questions_from_db_batch StoreDemo.three_rows Demo.offline "Algebra" 1);
    [lia | intros l; reflexivity].
Defined.

(** X6. A fetch from the first store returns exactly as many questions
    as requested, or all the usable rows if there are fewer: the rows
    whose answer extracts to a non-empty text. No row may raise. *)
Theorem get_questions_from_db_count (sto : store) (rt : runtime)
    (topic : string) (num_questions : Z) (rows : list olympiad_row) :
  topic <> "Calculus" -> 0 <= num_questions ->
  (forall l, shuffled sto l ≡ₚ l) ->
  olympiad_rows sto (olympiad_filter topic) (num_questions * 2) = Some rows ->
  Forall (fun row => olympiad_question sto rt row <> Raised) rows ->
  len (questions_of (get_questions_from_db sto rt topic num_questions))
  = Z.min num_questions (count_if (usable sto rt) rows).
Proof.
  intros Htopic Hn Hperm Hrows Hok.
  rewrite get_questions_from_db_olympiad by done. rewrite Hrows.
  destruct (collect_rows_total _ _ Hok) as [qs Hc]. rewrite Hc. simpl.
  rewrite slice_list_length by done.
  unfold len at 1. rewrite (Permutation_length (Hperm qs)).
  fold (len qs). by rewrite (collect_rows_length _ _ _ Hc).
Qed.

Lemma get_questions_from_db_count_witness :
  len (questions_of (get_questions_from_db StoreDemo.three_rows Demo.offline
                       "Algebra" 5))
  = Z.min 5 (count_if (usable StoreDemo.three_rows Demo.offline) StoreDemo.rows).
Proof.
  apply (get_questions_from_db_count StoreDemo.three_rows Demo.offline
           "Algebra" 5 StoreDemo.rows);
    [discriminate | lia | intros l; reflexivity | reflexivity |].
  repeat constructor; vm_compute; discriminate.
Defined.

(** X7. One row of the first store with a usable answer and no
    subfield empties the whole batch: the fetch ends in the handler of
    unexpected errors and the caller gets no question at all. *)
Theorem get_questions_from_db_null_subfield (sto : store) (rt : runtime)
    (topic : string) (num_questions : Z) (rows : list olympiad_row)
    (row : olympiad_row) (answer : string) :
  topic <> "Calculus" ->
  olympiad_rows sto (olympiad_filter topic) (num_questions * 2) = Some rows ->
  row ∈ rows ->
  oly_subfield row = None ->
  extract_answer_from_json rt (oly_final_answer_json row) (oly_answer_type row)
  = Some answer ->
  answer <> "" ->
  get_questions_from_db sto rt topic num_questions = FetchError
  /\ questions_of (get_questions_from_db sto rt topic num_questions) = [].
Proof.
  intros Htopic Hrows Hin Hsub Hext Hans.
  rewrite get_questions_from_db_olympiad by done. rewrite Hrows.
  rewrite (collect_rows_raised _ rows row Hin); [done|].
  unfold olympiad_question. rewrite Hext, Hsub.
  unfold Py.truthy. by destruct (String.eqb_spec answer "").
Qed.

Lemma get_questions_from_db_null_subfield_witness :
  get_questions_from_db StoreDemo.null_subfield Demo.offline "Miscellaneous" 5
  = FetchError
  /\ questions_of
       (get_questions_from_db StoreDemo.null_subfield Demo.offline
          "Miscellaneous" 5) = [].
Proof.
  apply (get_questions_from_db_null_subfield StoreDemo.null_subfield
           Demo.offline "Miscellaneous" 5
           [ StoreDemo.row 1 (Some "Algebra") (Some Demo.object_text) None;
             StoreDemo.row 2 None (Some Demo.list_text) None ]
           (StoreDemo.row 2 None (Some Demo.list_text) None) "7");
    [discriminate | reflexivity | | reflexivity | reflexivity | discriminate].
  apply elem_of_cons. right. apply elem_of_cons. by left.
Defined.

(** ** Correctness judge with the service *)

Lemma prefix_cons (a b : ascii) (s1 s2 : string) :
  String.prefix (String a s1) (String b s2)
  = if ascii_dec a b then String.prefix s1 s2 else false.
Proof. reflexivity. Qed.

Lemma contains_here (needle s : string) :
  String.prefix needle s = true -> contains needle s = true.
Proof. intros H. destruct s; unfold contains; fold contains; by rewrite H. Qed.

Lemma contains_tail (needle : string) (c : ascii) (s : string) :
  contains needle s = true -> contains needle (String c s) = true.
Proof.
  intros H. unfold contains; fold contains. rewrite H. apply orb_true_r.
Qed.

Lemma contains_cases (needle : string) (c : ascii) (s : string) :
  contains needle (String c s) = true ->
  String.prefix needle (String c s) = true \/ contains needle s = true.
Proof.
  unfold contains at 1; fold contains. intros H. by apply orb_true_iff in H.
Qed.

Lemma prefix_incorrect (s : string) :
  String.prefix "INCORRECT" s = true ->
  exists a b rest, s = String a (String b rest)
                   /\ String.prefix "CORRECT" rest = true.
Proof.
  destruct s as [|a [|b rest]]; [discriminate| |].
  - rewrite prefix_cons. by destruct (ascii_dec _ _).
  - rewrite prefix_cons. destruct (ascii_dec _ _); [|discriminate].
    rewrite prefix_cons. destruct (ascii_dec _ _); [|discriminate].
    intros H. by exists a, b, rest.
Qed.

(** A text with the word INCORRECT in it has the word CORRECT in it. *)
Lemma contains_incorrect (s : string) :
  contains "INCORRECT" s = true -> contains "CORRECT" s = true.
Proof.
  induction s as [|c s IH].
  - discriminate.
  - intros H. apply contains_cases in H as [H|H].
    + apply prefix_incorrect in H as (a & b & rest & Heq & Hp).
      rewrite Heq. by apply contains_tail, contains_tail, contains_here.
    + apply contains_tail. by apply IH.
Qed.

(** X8. With a credential configured, the judge calls an answer correct
    whenever the service's reply has the word INCORRECT in it, in any
    case of letters: the verdict only looks for CORRECT, and INCORRECT
    contains it. *)
Theorem judge_takes_incorrect_for_correct
    (rt : runtime) (student_answer correct_answer question_text answer_type : string)
    (w : world) (key text : string) :
  api_key_configured rt = Some key ->
  generate_content rt (requests w) model_name
    (CheckAnswerPrompt question_text correct_answer student_answer answer_type)
  = Replies (Some text) ->
  contains "INCORRECT" (upper (Py.strip text)) = true ->
  fst (check_answer_with_llm rt student_answer correct_answer question_text
         answer_type w) = true.
Proof.
  intros Hkey Hgen Hinc. unfold check_answer_with_llm.
  rewrite Hkey, Hgen. simpl. by apply contains_incorrect.
Qed.

Lemma judge_takes_incorrect_for_correct_witness :
  fst (check_answer_with_llm PlanDemo.planner "3" "2" "What is 1 + 1?"
         "integer" Demo.empty_world) = true.
Proof.
  apply (judge_takes_incorrect_for_correct PlanDemo.planner "3" "2"
           "What is 1 + 1?" "integer" Demo.empty_world "key" "Incorrect.");
    by vm_compute.
Defined.

(** X9. The judge never touches a file or a directory. It makes one
    request when a credential is configured and none otherwise. It
    shows a warning exactly when the request brings no text back, and
    its verdict is then the plain string comparison. *)
Theorem judge_effects
    (rt : runtime) (student_answer correct_answer question_text answer_type : string)
    (w : world) :
  let out :=
    check_answer_with_llm rt student_answer correct_answer question_text
      answer_type w in
  files (snd out) = files w /\ dirs (snd out) = dirs w
  /\ requests (snd out)
     = match api_key_configured rt with
       | Some _ => S (requests w)
       | None => requests w
       end
  /\ (notices (snd out) = notices w
      \/ notices (snd out) = (notices w ++ [ WarnLlmCheckFailed ])%list
         /\ fst out = string_comparison student_answer correct_answer
         /\ is_Some (api_key_configured rt)).
Proof.
  simpl. unfold check_answer_with_llm.
  destruct (api_key_configured rt) as [key|]; simpl.
  - destruct (generate_content _ _ _ _) as [|[text|]]; simpl;
      repeat split; try done; try (by left); right; by repeat split.
  - repeat split; try done. by left.
Qed.

(** ** Work transcription: what it keeps and what it touches *)

Lemma prefix_refl_app (s t : string) : String.prefix s (String.append s t) = true.
Proof.
  induction s as [|c s IH]; [by destruct t|].
  rewrite append_cons, prefix_cons. by destruct (ascii_dec c c).
Qed.

Lemma contains_app_l (needle s t : string) :
  contains needle t = true -> contains needle (String.append s t) = true.
Proof.
  intros H. induction s as [|c s IH]; [done|].
  rewrite append_cons. by apply contains_tail.
Qed.

Lemma contains_empty (s : string) : contains "" s = true.
Proof. by destruct s. Qed.

Lemma contains_refl (s : string) : contains s s = true.
Proof.
  apply contains_here. induction s as [|c s IH]; [done|].
  rewrite prefix_cons. by destruct (ascii_dec c c).
Qed.

Lemma contains_combined_format (typed ocr : string) :
  contains typed (combined_format typed ocr) = true.
Proof.
  unfold combined_format. cbn [String.concat].
  do 4 apply contains_app_l. apply contains_here, prefix_refl_app.
Qed.

(** X10. Work transcription never loses the typed work: the combined
    text always contains it, and whenever no transcription comes out
    (no image, no credential, a failed call, an empty reading) the
    combined text is the typed work itself. *)
Theorem process_student_work_keeps_typed_work
    (rt : runtime) (q : question) (responses : gmap string response)
    (uploaded_files : gmap string upload) (w : world) :
  let typed :=
    default "" (typed_work (default no_response (responses !! question_id q))) in
  let out := fst (process_student_work rt q responses uploaded_files w) in
  contains typed (wd_combined_work out) = true
  /\ (wd_handwritten_work_ocr out = "" -> wd_combined_work out = typed).
Proof.
  simpl. unfold process_student_work.
  set (typed := default "" (typed_work (default no_response (responses !! question_id q)))).
  destruct (uploaded_files !! question_id q) as [up|]; simpl;
    [|split; [apply contains_refl|done]].
  destruct (api_key_configured rt); simpl; [|split; [apply contains_refl|done]].
  destruct (b64decode rt _); simpl; [|split; [apply contains_refl|done]].
  destruct (files_upload _ _ _ _); simpl; [|split; [apply contains_refl|done]].
  destruct (generate_content _ _ _ _) as [|[text|]]; simpl;
    try (split; [apply contains_refl|done]).
  destruct (Py.truthy typed) eqn:Hty; simpl.
  - destruct (Py.truthy (Py.strip text)) eqn:Hocr.
    + split; [apply contains_combined_format|].
      intros He. rewrite He in Hocr. discriminate.
    + split; [apply contains_refl|done].
  - assert (typed = "") as ->.
    { unfold Py.truthy in Hty. by destruct (String.eqb_spec typed ""). }
    split; [apply contains_empty|].
    destruct (Py.truthy (Py.strip text)) eqn:Hocr; [|done].
    intros He. rewrite He in Hocr. discriminate.
Qed.

(** X11. Work transcription creates no directory and changes no file
    but [temp_{q_id}.jpg]; it makes at most two requests; it shows at
    most one warning, and after a warning the transcription is empty
    and the combined text is the typed work. Without an image or
    without a credential it leaves the world as it is. *)
Theorem process_student_work_effects
    (rt : runtime) (q : question) (responses : gmap string response)
    (uploaded_files : gmap string upload) (w : world) :
  let typed :=
    default "" (typed_work (default no_response (responses !! question_id q))) in
  let out := process_student_work rt q responses uploaded_files w in
  dirs (snd out) = dirs w
  /\ (forall path, path <> temp_path_of (question_id q) ->
        files (snd out) !! path = files w !! path)
  /\ (requests w <= requests (snd out) <= requests w + 2)%nat
  /\ (notices (snd out) = notices w
      \/ notices (snd out) = (notices w ++ [ WarnOcrFailed ])%list
         /\ wd_handwritten_work_ocr (fst out) = ""
         /\ wd_combined_work (fst out) = typed)
  /\ (uploaded_files !! question_id q = None \/ api_key_configured rt = None ->
      snd out = w).
Proof.
  simpl. split; [apply process_student_work_dirs|].
  split; [intros path Hp; by apply process_student_work_files|].
  unfold process_student_work.
  destruct (uploaded_files !! question_id q) as [up|]; simpl;
    [|repeat split; try lia; by left].
  destruct (api_key_configured rt); simpl; [|repeat split; try lia; by left].
  destruct (b64decode rt _); simpl.
  - destruct (files_upload _ _ _ _); simpl.
    + destruct (generate_content _ _ _ _) as [|[text|]]; simpl;
        repeat split; try lia; try (by left); try (by right);
        by intros [?|?].
    + repeat split; try lia; try (by right). by intros [?|?].
  - repeat split; try lia; try (by right). by intros [?|?].
Qed.

(** ** The counters of the quiz page *)

Lemma record_answer_counters (inp : quiz_input) (q_id : string) (st : session) :
  Py.truthy (qi_numerical_answer inp) = true ->
  counters_core st -> counters_core (record_answer inp q_id st).
Proof.
  intros Ht [H1 H2]. unfold record_answer.
  set (st1 := match first_attempt_times st !! q_id with
              | Some _ => st | None => _ end).
  assert (Ho : option_changes st1 = option_changes st)
    by (subst st1; by destruct (first_attempt_times st !! q_id)).
  assert (Hr : responses st1 = responses st)
    by (subst st1; by destruct (first_attempt_times st !! q_id)).
  split.
  - intros k n. simpl. rewrite Hr.
    destruct (decide (q_id = k)) as [->|Hne].
    + rewrite !lookup_insert_eq. intros [= <-]. by eexists _, _.
    + rewrite !lookup_insert_ne by done. rewrite Ho. apply H1.
  - intros k r. simpl. rewrite Hr.
    destruct (decide (q_id = k)) as [->|Hne].
    + rewrite !lookup_insert_eq. intros [= <-]. simpl. split; [done|].
      by eexists.
    + rewrite !lookup_insert_ne by done. rewrite Ho. apply H2.
Qed.

Lemma record_typed_work_counters (typed q_id : string) (st : session) :
  counters_core st -> counters_core (record_typed_work typed q_id st).
Proof.
  intros [H1 H2]. unfold record_typed_work.
  destruct (responses st !! q_id) as [r0|] eqn:Hr0; simpl; split; simpl.
  - intros k n Hk. destruct (H1 _ _ Hk) as (r & a & Hr & Hfa & Hta & Hch).
    destruct (decide (q_id = k)) as [->|Hne].
    + rewrite lookup_insert_eq. rewrite Hr0 in Hr. injection Hr as ->.
      by eexists _, _.
    + rewrite lookup_insert_ne by done. by eexists _, _.
  - intros k r. destruct (decide (q_id = k)) as [->|Hne].
    + rewrite lookup_insert_eq. intros [= <-]. simpl. by apply (H2 _ _ Hr0).
    + rewrite lookup_insert_ne by done. apply H2.
  - intros k n Hk. destruct (H1 _ _ Hk) as (r & a & Hr & Hfa & Hta & Hch).
    destruct (decide (q_id = k)) as [->|Hne]; [congruence|].
    rewrite lookup_insert_ne by done. by eexists _, _.
  - intros k r. destruct (decide (q_id = k)) as [->|Hne].
    + rewrite lookup_insert_eq. intros [= <-]. simpl. split; [|done].
      destruct (option_changes st !! k) as [n|] eqn:Hk; [|done].
      destruct (H1 _ _ Hk) as (r & a & Hr & _). congruence.
    + rewrite lookup_insert_ne by done. apply H2.
Qed.

Lemma same_tables_counters (st st' : session) :
  same_tables st st' -> counters_core st -> counters_core st'.
Proof.
  intros (Hr & _ & Ho & _) [H1 H2]. split.
  - intros k n. rewrite Ho, Hr. apply H1.
  - intros k r. rewrite Ho, Hr. apply H2.
Qed.

Lemma render_quiz_page_counters (rt : runtime) (inp : quiz_input) (st : session) :
  counters_core st -> counters_core (render_quiz_page rt inp st).
Proof.
  intros Hc. unfold render_quiz_page.
  destruct (questions st) as [|q0 qs0] eqn:Hqs.
  { by destruct (qi_back_home inp). }
  match goal with |- context [match ?n with Some i => set_current_question_idx _ _ | None => _ end] =>
    destruct n as [i|] end; [done|].
  destruct (py_index _ _) as [cur|]; [|done].
  set (q_id := question_id cur).
  set (st1 := match question_start_times st !! q_id with
              | Some _ => st | None => _ end).
  assert (H1 : counters_core st1).
  { subst st1. by destruct (question_start_times st !! q_id). }
  set (st2 := if _ && _ then record_answer inp q_id st1 else st1).
  assert (H2 : counters_core st2).
  { subst st2. destruct (Py.truthy (qi_numerical_answer inp)) eqn:Hty; simpl; [|done].
    destruct (negb _); [|done]. by apply record_answer_counters. }
  set (st3 := match qi_uploaded_file inp with Some f => _ | None => st2 end).
  assert (H3 : counters_core st3).
  { subst st3. by destruct (qi_uploaded_file inp). }
  destruct (negb (default true _)); [done|].
  set (st4 := if Py.truthy (qi_typed_work inp) then _ else st3).
  assert (H4 : counters_core st4).
  { subst st4. destruct (Py.truthy (qi_typed_work inp)); [|done].
    by apply record_typed_work_counters. }
  eapply same_tables_counters; [apply quiz_buttons_tables|done].
Qed.

Lemma counters_core_empty (st : session) :
  responses st = ∅ -> option_changes st = ∅ -> counters_core st.
Proof.
  intros Hr Ho. split.
  - intros k n. rewrite Ho, lookup_empty. discriminate.
  - intros k r. rewrite Hr, lookup_empty. discriminate.
Qed.

(** In every session the application can be in, away from the home
    page, counters and flags agree with the stored answers. *)
Lemma reachable_counters (st : session) : reachable st -> counters_agree st.
Proof.
  induction 1 as [|rt inp st w Hr IH]; [by intros ?|].
  unfold main. destruct (page st) eqn:Hp; simpl.
  - unfold render_home_page.
    destruct (hi_pressed (in_home inp)) as [[name|]|].
    + destruct (existsb _ _); intros Hne; simpl in Hne; congruence.
    + destruct (Py.truthy _); [|intros Hne; congruence].
      destruct (hi_fetched (in_home inp)); intros Hne; simpl in Hne; [congruence|].
      by apply counters_core_empty.
    + intros Hne. congruence.
  - intros _. apply render_quiz_page_counters. apply IH. congruence.
  - intros _. assert (Hc : counters_core st) by (apply IH; congruence).
    unfold render_submit_page. destruct (si_pressed (in_submit inp)) as [[|]|]; simpl.
    + done.
    + destruct (submit_quiz_session rt (in_submit inp) st w) as [->|[f ->]]; done.
    + done.
  - unfold render_results_page. destruct (in_results inp); intros Hne.
    + simpl in Hne. congruence.
    + apply IH. congruence.
Qed.

(** ** Stage 1 as a whole *)

(** One iteration of the Stage-1 loop, field by field. *)
Lemma stage1_question_record (rt : runtime) (st : session) (q : question)
    (clock : Q) (t : tally) (w : world) :
  let qd := fst (fst (stage1_question rt st q clock t w)) in
  let resp := default no_response (responses st !! question_id q) in
  qd_question_id qd = question_id q
  /\ qd_question_type qd = question_type q
  /\ qd_difficulty qd = difficulty q
  /\ qd_concept_tags qd = concept_tags q
  /\ sub_correct_answer (qd_submission qd) = correct_answer q
  /\ sub_final_answer (qd_submission qd) = default "" (final_answer resp)
  /\ sub_changed_answer (qd_submission qd) = default false (changed_answer resp)
  /\ num_option_changes (qd_kpis qd)
     = default 0 (option_changes st !! question_id q)
  /\ first_attempt_latency_sec (qd_kpis qd)
     = Py.int_of_Q (default 0%Q (first_attempt_times st !! question_id q))
  /\ (is_attempted qd = false -> sub_is_correct (qd_submission qd) = false).
Proof.
  simpl. unfold stage1_question.
  destruct (process_student_work _ _ _ _ _) as [work w1].
  destruct (Py.truthy _) eqn:Hty.
  - destruct (check_answer_with_llm _ _ _ _ _ _) as [verdict w2]. simpl.
    repeat split. unfold is_attempted. simpl. congruence.
  - simpl. by repeat split.
Qed.

Lemma stage1_question_unattempted (rt : runtime) (st : session) (q : question)
    (clock : Q) (t : tally) (w : world) :
  is_attempted (fst (fst (stage1_question rt st q clock t w))) = false ->
  sub_is_correct (qd_submission (fst (fst (stage1_question rt st q clock t w))))
  = false.
Proof. apply (stage1_question_record rt st q clock t w). Qed.

Lemma stage1_loop_Forall2 (P : question -> question_data -> Prop)
    (rt : runtime) (st : session) (clocks : nat -> Q) :
  (forall q clock t w, P q (fst (fst (stage1_question rt st q clock t w)))) ->
  forall qs idx t w,
    Forall2 P qs (fst (fst (stage1_loop rt st clocks idx qs t w))).
Proof.
  intros HP qs. induction qs as [|q rest IH]; intros idx t w; simpl.
  - constructor.
  - specialize (HP q (clocks idx) t w).
    destruct (stage1_question _ _ _ _ _ _) as [[qd t1] w1].
    specialize (IH (S idx) t1 w1).
    destruct (stage1_loop _ _ _ _ _ _ _) as [[qds t2] w2].
    simpl in *. by constructor.
Qed.

(** X12. The Stage-1 report has one record per question of the quiz,
    in the order of the quiz, and each record carries the identifier,
    type, difficulty, concept tags and correct answer of its question;
    a record without a final answer is never marked correct. *)
Theorem stage1_records_follow_questions
    (rt : runtime) (st : session) (now : moment) (clocks : nat -> Q)
    (w : world) (r : stage1_report) :
  fst (generate_performance_report rt st now clocks w) = Some r ->
  s1_num_questions r = len (questions st)
  /\ Forall2
       (fun q qd =>
          qd_question_id qd = question_id q
          /\ qd_question_type qd = question_type q
          /\ qd_difficulty qd = difficulty q
          /\ qd_concept_tags qd = concept_tags q
          /\ sub_correct_answer (qd_submission qd) = correct_answer q
          /\ (is_attempted qd = false -> sub_is_correct (qd_submission qd) = false))
       (questions st) (s1_questions r).
Proof.
  intros Hr. split.
  - revert Hr. unfold generate_performance_report.
    destruct (stage1_loop _ _ _ _ _ _ _) as [[qds t] w1].
    destruct (selected_topic st); simpl; [|discriminate]. by intros [= <-].
  - rewrite (report_questions _ _ _ _ _ _ Hr).
    apply stage1_loop_Forall2. intros q clock t w0.
    pose proof (stage1_question_record rt st q clock t w0) as H. simpl in H.
    tauto.
Qed.

Lemma stage1_records_follow_questions_witness :
  s1_num_questions (Demo.report_of Demo.online)
  = len (questions Demo.session_at_submit)
  /\ Forall2
       (fun q qd =>
          qd_question_id qd = question_id q
          /\ qd_question_type qd = question_type q
          /\ qd_difficulty qd = difficulty q
          /\ qd_concept_tags qd = concept_tags q
          /\ sub_correct_answer (qd_submission qd) = correct_answer q
          /\ (is_attempted qd = false -> sub_is_correct (qd_submission qd) = false))
       (questions Demo.session_at_submit)
       (s1_questions (Demo.report_of Demo.online)).
Proof.
  apply (stage1_records_follow_questions Demo.online Demo.session_at_submit
           Demo.a_moment (fun _ => 200%Q) Demo.empty_world).
  by vm_compute.
Defined.

(** The running counters after the loop. *)
Lemma stage1_loop_tally (rt : runtime) (st : session) (clocks : nat -> Q)
    (qs : list question) :
  forall idx t w,
    let out := stage1_loop rt st clocks idx qs t w in
    let qds := fst (fst out) in
    let t' := snd (fst out) in
    t_correct t'
    = t_correct t + count_if (fun qd => sub_is_correct (qd_submission qd)) qds
    /\ t_incorrect t'
       = t_incorrect t
         + count_if
             (fun qd => is_attempted qd && negb (sub_is_correct (qd_submission qd)))
             qds
    /\ t_unattempted t'
       = t_unattempted t + count_if (fun qd => negb (is_attempted qd)) qds
    /\ len qds = len qs.
Proof.
  induction qs as [|q rest IH]; intros idx t w; simpl.
  - unfold count_if, len. simpl. lia.
  - assert (Hone :
      let o := stage1_question rt st q (clocks idx) t w in
      let qd := fst (fst o) in
      let t1 := snd (fst o) in
      t_correct t1 = t_correct t + (if sub_is_correct (qd_submission qd) then 1 else 0)
      /\ t_incorrect t1
         = t_incorrect t
           + (if is_attempted qd && negb (sub_is_correct (qd_submission qd))
              then 1 else 0)
      /\ t_unattempted t1
         = t_unattempted t + (if negb (is_attempted qd) then 1 else 0)).
    { simpl. unfold stage1_question.
      destruct (process_student_work _ _ _ _ _) as [work w1].
      destruct (Py.truthy _) eqn:Hty.
      - destruct (check_answer_with_llm _ _ _ _ _ _) as [verdict w2].
        unfold is_attempted. simpl. rewrite Hty. destruct verdict; simpl; lia.
      - unfold is_attempted. simpl. rewrite Hty. simpl. lia. }
    simpl in Hone.
    destruct (stage1_question _ _ _ _ _ _) as [[qd t1] w1]. simpl in Hone.
    specialize (IH (S idx) t1 w1). simpl in IH.
    destruct (stage1_loop _ _ _ _ _ _ _) as [[qds t2] w2]. simpl in *.
    destruct Hone as (Hc & Hi & Hu). destruct IH as (IHc & IHi & IHu & IHl).
    unfold count_if, len in *. simpl.
    destruct (sub_is_correct (qd_submission qd)), (is_attempted qd); simpl in *; lia.
Qed.

(** X13. In a Stage-1 report the three counts of the score summary are
    the numbers of records judged correct, of attempted records judged
    incorrect and of records without a final answer; they add up to the
    maximum score, which is the number of questions, and the raw score
    is the number of correct answers. *)
Theorem stage1_score_summary
    (rt : runtime) (st : session) (now : moment) (clocks : nat -> Q)
    (w : world) (r : stage1_report) :
  fst (generate_performance_report rt st now clocks w) = Some r ->
  let s := s1_score_summary r in
  correct_count s
  = count_if (fun qd => sub_is_correct (qd_submission qd)) (s1_questions r)
  /\ incorrect_count s
     = count_if
         (fun qd => is_attempted qd && negb (sub_is_correct (qd_submission qd)))
         (s1_questions r)
  /\ unattempted_count s
     = count_if (fun qd => negb (is_attempted qd)) (s1_questions r)
  /\ correct_count s + incorrect_count s + unattempted_count s = max_score s
  /\ max_score s = len (questions st)
  /\ raw_score s = correct_count s.
Proof.
  unfold generate_performance_report.
  pose proof (stage1_loop_tally rt st clocks (questions st) 0%nat
                {| t_correct := 0; t_incorrect := 0; t_unattempted := 0 |} w) as H.
  pose proof (stage1_loop_Forall
                (fun qd => is_attempted qd = false
                           -> sub_is_correct (qd_submission qd) = false)
                rt st clocks (stage1_question_unattempted rt st)
                (questions st) 0%nat
                {| t_correct := 0; t_incorrect := 0; t_unattempted := 0 |} w) as Hf.
  simpl in H.
  destruct (stage1_loop _ _ _ _ _ _ _) as [[qds t] w1]. simpl in *.
  destruct (selected_topic st); simpl; [|discriminate].
  intros [= <-]. simpl. destruct H as (Hc & Hi & Hu & Hl).
  repeat split; try done.
  rewrite Hc, Hi, Hu. fold (len (questions st)). rewrite <- Hl.
  clear -Hf. unfold count_if, len.
  induction Hf as [|qd qds Hqd _ IH]; simpl; [done|].
  destruct (is_attempted qd) eqn:Ha; simpl.
  - destruct (sub_is_correct (qd_submission qd)); simpl; lia.
  - rewrite Hqd by done. simpl. lia.
Qed.

Lemma stage1_score_summary_witness :
  let s := s1_score_summary (Demo.report_of Demo.online) in
  correct_count s
  = count_if (fun qd => sub_is_correct (qd_submission qd))
      (s1_questions (Demo.report_of Demo.online))
  /\ incorrect_count s
     = count_if
         (fun qd => is_attempted qd && negb (sub_is_correct (qd_submission qd)))
         (s1_questions (Demo.report_of Demo.online))
  /\ unattempted_count s
     = count_if (fun qd => negb (is_attempted qd))
         (s1_questions (Demo.report_of Demo.online))
  /\ correct_count s + incorrect_count s + unattempted_count s = max_score s
  /\ max_score s = len (questions Demo.session_at_submit)
  /\ raw_score s = correct_count s.
Proof.
  apply (stage1_score_summary Demo.online Demo.session_at_submit
           Demo.a_moment (fun _ => 200%Q) Demo.empty_world).
  by vm_compute.
Defined.

Lemma stage1_question_offline (rt : runtime) (st : session) (q : question)
    (clock : Q) (t : tally) (w : world) :
  api_key_configured rt = None ->
  let qd := fst (fst (stage1_question rt st q clock t w)) in
  snd (stage1_question rt st q clock t w) = w
  /\ sub_is_correct (qd_submission qd)
     = is_attempted qd
       && string_comparison (sub_final_answer (qd_submission qd)) (correct_answer q)
  /\ handwritten_work_ocr (qd_optional_work qd) = ""
  /\ combined_work_text (qd_optional_work qd) = typed_work_text (qd_optional_work qd).
Proof.
  intros Hkey. simpl. unfold stage1_question, process_student_work,
    check_answer_with_llm. rewrite Hkey.
  destruct (uploaded_files st !! question_id q); simpl;
    unfold is_attempted; destruct (Py.truthy _) eqn:Hty; simpl; by rewrite ?Hty.
Qed.

(** X14. Without a credential Stage 1 is silent: it makes no request,
    writes no file and shows no warning, so the world is as before;
    every verdict is the string comparison of the final answer with the
    correct answer, and no record carries a transcription. *)
Theorem stage1_without_credential
    (rt : runtime) (st : session) (now : moment) (clocks : nat -> Q)
    (w : world) :
  api_key_configured rt = None ->
  snd (generate_performance_report rt st now clocks w) = w
  /\ forall r, fst (generate_performance_report rt st now clocks w) = Some r ->
       Forall
         (fun qd =>
            sub_is_correct (qd_submission qd)
            = is_attempted qd
              && string_comparison (sub_final_answer (qd_submission qd))
                   (sub_correct_answer (qd_submission qd))
            /\ handwritten_work_ocr (qd_optional_work qd) = ""
            /\ combined_work_text (qd_optional_work qd)
               = typed_work_text (qd_optional_work qd))
         (s1_questions r).
Proof.
  intros Hkey.
  assert (Hloop : forall qs idx t w0,
            snd (stage1_loop rt st clocks idx qs t w0) = w0).
  { induction qs as [|q rest IH]; intros idx t w0; simpl; [done|].
    pose proof (stage1_question_offline rt st q (clocks idx) t w0 Hkey) as [Hw _].
    destruct (stage1_question _ _ _ _ _ _) as [[qd t1] w1]. simpl in Hw. subst w1.
    specialize (IH (S idx) t1 w0).
    by destruct (stage1_loop _ _ _ _ _ _ _) as [[qds t2] w2]. }
  split.
  - unfold generate_performance_report.
    specialize (Hloop (questions st) 0%nat
                  {| t_correct := 0; t_incorrect := 0; t_unattempted := 0 |} w).
    destruct (stage1_loop _ _ _ _ _ _ _) as [[qds t] w1].
    by destruct (selected_topic st).
  - intros r Hr. rewrite (report_questions _ _ _ _ _ _ Hr).
    apply stage1_loop_Forall. intros q clock t w0.
    pose proof (stage1_question_offline rt st q clock t w0 Hkey) as (_ & H1 & H2 & H3).
    pose proof (stage1_question_record rt st q clock t w0) as (_ & _ & _ & _ & Hc & _).
    simpl in *. by rewrite Hc.
Qed.

Lemma stage1_without_credential_witness :
  snd (generate_performance_report Demo.offline Demo.session_at_submit
         Demo.a_moment (fun _ => 200%Q) Demo.empty_world) = Demo.empty_world
  /\ forall r,
       fst (generate_performance_report Demo.offline Demo.session_at_submit
              Demo.a_moment (fun _ => 200%Q) Demo.empty_world) = Some r ->
       Forall
         (fun qd =>
            sub_is_correct (qd_submission qd)
            = is_attempted qd
              && string_comparison (sub_final_answer (qd_submission qd))
                   (sub_correct_answer (qd_submission qd))
            /\ handwritten_work_ocr (qd_optional_work qd) = ""
            /\ combined_work_text (qd_optional_work qd)
               = typed_work_text (qd_optional_work qd))
         (s1_questions r).
Proof.
  apply (stage1_without_credential Demo.offline Demo.session_at_submit
           Demo.a_moment (fun _ => 200%Q) Demo.empty_world).
  reflexivity.
Defined.

Lemma check_answer_with_llm_requests (rt : runtime) (a c q t : string)
    (w : world) :
  (requests w <= requests (snd (check_answer_with_llm rt a c q t w))
   <= requests w + 1)%nat.
Proof.
  unfold check_answer_with_llm. destruct (api_key_configured rt); simpl; [|lia].
  destruct (generate_content _ _ _ _) as [|[text|]]; simpl; lia.
Qed.

Lemma process_student_work_requests (rt : runtime) (q : question)
    (responses : gmap string response) (uploaded_files : gmap string upload)
    (w : world) :
  (requests w
   <= requests (snd (process_student_work rt q responses uploaded_files w))
   <= requests w + 2)%nat.
Proof.
  unfold process_student_work.
  destruct (uploaded_files !! question_id q); simpl; [|lia].
  destruct (api_key_configured rt); simpl; [|lia].
  destruct (b64decode rt _); simpl; [|lia].
  destruct (files_upload _ _ _ _); simpl; [|lia].
  destruct (generate_content _ _ _ _) as [|[text|]]; simpl; lia.
Qed.

Lemma stage1_question_requests (rt : runtime) (st : session) (q : question)
    (clock : Q) (t : tally) (w : world) :
  (requests w <= requests (snd (stage1_question rt st q clock t w))
   <= requests w + requests_per_question)%nat.
Proof.
  unfold stage1_question, requests_per_question.
  pose proof (process_student_work_requests rt q (responses st)
                (uploaded_files st) w) as Hreq.
  destruct (process_student_work _ _ _ _ _) as [work w1]. simpl in Hreq.
  destruct (Py.truthy _); simpl; [|lia].
  match goal with |- context [check_answer_with_llm ?r ?a ?c ?qt ?ty ?x] =>
    pose proof (check_answer_with_llm_requests r a c qt ty x) as Hj;
    destruct (check_answer_with_llm r a c qt ty x) as [verdict w2] end.
  simpl in *. lia.
Qed.

(** X15. Stage 1 makes at most three requests per question of the quiz
    (upload, transcription, judgement), and none for a quiz without
    questions. *)
Theorem stage1_request_budget
    (rt : runtime) (st : session) (now : moment) (clocks : nat -> Q)
    (w : world) :
  (requests w
   <= requests (snd (generate_performance_report rt st now clocks w))
   <= requests w + requests_per_question * length (questions st))%nat.
Proof.
  assert (Hloop : forall qs idx t w0,
    (requests w0 <= requests (snd (stage1_loop rt st clocks idx qs t w0))
     <= requests w0 + requests_per_question * length qs)%nat).
  { induction qs as [|q rest IH]; intros idx t w0; simpl; [lia|].
    pose proof (stage1_question_requests rt st q (clocks idx) t w0) as Hq.
    destruct (stage1_question _ _ _ _ _ _) as [[qd t1] w1]. simpl in Hq.
    specialize (IH (S idx) t1 w1).
    destruct (stage1_loop _ _ _ _ _ _ _) as [[qds t2] w2]. simpl in *.
    unfold requests_per_question in *. lia. }
  unfold generate_performance_report.
  specialize (Hloop (questions st) 0%nat
                {| t_correct := 0; t_incorrect := 0; t_unattempted := 0 |} w).
  destruct (stage1_loop _ _ _ _ _ _ _) as [[qds t] w1].
  by destruct (selected_topic st).
Qed.

(** The flags and counters of the records of a session under way. *)
Lemma report_flags
    (rt : runtime) (st : session) (now : moment) (clocks : nat -> Q)
    (w : world) (r : stage1_report) :
  reachable st -> page st = PageSubmit ->
  fst (generate_performance_report rt st now clocks w) = Some r ->
  Forall
    (fun qd =>
       sub_changed_answer (qd_submission qd) = (num_option_changes (qd_kpis qd) >? 0)
       /\ (is_attempted qd = false ->
           num_option_changes (qd_kpis qd) = 0
           /\ first_attempt_latency_sec (qd_kpis qd) = 0
           /\ revision_outcome (qd_kpis qd) = "none"
           /\ sub_is_correct (qd_submission qd) = false
           /\ sub_changed_answer (qd_submission qd) = false))
    (s1_questions r).
Proof.
  intros Hreach Hpage Hr.
  destruct (reachable_inv st Hreach) as [Hnn Hq].
  destruct Hq as [Ha _]; [congruence|].
  destruct (reachable_counters st Hreach) as [H1 H2]; [congruence|].
  pose proof (report_records_ok rt st now clocks w r Hnn Ha Hr) as Hok.
  rewrite (report_questions _ _ _ _ _ _ Hr) in *.
  assert (Hall : Forall
    (fun qd =>
       sub_changed_answer (qd_submission qd) = (num_option_changes (qd_kpis qd) >? 0)
       /\ (is_attempted qd = false ->
           num_option_changes (qd_kpis qd) = 0
           /\ first_attempt_latency_sec (qd_kpis qd) = 0
           /\ sub_is_correct (qd_submission qd) = false))
    (fst (fst (stage1_loop rt st clocks 0 (questions st)
                 {| t_correct := 0; t_incorrect := 0; t_unattempted := 0 |} w)))).
  { apply stage1_loop_Forall. intros q clock t w0.
    pose proof (stage1_question_record rt st q clock t w0)
      as (_ & _ & _ & _ & _ & Hfa & Hch & Hn & Hl & Hu).
    simpl in *. unfold is_attempted. rewrite Hfa, Hch, Hn, Hl.
    destruct (responses st !! question_id q) as [resp|] eqn:Hresp; simpl.
    - specialize (H2 _ _ Hresp).
      destruct (final_answer resp) as [a|] eqn:Hfin; simpl.
      + destruct H2 as (Hta & n & Hoc & Hflag). rewrite Hoc, Hflag, Hta. simpl.
        split; [done|]. intros Habs. discriminate Habs.
      + destruct H2 as (Hoc & Hflag). rewrite Hoc, Hflag. simpl.
        split; [done|]. intros _. split; [done|].
        split; [|apply Hu; unfold is_attempted; rewrite Hfa; simpl; by rewrite Hfin].
        destruct (first_attempt_times st !! question_id q) as [x|] eqn:Hf; [|done].
        destruct (Ha _ _ Hf) as (r' & a' & Hr' & Hfa' & _). congruence.
    - assert (Hoc : option_changes st !! question_id q = None).
      { destruct (option_changes st !! question_id q) as [n|] eqn:Hoc; [|done].
        destruct (H1 _ _ Hoc) as (r' & a' & Hr' & _). congruence. }
      rewrite Hoc. simpl. split; [done|]. intros _. split; [done|].
      split; [|apply Hu; unfold is_attempted; by rewrite Hfa].
      destruct (first_attempt_times st !! question_id q) as [x|] eqn:Hf; [|done].
      destruct (Ha _ _ Hf) as (r' & a' & Hr' & _). congruence. }
  apply Forall_forall. intros qd Hin.
  rewrite Forall_forall in Hall, Hok.
  destruct (Hall _ Hin) as [Hflag Hun]. destruct (Hok _ Hin) as (_ & _ & Hrev).
  split; [done|]. intros Hna. destruct (Hun Hna) as (Hz & Hlz & Hic).
  repeat split; try done.
  - by rewrite Hrev, Hz.
  - by rewrite Hflag, Hz.
Qed.

(** X16. In a report built on the submit page of a reachable session,
    the [changed_answer] flag of every record says whether its number
    of option changes is positive, and a record without a final answer
    has no option change, no first-attempt latency, the revision
    outcome none, and is neither correct nor changed. *)
Theorem stage1_flags_agree
    (rt : runtime) (st : session) (now : moment) (clocks : nat -> Q)
    (w : world) (r : stage1_report) (qd : question_data) :
  reachable st -> page st = PageSubmit ->
  fst (generate_performance_report rt st now clocks w) = Some r ->
  In qd (s1_questions r) ->
  sub_changed_answer (qd_submission qd) = (num_option_changes (qd_kpis qd) >? 0)
  /\ (is_attempted qd = false ->
      num_option_changes (qd_kpis qd) = 0
      /\ first_attempt_latency_sec (qd_kpis qd) = 0
      /\ revision_outcome (qd_kpis qd) = "none"
      /\ sub_is_correct (qd_submission qd) = false
      /\ sub_changed_answer (qd_submission qd) = false).
Proof.
  intros Hreach Hpage Hr Hin.
  pose proof (report_flags rt st now clocks w r Hreach Hpage Hr) as H.
  rewrite Forall_forall in H. apply H. by apply list_elem_of_In.
Qed.

Lemma stage1_flags_agree_witness :
  sub_changed_answer (qd_submission (Demo.record_of Demo.online))
  = (num_option_changes (qd_kpis (Demo.record_of Demo.online)) >? 0)
  /\ (is_attempted (Demo.record_of Demo.online) = false ->
      num_option_changes (qd_kpis (Demo.record_of Demo.online)) = 0
      /\ first_attempt_latency_sec (qd_kpis (Demo.record_of Demo.online)) = 0
      /\ revision_outcome (qd_kpis (Demo.record_of Demo.online)) = "none"
      /\ sub_is_correct (qd_submission (Demo.record_of Demo.online)) = false
      /\ sub_changed_answer (qd_submission (Demo.record_of Demo.online)) = false).
Proof.
  apply (stage1_flags_agree Demo.online Demo.session_at_submit Demo.a_moment
           (fun _ => 200%Q) Demo.empty_world (Demo.report_of Demo.online)).
  - exact session_at_submit_reachable.
  - by vm_compute.
  - by vm_compute.
  - vm_compute. by left.
Defined.

(** ** Stage 2: the revision rates *)

Lemma stage1_question_outcome (rt : runtime) (st : session) (q : question)
    (clock : Q) (t : tally) (w : world) :
  In (revision_outcome (qd_kpis (fst (fst (stage1_question rt st q clock t w)))))
     [ "improved"; "worsened"; "none" ].
Proof.
  unfold stage1_question.
  destruct (process_student_work _ _ _ _ _) as [work w1].
  destruct (Py.truthy _).
  - destruct (check_answer_with_llm _ _ _ _ _ _) as [verdict w2]. simpl.
    destruct (_ >? 0); [destruct verdict|]; tauto.
  - simpl. destruct (_ >? 0); tauto.
Qed.

Lemma outcome_counts (outcomes : list string) :
  Forall (fun o => In o [ "improved"; "worsened"; "none" ]) outcomes ->
  count_if (String.eqb "improved") outcomes
  + count_if (String.eqb "worsened") outcomes
  + count_if (String.eqb "none") outcomes
  = len outcomes.
Proof.
  unfold count_if, len. induction 1 as [|o l Ho _ IH]; [done|].
  destruct Ho as [<-|[<-|[<-|[]]]]; cbn -[Z.of_nat]; cbn -[Z.of_nat] in IH; lia.
Qed.

Lemma true_div_sum (a b c t : Z) :
  0 < t -> a + b + c = t ->
  (true_div a t + true_div b t + true_div c t == 1)%Q.
Proof.
  intros Ht Hs. unfold true_div, Qdiv.
  rewrite <- !Qmult_plus_distr_l, <- !inject_Z_plus, Hs.
  apply Qmult_inv_r. unfold Qeq. simpl. lia.
Qed.

(** X17. In the Stage-2 report of a Stage-1 report of a quiz with at
    least one question, the improved, worsened and unchanged rates of
    the revision effect add up to 1; each of them lies between 0 and
    1. *)
Theorem revision_rates_add_up
    (rt : runtime) (st : session) (now : moment) (clocks : nat -> Q)
    (w : world) (r : stage1_report) (now_iso : string) :
  fst (generate_performance_report rt st now clocks w) = Some r ->
  questions st <> [] ->
  let e := ks_revision_effect (s2_kpis_summary (generate_stage2_report r now_iso)) in
  (improved_rate e + worsened_rate e + no_change_rate e == 1)%Q
  /\ (0 <= improved_rate e <= 1)%Q
  /\ (0 <= worsened_rate e <= 1)%Q
  /\ (0 <= no_change_rate e <= 1)%Q.
Proof.
  intros Hr Hne.
  unfold generate_stage2_report.
  cbn [s2_kpis_summary ks_revision_effect improved_rate worsened_rate no_change_rate].
  set (outcomes := map (fun q => revision_outcome (qd_kpis q)) (s1_questions r)).
  assert (Hall : Forall (fun o => In o [ "improved"; "worsened"; "none" ]) outcomes).
  { subst outcomes. apply Forall_fmap.
    rewrite (report_questions _ _ _ _ _ _ Hr).
    apply stage1_loop_Forall. intros. apply stage1_question_outcome. }
  pose proof (outcome_counts outcomes Hall) as Hsum.
  assert (Hlen : 0 < len outcomes).
  { subst outcomes. unfold len. rewrite length_map.
    rewrite (report_questions _ _ _ _ _ _ Hr).
    pose proof (stage1_loop_tally rt st clocks (questions st) 0%nat
                  {| t_correct := 0; t_incorrect := 0; t_unattempted := 0 |} w)
      as (_ & _ & _ & Hl).
    assert (Hq : 0 < len (questions st)).
    { unfold len. destruct (questions st); [done|]. simpl. lia. }
    unfold len in *. lia. }
  pose proof (count_if_nonneg (String.eqb "improved") outcomes).
  pose proof (count_if_nonneg (String.eqb "worsened") outcomes).
  pose proof (count_if_nonneg (String.eqb "none") outcomes).
  rewrite (proj2 (Z.gtb_lt _ _)) by lia.
  split; [apply true_div_sum; lia|].
  repeat split; apply true_div_unit_interval; lia.
Qed.

Lemma revision_rates_add_up_witness :
  let e :=
    ks_revision_effect
      (s2_kpis_summary (generate_stage2_report (Demo.report_of Demo.online) "now")) in
  (improved_rate e + worsened_rate e + no_change_rate e == 1)%Q
  /\ (0 <= improved_rate e <= 1)%Q
  /\ (0 <= worsened_rate e <= 1)%Q
  /\ (0 <= no_change_rate e <= 1)%Q.
Proof.
  apply (revision_rates_add_up Demo.online Demo.session_at_submit Demo.a_moment
           (fun _ => 200%Q) Demo.empty_world (Demo.report_of Demo.online) "now").
  - by vm_compute.
  - vm_compute. discriminate.
Defined.

(** X18. For a report built on the submit page of a reachable session,
    the changed-answer rate of the Stage-2 summary is the fraction of
    attempted questions whose answer was edited after the first
    attempt; it lies between 0 and 1 and is 0 when nothing is
    attempted. *)
Theorem changed_answer_rate_of_attempted
    (rt : runtime) (st : session) (now : moment) (clocks : nat -> Q)
    (w : world) (r : stage1_report) (now_iso : string) :
  reachable st -> page st = PageSubmit ->
  fst (generate_performance_report rt st now clocks w) = Some r ->
  let k := s2_kpis_summary (generate_stage2_report r now_iso) in
  let n_attempted := count_if is_attempted (s1_questions r) in
  changed_answer_rate k
  = (if n_attempted =? 0 then 0%Q
     else true_div
            (count_if
               (fun q => is_attempted q && (num_option_changes (qd_kpis q) >? 0))
               (s1_questions r))
            n_attempted)
  /\ (0 <= changed_answer_rate k <= 1)%Q.
Proof.
  intros Hreach Hpage Hr k n_attempted.
  pose proof (report_flags rt st now clocks w r Hreach Hpage Hr) as Hflags.
  assert (Hnum : count_if (fun q => sub_changed_answer (qd_submission q)) (s1_questions r)
                 = count_if
                     (fun q => is_attempted q && (num_option_changes (qd_kpis q) >? 0))
                     (s1_questions r)).
  { apply count_if_ext_Forall. eapply Forall_impl; [exact Hflags|].
    intros q [Hf Hu]. simpl in *. destruct (is_attempted q) eqn:Ha; simpl; [done|].
    by destruct (Hu eq_refl) as (_ & _ & _ & _ & ->). }
  assert (Hle : count_if
                  (fun q => is_attempted q && (num_option_changes (qd_kpis q) >? 0))
                  (s1_questions r) <= n_attempted).
  { subst n_attempted. rewrite <- count_if_filter. apply count_if_le_len. }
  pose proof (count_if_nonneg is_attempted (s1_questions r)) as Hn.
  pose proof (count_if_nonneg
                (fun q => is_attempted q && (num_option_changes (qd_kpis q) >? 0))
                (s1_questions r)) as Hc.
  assert (Heq : changed_answer_rate k
    = (if n_attempted =? 0 then 0%Q
       else true_div
              (count_if
                 (fun q => is_attempted q && (num_option_changes (qd_kpis q) >? 0))
                 (s1_questions r))
              n_attempted)).
  { subst k. unfold generate_stage2_report. cbn [s2_kpis_summary changed_answer_rate].
    fold n_attempted. rewrite Hnum.
    destruct (Z.eqb_spec n_attempted 0) as [->|Hnz]; [done|].
    by rewrite (proj2 (Z.gtb_lt _ _)) by lia. }
  split; [exact Heq|]. rewrite Heq.
  destruct (Z.eqb_spec n_attempted 0); [apply Qzero_unit_interval|].
  apply true_div_unit_interval; lia.
Qed.

Lemma changed_answer_rate_of_attempted_witness :
  let k :=
    s2_kpis_summary (generate_stage2_report (Demo.report_of Demo.online) "now") in
  let n_attempted := count_if is_attempted (s1_questions (Demo.report_of Demo.online)) in
  changed_answer_rate k
  = (if n_attempted =? 0 then 0%Q
     else true_div
            (count_if
               (fun q => is_attempted q && (num_option_changes (qd_kpis q) >? 0))
               (s1_questions (Demo.report_of Demo.online)))
            n_attempted)
  /\ (0 <= changed_answer_rate k <= 1)%Q.
Proof.
  apply (changed_answer_rate_of_attempted Demo.online Demo.session_at_submit
           Demo.a_moment (fun _ => 200%Q) Demo.empty_world).
  - exact session_at_submit_reachable.
  - by vm_compute.
  - by vm_compute.
Defined.

(** ** Stage 2: the concept entries *)

Lemma collect_concepts_Forall (P : concept_acc -> Prop) (qs : list question_data) :
  (forall q, P (add_question q new_concept)) ->
  (forall q c, P c -> P (add_question q c)) ->
  Forall (fun item => P (snd item)) (collect_concepts qs).
Proof.
  intros Hnew Hadd. unfold collect_concepts.
  assert (Hgen : forall d : list (string * concept_acc),
    Forall (fun item => P (snd item)) d ->
    Forall (fun item => P (snd item))
      (fold_left
         (fun concept_data q =>
            fold_left
              (fun concept_data tag =>
                 update_concept tag (add_question q) concept_data)
              (qd_concept_tags q) concept_data)
         qs d)).
  { induction qs as [|q rest IH]; intros d Hd; simpl; [done|].
    apply IH. generalize dependent d.
    induction (qd_concept_tags q) as [|tag tags IHt]; intros d Hd; simpl; [done|].
    apply IHt. apply (update_concept_Forall P); auto. }
  apply Hgen. constructor.
Qed.

Lemma len_app_one {A : Type} (l : list A) (x : A) : len (l ++ [x]) = len l + 1.
Proof. unfold len. rewrite length_app. simpl. lia. Qed.

Lemma add_question_ok (q : question_data) (c : concept_acc) :
  concept_acc_ok c -> concept_acc_ok (add_question q c).
Proof.
  intros (Hc & Hch & He & Ho & Ht & Hf). unfold add_question, concept_acc_ok.
  destruct (is_attempted q); simpl; [|done].
  split; [destruct (sub_is_correct _); lia|].
  split; [destruct (sub_changed_answer _); lia|].
  split; [destruct (_ || _); rewrite ?len_app_one; lia|].
  split; [rewrite len_app_one; lia|].
  split.
  - destruct (Z.gtb_spec (time_spent_sec (qd_kpis q)) 0); [|done].
    apply Forall_app. split; [done|]. by constructor.
  - destruct (Z.gtb_spec (first_attempt_latency_sec (qd_kpis q)) 0); [|done].
    apply Forall_app. split; [done|]. by constructor.
Qed.

Lemma new_concept_ok : concept_acc_ok new_concept.
Proof. unfold concept_acc_ok, new_concept, len. simpl. repeat split; (lia || constructor). Qed.

Lemma collect_concepts_ok (qs : list question_data) :
  Forall (fun item => concept_acc_ok (snd item)) (collect_concepts qs).
Proof.
  apply collect_concepts_Forall.
  - intros q. apply add_question_ok, new_concept_ok.
  - intros q c. apply add_question_ok.
Qed.

(** X19. For every Stage-1 report, whatever it holds, every concept
    entry of the Stage-2 report has between 0 and [attempted] correct
    answers, an accuracy and a changed-answer rate between 0 and 1, no
    more evidence than attempted questions, and at most five evidence
    question ids. *)
Theorem concept_entry_bounds (r : stage1_report) (now_iso : string)
    (c : concept_obj) :
  In c (s2_concepts (generate_stage2_report r now_iso)) ->
  0 <= correct c <= attempted c
  /\ (0 <= accuracy c <= 1)%Q
  /\ (0 <= concept_changed_answer_rate (concept_kpis_of c) <= 1)%Q
  /\ 0 <= wq_evidence_count (work_quality c) <= attempted c
  /\ (length (wq_evidence_question_ids (work_quality c)) <= 5)%nat.
Proof.
  simpl. intros Hin. apply list_elem_of_In in Hin.
  apply list_elem_of_omap in Hin. destruct Hin as ([id acc] & Hitem & Hentry).
  pose proof (collect_concepts_ok (s1_questions r)) as Hall.
  rewrite Forall_forall in Hall. specialize (Hall _ Hitem). simpl in Hall.
  destruct Hall as (Hc & Hch & He & Ho & Ht & Hf).
  unfold concept_entry in Hentry.
  destruct (ca_attempted acc =? 0) eqn:Hz; [discriminate|].
  apply Z.eqb_neq in Hz. injection Hentry as <-. simpl.
  split; [lia|]. split; [apply true_div_unit_interval; lia|].
  split; [apply true_div_unit_interval; lia|].
  split; [unfold len in *; lia|].
  rewrite length_take. lia.
Qed.

Lemma concept_entry_bounds_witness :
  0 <= correct (Demo.concept_of Demo.online) <= attempted (Demo.concept_of Demo.online)
  /\ (0 <= accuracy (Demo.concept_of Demo.online) <= 1)%Q
  /\ (0 <= concept_changed_answer_rate
             (concept_kpis_of (Demo.concept_of Demo.online)) <= 1)%Q
  /\ 0 <= wq_evidence_count (work_quality (Demo.concept_of Demo.online))
     <= attempted (Demo.concept_of Demo.online)
  /\ (length (wq_evidence_question_ids (work_quality (Demo.concept_of Demo.online)))
      <= 5)%nat.
Proof.
  apply (concept_entry_bounds (Demo.report_of Demo.online) "now").
  vm_compute. by left.
Defined.

(** ** Stage 2: which concepts are listed, and what they count *)

Lemma occurrences_nonneg (tag : string) (tags : list string) :
  0 <= occurrences tag tags.
Proof. induction tags as [|t rest IH]; simpl; [lia|]. destruct (String.eqb t tag); lia. Qed.

Lemma tagged_nonneg (p : question_data -> bool) (tag : string)
    (qs : list question_data) : 0 <= tagged p tag qs.
Proof.
  induction qs as [|q rest IH]; simpl; [lia|].
  pose proof (occurrences_nonneg tag (qd_concept_tags q)). destruct (p q); lia.
Qed.

Lemma tagged_le (p : question_data -> bool) (tag : string)
    (qs : list question_data) :
  tagged p tag qs <= tagged (fun _ => true) tag qs.
Proof.
  induction qs as [|q rest IH]; simpl; [lia|].
  pose proof (occurrences_nonneg tag (qd_concept_tags q)). destruct (p q); lia.
Qed.

Lemma concept_get_update (tag tag' : string) (f : concept_acc -> concept_acc)
    (d : list (string * concept_acc)) :
  concept_get tag (update_concept tag' f d)
  = if String.eqb tag' tag
    then Some (f (default new_concept (concept_get tag d)))
    else concept_get tag d.
Proof.
  induction d as [|[k c] rest IH]; simpl.
  - done.
  - destruct (String.eqb_spec k tag') as [->|Hk]; simpl.
    + by destruct (String.eqb tag' tag).
    + destruct (String.eqb_spec k tag) as [->|Hkt]; [|exact IH].
      by rewrite (proj2 (String.eqb_neq tag' tag)) by congruence.
Qed.

Lemma concept_get_elem (tag : string) (d : list (string * concept_acc))
    (c : concept_acc) :
  concept_get tag d = Some c -> (tag, c) ∈ d.
Proof.
  induction d as [|[k c0] rest IH]; simpl; [discriminate|].
  destruct (String.eqb_spec k tag) as [->|Hk].
  - intros [= ->]. by left.
  - intros H. right. by apply IH.
Qed.

Lemma concept_get_None (tag : string) (d : list (string * concept_acc)) :
  concept_get tag d = None <-> tag ∉ map fst d.
Proof.
  induction d as [|[k c0] rest IH]; simpl.
  - split; [intros _; apply not_elem_of_nil|done].
  - destruct (String.eqb_spec k tag) as [->|Hk].
    + split; [discriminate|]. intros H. exfalso. apply H. by left.
    + rewrite IH, not_elem_of_cons.
      split; [intros H; split; [congruence|done]|by intros [_ H]].
Qed.

Lemma update_concept_keys (tag : string) (f : concept_acc -> concept_acc)
    (d : list (string * concept_acc)) :
  NoDup (map fst d) -> NoDup (map fst (update_concept tag f d)).
Proof.
  induction d as [|[k c] rest IH]; simpl.
  - intros _. apply NoDup_singleton.
  - intros [Hk Hrest]%NoDup_cons. destruct (String.eqb_spec k tag) as [->|Hne].
    + simpl. by apply NoDup_cons.
    + simpl. apply NoDup_cons. split; [|by apply IH].
      intros Hin. apply Hk. apply concept_get_None in Hk.
      assert (Hg : concept_get k (update_concept tag f rest) = None).
      { rewrite concept_get_update.
        by rewrite (proj2 (String.eqb_neq tag k)) by congruence. }
      by apply concept_get_None in Hg.
Qed.

Lemma elem_concept_get (tag : string) (d : list (string * concept_acc))
    (c : concept_acc) :
  NoDup (map fst d) -> (tag, c) ∈ d -> concept_get tag d = Some c.
Proof.
  induction d as [|[k c0] rest IH]; simpl.
  - intros _ H. by apply elem_of_nil in H.
  - intros [Hk Hrest]%NoDup_cons [Heq|Hin]%elem_of_cons.
    + injection Heq as -> ->. by rewrite String.eqb_refl.
    + destruct (String.eqb_spec k tag) as [->|Hne]; [|by apply IH].
      exfalso. apply Hk. apply list_elem_of_fmap. by exists (tag, c).
Qed.

(** The two loops, seen through a counter [g] that [add_question]
    raises by one for the questions that satisfy [p]. *)
Lemma collect_concepts_counts (g : concept_acc -> Z) (p : question_data -> bool)
    (qs : list question_data) (tag : string) :
  g new_concept = 0 ->
  (forall q c, g (add_question q c) = g c + (if p q then 1 else 0)) ->
  default 0 (g <$> concept_get tag (collect_concepts qs)) = tagged p tag qs.
Proof.
  intros Hnew Hadd. unfold collect_concepts.
  assert (Hinner : forall q tags d,
    default 0 (g <$> concept_get tag
                 (fold_left (fun d t => update_concept t (add_question q) d) tags d))
    = default 0 (g <$> concept_get tag d)
      + (if p q then occurrences tag tags else 0)).
  { intros q tags. induction tags as [|t rest IH]; intros d; simpl.
    - destruct (p q); lia.
    - rewrite IH, concept_get_update.
      destruct (String.eqb t tag); simpl.
      + rewrite Hadd. destruct (concept_get tag d); simpl; rewrite ?Hnew;
          destruct (p q); lia.
      + destruct (p q); lia. }
  assert (Hgen : forall d,
    default 0 (g <$> concept_get tag
                 (fold_left
                    (fun concept_data q =>
                       fold_left
                         (fun concept_data t =>
                            update_concept t (add_question q) concept_data)
                         (qd_concept_tags q) concept_data)
                    qs d))
    = default 0 (g <$> concept_get tag d) + tagged p tag qs).
  { induction qs as [|q rest IH]; intros d; simpl; [lia|].
    rewrite IH, Hinner. lia. }
  rewrite Hgen. simpl. lia.
Qed.

Lemma collect_concepts_present (qs : list question_data) (tag : string) :
  is_Some (concept_get tag (collect_concepts qs))
  <-> 0 < tagged (fun _ => true) tag qs.
Proof.
  unfold collect_concepts.
  assert (Hinner : forall q tags d,
    is_Some (concept_get tag
               (fold_left (fun d t => update_concept t (add_question q) d) tags d))
    <-> is_Some (concept_get tag d) \/ 0 < occurrences tag tags).
  { intros q tags. induction tags as [|t rest IH]; intros d; simpl.
    - split; [by left|]. intros [H|H]; [done|lia].
    - rewrite IH, concept_get_update.
      pose proof (occurrences_nonneg tag rest).
      destruct (String.eqb t tag); simpl.
      + split; [intros _; right; lia|]. intros _. left. by eexists.
      + split; (intros [H1|H1]; [by left|right; lia]). }
  assert (Hgen : forall d,
    is_Some (concept_get tag
               (fold_left
                  (fun concept_data q =>
                     fold_left
                       (fun concept_data t =>
                          update_concept t (add_question q) concept_data)
                       (qd_concept_tags q) concept_data)
                  qs d))
    <-> is_Some (concept_get tag d) \/ 0 < tagged (fun _ => true) tag qs).
  { induction qs as [|q rest IH]; intros d; simpl.
    - split; [by left|]. intros [H|H]; [done|lia].
    - rewrite IH, Hinner.
      pose proof (occurrences_nonneg tag (qd_concept_tags q)).
      pose proof (tagged_nonneg (fun _ => true) tag rest).
      split; (intros [[H1|H1]|H1]; [by left|right; lia|right; lia])
        || (intros [H1|H1]; [by left; left|]).
      destruct (Z.lt_ge_cases 0 (occurrences tag (qd_concept_tags q)));
        [left; by right|right; lia]. }
  rewrite Hgen. simpl. split; [intros [[? H]|H]; [discriminate|done]|by right].
Qed.

Lemma collect_concepts_keys (qs : list question_data) :
  NoDup (map fst (collect_concepts qs)).
Proof.
  unfold collect_concepts.
  assert (Hgen : forall d : list (string * concept_acc),
    NoDup (map fst d) ->
    NoDup (map fst
      (fold_left
         (fun concept_data q =>
            fold_left
              (fun concept_data tag =>
                 update_concept tag (add_question q) concept_data)
              (qd_concept_tags q) concept_data)
         qs d))).
  { induction qs as [|q rest IH]; intros d Hd; simpl; [done|].
    apply IH. generalize dependent d.
    induction (qd_concept_tags q) as [|tag tags IHt]; intros d Hd; simpl; [done|].
    apply IHt. by apply update_concept_keys. }
  apply Hgen. constructor.
Qed.

Lemma add_question_attempted_count (q : question_data) (c : concept_acc) :
  ca_attempted (add_question q c)
  = ca_attempted c + (if is_attempted q then 1 else 0).
Proof. unfold add_question. destruct (is_attempted q); simpl; lia. Qed.

Lemma add_question_correct_count (q : question_data) (c : concept_acc) :
  ca_correct (add_question q c)
  = ca_correct c
    + (if is_attempted q && sub_is_correct (qd_submission q) then 1 else 0).
Proof.
  unfold add_question. destruct (is_attempted q); simpl; [|lia].
  destruct (sub_is_correct _); lia.
Qed.

Lemma concept_entry_id (item : string * concept_acc) (c : concept_obj) :
  concept_entry item = Some c ->
  concept_id c = fst item /\ attempted c = ca_attempted (snd item)
  /\ correct c = ca_correct (snd item) /\ ca_attempted (snd item) <> 0.
Proof.
  destruct item as [id acc]. unfold concept_entry.
  destruct (ca_attempted acc =? 0) eqn:Hz; [discriminate|].
  apply Z.eqb_neq in Hz. by intros [= <-].
Qed.

Lemma omap_concept_ids (d : list (string * concept_acc)) :
  NoDup (map fst d) -> NoDup (map concept_id (omap concept_entry d)).
Proof.
  induction d as [|item rest IH]; simpl; [constructor|].
  intros [Hk Hrest]%NoDup_cons.
  destruct (concept_entry item) as [c|] eqn:Hc; simpl; [|by apply IH].
  apply NoDup_cons. split; [|by apply IH].
  intros Hin. apply Hk. apply list_elem_of_fmap in Hin as (c' & Hid & Hin).
  apply list_elem_of_omap in Hin as (item' & Hin' & Hc').
  apply concept_entry_id in Hc as (Hid1 & _), Hc' as (Hid2 & _).
  apply list_elem_of_fmap. exists item'. split; [congruence|done].
Qed.

(** X20. In a Stage-2 report no concept is listed twice, and a tag is
    listed exactly when an attempted question carries it. The entry of
    a tag counts as attempted the attempted questions that carry the
    tag, and as correct the correct ones among them, each question as
    often as it repeats the tag. *)
Theorem concepts_listed_and_counted (r : stage1_report) (now_iso : string) :
  let concepts := s2_concepts (generate_stage2_report r now_iso) in
  let qs := s1_questions r in
  NoDup (map concept_id concepts)
  /\ (forall c, In c concepts ->
        attempted c = tagged is_attempted (concept_id c) qs
        /\ correct c
           = tagged (fun q => is_attempted q && sub_is_correct (qd_submission q))
               (concept_id c) qs)
  /\ (forall tag,
        (exists c, In c concepts /\ concept_id c = tag)
        <-> 0 < tagged is_attempted tag qs).
Proof.
  simpl. set (qs := s1_questions r). set (d := collect_concepts qs).
  pose proof (collect_concepts_keys qs) as Hkeys. fold d in Hkeys.
  assert (Hatt : forall tag acc, concept_get tag d = Some acc ->
                   ca_attempted acc = tagged is_attempted tag qs).
  { intros tag acc Hg.
    pose proof (collect_concepts_counts ca_attempted is_attempted qs tag eq_refl
                  add_question_attempted_count) as H.
    fold d in H. by rewrite Hg in H. }
  assert (Hcor : forall tag acc, concept_get tag d = Some acc ->
                   ca_correct acc
                   = tagged (fun q => is_attempted q && sub_is_correct (qd_submission q))
                       tag qs).
  { intros tag acc Hg.
    pose proof (collect_concepts_counts ca_correct
                  (fun q => is_attempted q && sub_is_correct (qd_submission q))
                  qs tag eq_refl add_question_correct_count) as H.
    fold d in H. by rewrite Hg in H. }
  split; [by apply omap_concept_ids|]. split.
  - intros c Hin. apply list_elem_of_In, list_elem_of_omap in Hin
      as ([id acc] & Hitem & Hentry).
    apply concept_entry_id in Hentry as (Hid & Ha & Hc & _). simpl in *.
    pose proof (elem_concept_get id d acc Hkeys Hitem) as Hg.
    rewrite Hid, Ha, Hc. split; [by apply Hatt|by apply Hcor].
  - intros tag. split.
    + intros (c & Hin & Hid). apply list_elem_of_In, list_elem_of_omap in Hin
        as ([id acc] & Hitem & Hentry).
      apply concept_entry_id in Hentry as (Hid' & _ & _ & Hnz). simpl in *.
      pose proof (elem_concept_get id d acc Hkeys Hitem) as Hg.
      assert (id = tag) as -> by congruence.
      pose proof (Hatt _ _ Hg). pose proof (tagged_nonneg is_attempted tag qs). lia.
    + intros Hpos.
      assert (Hsome : is_Some (concept_get tag d)).
      { apply collect_concepts_present. pose proof (tagged_le is_attempted tag qs). lia. }
      destruct Hsome as [acc Hg].
      pose proof (Hatt _ _ Hg) as Ha.
      destruct (concept_entry (tag, acc)) as [c|] eqn:Hc.
      * exists c. split.
        -- apply list_elem_of_In, list_elem_of_omap. exists (tag, acc).
           split; [by apply concept_get_elem|done].
        -- by apply concept_entry_id in Hc as (Hid & _).
      * exfalso. unfold concept_entry in Hc.
        destruct (ca_attempted acc =? 0) eqn:Hz; [|discriminate].
        apply Z.eqb_eq in Hz. lia.
Qed.

(** ** Stage 3: what is sent and what comes back *)






(** X22. The synthesizer never touches a file or a directory. It makes
    one request when a credential is configured and none otherwise.
    Whenever its result is not [None], it showed no error and the
    result is what [json.loads] made of the service's reply, stripped
    and with the Markdown fences taken off. *)
Theorem stage3_result_is_parsed_reply
    (rt : runtime) (stage2 : stage2_report) (stage1 : stage1_report)
    (now_iso : string) (w : world) :
  let out := generate_stage3_report_with_llm rt stage2 stage1 now_iso w in
  files (snd out) = files w /\ dirs (snd out) = dirs w
  /\ requests (snd out)
     = match api_key_configured rt with
       | Some _ => S (requests w)
       | None => requests w
       end
  /\ (fst out <> JNull ->
      notices (snd out) = notices w
      /\ exists text,
           generate_content rt (requests w) model_name
             (Stage3Prompt stage2 (map excerpt (work_summary_of stage1)) now_iso)
           = Replies (Some text)
           /\ json_loads rt (unfence (Py.strip text)) = Some (fst out)).
Proof.
  simpl. unfold generate_stage3_report_with_llm.
  destruct (api_key_configured rt); simpl; [|by repeat split].
  destruct (generate_content _ _ _ _) as [|[text|]]; simpl; try by repeat split.
  destruct (json_loads rt _) as [v|] eqn:Hl; simpl; [|by repeat split].
  repeat split. by exists text.
Qed.

(** ** The shell: indices, stored reports, timing tables *)

Lemma record_answer_quiz (inp : quiz_input) (q_id : string) (st : session) :
  same_quiz st (record_answer inp q_id st).
Proof.
  unfold record_answer, same_quiz.
  by destruct (first_attempt_times st !! q_id).
Qed.

Lemma record_typed_work_quiz (typed q_id : string) (st : session) :
  same_quiz st (record_typed_work typed q_id st).
Proof.
  unfold record_typed_work, same_quiz. by destruct (responses st !! q_id).
Qed.

Lemma same_quiz_trans (a b c : session) :
  same_quiz a b -> same_quiz b c -> same_quiz a c.
Proof.
  intros (H1 & H2 & H3 & H4) (K1 & K2 & K3 & K4). repeat split; congruence.
Qed.

(** The state of the quiz page just before its three buttons. *)
Lemma render_quiz_page_shape (rt : runtime) (inp : quiz_input) (st : session) :
  questions st = [] /\ (render_quiz_page rt inp st = st
                        \/ render_quiz_page rt inp st = set_page PageHome st)
  \/ (exists i, (i < length (questions st))%nat
                /\ render_quiz_page rt inp st
                   = set_current_question_idx (Z.of_nat i) st)
  \/ (exists st4, same_quiz st st4
                  /\ (render_quiz_page rt inp st = st4
                      \/ exists q_id,
                           render_quiz_page rt inp st
                           = quiz_buttons (qi_pressed inp) q_id st4)).
Proof.
  unfold render_quiz_page.
  destruct (questions st) as [|q0 qs0] eqn:Hqs.
  { left. split; [done|]. destruct (qi_back_home inp); [by right|by left]. }
  right.
  destruct (qi_nav inp) as [i|].
  - destruct ((i <? length (q0 :: qs0))%nat
              && negb (Z.of_nat i =? current_question_idx st)) eqn:Hnav.
    + left. exists i. split; [|done].
      apply andb_true_iff in Hnav as [Hlt _]. by apply Nat.ltb_lt in Hlt.
    + right. rewrite <- Hqs.
      destruct (py_index _ _) as [cur|]; [|by exists st; split; [|left]].
      set (q_id := question_id cur).
      set (st1 := match question_start_times st !! q_id with
                  | Some _ => st | None => _ end).
      assert (H1 : same_quiz st st1)
        by (subst st1; by destruct (question_start_times st !! q_id)).
      set (st2 := if _ && _ then record_answer inp q_id st1 else st1).
      assert (H2 : same_quiz st st2).
      { subst st2. destruct (Py.truthy _ && _); [|done].
        eapply same_quiz_trans; [exact H1|apply record_answer_quiz]. }
      set (st3 := match qi_uploaded_file inp with Some f => _ | None => st2 end).
      assert (H3 : same_quiz st st3) by (subst st3; by destruct (qi_uploaded_file inp)).
      destruct (negb (default true _)); [by exists st3; split; [|left]|].
      set (st4 := if Py.truthy (qi_typed_work inp) then _ else st3).
      assert (H4 : same_quiz st st4).
      { subst st4. destruct (Py.truthy (qi_typed_work inp)); [|done].
        eapply same_quiz_trans; [exact H3|apply record_typed_work_quiz]. }
      exists st4. split; [done|]. right. by exists q_id.
  - right. rewrite <- Hqs.
    destruct (py_index _ _) as [cur|]; [|by exists st; split; [|left]].
    set (q_id := question_id cur).
    set (st1 := match question_start_times st !! q_id with
                | Some _ => st | None => _ end).
    assert (H1 : same_quiz st st1)
      by (subst st1; by destruct (question_start_times st !! q_id)).
    set (st2 := if _ && _ then record_answer inp q_id st1 else st1).
    assert (H2 : same_quiz st st2).
    { subst st2. destruct (Py.truthy _ && _); [|done].
      eapply same_quiz_trans; [exact H1|apply record_answer_quiz]. }
    set (st3 := match qi_uploaded_file inp with Some f => _ | None => st2 end).
    assert (H3 : same_quiz st st3) by (subst st3; by destruct (qi_uploaded_file inp)).
    destruct (negb (default true _)); [by exists st3; split; [|left]|].
    set (st4 := if Py.truthy (qi_typed_work inp) then _ else st3).
    assert (H4 : same_quiz st st4).
    { subst st4. destruct (Py.truthy (qi_typed_work inp)); [|done].
      eapply same_quiz_trans; [exact H3|apply record_typed_work_quiz]. }
    exists st4. split; [done|]. right. by exists q_id.
Qed.

(** What the quiz page does to the questions, the index, the page and
    the stored reports. *)
Lemma render_quiz_page_frame (rt : runtime) (inp : quiz_input) (st : session) :
  let st' := render_quiz_page rt inp st in
  questions st' = questions st
  /\ finished_reports st' = finished_reports st
  /\ (page st' = page st \/ page st' = PageSubmit \/ page st' = PageHome)
  /\ (0 <= current_question_idx st < len (questions st) ->
      0 <= current_question_idx st' < len (questions st)).
Proof.
  simpl.
  destruct (render_quiz_page_shape rt inp st)
    as [[Hq [->| ->]]|[(i & Hi & ->)|(st4 & (Hqs & Hidx & Hfin & Hpg) & [->|[q_id ->]])]].
  - repeat split; auto; lia.
  - simpl. repeat split; auto; lia.
  - simpl. repeat split; auto; first [lia | unfold len; lia].
  - rewrite Hqs, Hidx, Hfin, Hpg. repeat split; auto; lia.
  - unfold quiz_buttons.
    destruct (qi_pressed inp) as [[| |]|]; simpl.
    + destruct (Z.gtb_spec (current_question_idx st4) 0); simpl;
        rewrite ?Hqs, ?Hidx, ?Hfin, ?Hpg; repeat split; auto; lia.
    + destruct (bool_decide _); simpl;
        rewrite ?Hqs, ?Hidx, ?Hfin, ?Hpg; repeat split; auto; lia.
    + destruct (Z.ltb_spec (current_question_idx st4) (len (questions st4) - 1));
        simpl; rewrite ?Hqs, ?Hidx, ?Hfin, ?Hpg in *; repeat split; auto; lia.
    + rewrite ?Hqs, ?Hidx, ?Hfin, ?Hpg; repeat split; auto; lia.
Qed.

(** Away from the home page the index points at a question. *)
Lemma reachable_index (st : session) : reachable st -> index_in_range st.
Proof.
  induction 1 as [|rt inp st w Hr IH]; [by intros ?|].
  unfold main, index_in_range. destruct (page st) eqn:Hp; simpl.
  - unfold render_home_page.
    destruct (hi_pressed (in_home inp)) as [[name|]|].
    + destruct (existsb _ _); simpl; congruence.
    + destruct (Py.truthy _); [|congruence].
      destruct (hi_fetched (in_home inp)); simpl; [congruence|].
      intros _. unfold len. simpl. lia.
    + congruence.
  - intros _. pose proof (render_quiz_page_frame rt (in_quiz inp) st) as H.
    simpl in H. destruct H as (Hq & _ & _ & Hi). rewrite Hq. apply Hi, IH. congruence.
  - intros _. assert (Hc : 0 <= current_question_idx st < len (questions st))
      by (apply IH; congruence).
    unfold render_submit_page. destruct (si_pressed (in_submit inp)) as [[|]|]; simpl.
    + done.
    + destruct (submit_quiz_session rt (in_submit inp) st w) as [->|[f ->]]; done.
    + done.
  - unfold render_results_page. destruct (in_results inp); simpl; [congruence|].
    intros _. apply IH. congruence.
Qed.

(** X23. In every reachable session that is not on the home page the
    quiz has at least one question and the current index points at one
    of them, so that reading the current question on the quiz page
    never fails. *)
Theorem current_question_exists (st : session) :
  reachable st -> page st <> PageHome ->
  questions st <> []
  /\ 0 <= current_question_idx st < len (questions st)
  /\ is_Some (py_index (questions st) (current_question_idx st)).
Proof.
  intros Hreach Hhome. pose proof (reachable_index st Hreach Hhome) as Hi.
  split; [intros Hq; rewrite Hq in Hi; unfold len in Hi; simpl in Hi; lia|].
  split; [done|]. unfold py_index.
  rewrite (proj2 (andb_true_iff _ _)) by (split; [apply Z.leb_le|apply Z.ltb_lt]; lia).
  apply lookup_lt_is_Some. unfold len in Hi. lia.
Qed.

Lemma current_question_exists_witness :
  questions Demo.session_at_submit <> []
  /\ 0 <= current_question_idx Demo.session_at_submit
     < len (questions Demo.session_at_submit)
  /\ is_Some (py_index (questions Demo.session_at_submit)
                (current_question_idx Demo.session_at_submit)).
Proof.
  apply (current_question_exists Demo.session_at_submit);
    [exact session_at_submit_reachable | by vm_compute].
Defined.

(** The score of a Stage-1 report against the number of questions. *)
Lemma report_score_bounds (rt : runtime) (st : session) (now : moment)
    (clocks : nat -> Q) (w : world) (r : stage1_report) :
  fst (generate_performance_report rt st now clocks w) = Some r ->
  max_score (s1_score_summary r) = len (questions st)
  /\ 0 <= correct_count (s1_score_summary r) <= len (questions st).
Proof.
  unfold generate_performance_report.
  pose proof (stage1_loop_tally rt st clocks (questions st) 0%nat
                {| t_correct := 0; t_incorrect := 0; t_unattempted := 0 |} w)
    as Ht. simpl in Ht.
  destruct (stage1_loop _ _ _ _ _ _ _) as [[qds t] w1]. simpl in Ht.
  destruct (selected_topic st); simpl; [|discriminate].
  intros [= <-]. simpl. destruct Ht as (Hc & _ & _ & Hl).
  split; [done|]. rewrite Hc, <- Hl.
  pose proof (count_if_nonneg (fun qd => sub_is_correct (qd_submission qd)) qds).
  pose proof (count_if_le_len (fun qd => sub_is_correct (qd_submission qd)) qds).
  lia.
Qed.

(** What a submission stores. *)
Lemma submit_quiz_stores (rt : runtime) (inp : submit_input) (st : session)
    (w : world) :
  1 <= len (questions st) ->
  reports_stored (py_str rt) st ->
  page st = PageSubmit ->
  reports_stored (py_str rt) (fst (submit_quiz rt inp st w)).
Proof.
  intros Hlen Hst Hpage. unfold submit_quiz.
  destruct (generate_performance_report _ _ _ _ _) as [[s1|] w1] eqn:Hs1; [|done].
  destruct (generate_stage3_report_with_llm _ _ _ _ _) as [s3 w2].
  destruct (json_truthy s3) eqn:Htruthy; [|done].
  destruct (subscript s3 _) as [meta|] eqn:Hmeta; [|done].
  destruct (subscript meta _) as [rid|] eqn:Hrid; [|done].
  simpl. split; [by eexists|].
  intros f [= <-]. simpl.
  destruct (report_score_bounds rt st (si_now inp) (si_clocks inp) w s1)
    as (Hmax & Hc); [by rewrite Hs1|].
  rewrite Hmax. split; [done|]. split; [done|]. split; [done|].
  split; [by eexists|]. by exists meta, rid.
Qed.

Lemma reachable_with_reachable (to_str : json -> string) (st : session) :
  reachable_with to_str st -> reachable st.
Proof.
  induction 1 as [|rt inp st w _ _ IH]; [apply reachable_initial|].
  by apply reachable_run.
Qed.

Lemma reachable_reports (to_str : json -> string) (st : session) :
  reachable_with to_str st -> reports_stored to_str st.
Proof.
  induction 1 as [|rt inp st w Hstr Hr IH].
  { split; [discriminate|discriminate]. }
  unfold main. destruct (page st) eqn:Hp; simpl.
  - assert (Hk : finished_reports (render_home_page (in_home inp) st)
                 = finished_reports st
                 /\ page (render_home_page (in_home inp) st) <> PageResults).
    { unfold render_home_page.
      destruct (hi_pressed (in_home inp)) as [[name|]|]; [| |by rewrite Hp].
      - destruct (existsb _ _); simpl; by rewrite Hp.
      - destruct (Py.truthy _); [|by rewrite Hp].
        destruct (hi_fetched (in_home inp)); simpl; [by rewrite Hp|done]. }
    destruct Hk as [Hf Hpg]. split; [done|]. rewrite Hf. apply IH.
  - pose proof (render_quiz_page_frame rt (in_quiz inp) st) as H.
    simpl in H. destruct H as (_ & Hf & Hpg & _). rewrite Hp in Hpg.
    split; [intros Hres; rewrite Hres in Hpg; by destruct Hpg as [?|[?|?]]|].
    rewrite Hf. apply IH.
  - unfold render_submit_page. destruct (si_pressed (in_submit inp)) as [[|]|]; simpl.
    + split; [discriminate|apply IH].
    + rewrite <- Hstr in IH |- *. apply submit_quiz_stores; [|done|done].
      pose proof (reachable_index st (reachable_with_reachable _ _ Hr)) as Hi.
      unfold index_in_range in Hi.
      rewrite Hp in Hi. specialize (Hi ltac:(discriminate)). lia.
    + split; [by rewrite Hp|apply IH].
  - unfold render_results_page. destruct (in_results inp); simpl.
    + split; [discriminate|apply IH].
    + done.
Qed.

(** X24. Let every run stringify Python values with the same [str].
    Then the results page is only ever shown with the three reports of
    one submission stored: a Stage-1 report of at least one question
    whose correct count lies between 0 and the maximum score (the
    percentage of the page divides by a positive number), the Stage-2
    report that aggregates exactly this Stage-1 report, and a truthy
    final report; and the stored file name is
    [quiz_reports/performance_report_{id}.json] for the text [str]
    gives of the [report_meta]/[report_id] of that final report. *)
Theorem results_page_has_reports (to_str : json -> string) (st : session) :
  reachable_with to_str st -> page st = PageResults ->
  exists f,
    finished_reports st = Some f
    /\ 1 <= max_score (s1_score_summary (fin_stage1_report f))
    /\ 0 <= correct_count (s1_score_summary (fin_stage1_report f))
       <= max_score (s1_score_summary (fin_stage1_report f))
    /\ (exists now_iso,
          fin_stage2_report f
          = generate_stage2_report (fin_stage1_report f) now_iso)
    /\ json_truthy (fin_final_report f) = true
    /\ exists meta report_id,
         subscript (fin_final_report f) "report_meta" = Some meta
         /\ subscript meta "report_id" = Some report_id
         /\ fin_report_file f = report_file_of (to_str report_id).
Proof.
  intros Hreach Hpage.
  destruct (reachable_reports to_str st Hreach) as [Hsome Hall].
  destruct (Hsome Hpage) as [f Hf]. exists f. split; [done|].
  destruct (Hall f Hf) as (H1 & H2 & H3 & H4 & H5).
  exact (conj H1 (conj H2 (conj H4 (conj H3 H5)))).
Qed.

Lemma session_at_results_reachable :
  reachable_with Demo.str PlanDemo.session_at_results.
Proof.
  unfold PlanDemo.session_at_results, Demo.session_at_submit.
  do 4 (apply reachable_with_run; [reflexivity|]).
  apply reachable_with_initial.
Defined.

Lemma results_page_has_reports_witness :
  exists f,
    finished_reports PlanDemo.session_at_results = Some f
    /\ 1 <= max_score (s1_score_summary (fin_stage1_report f))
    /\ 0 <= correct_count (s1_score_summary (fin_stage1_report f))
       <= max_score (s1_score_summary (fin_stage1_report f))
    /\ (exists now_iso,
          fin_stage2_report f
          = generate_stage2_report (fin_stage1_report f) now_iso)
    /\ json_truthy (fin_final_report f) = true
    /\ exists meta report_id,
         subscript (fin_final_report f) "report_meta" = Some meta
         /\ subscript meta "report_id" = Some report_id
         /\ fin_report_file f = report_file_of (Demo.str report_id).
Proof.
  apply (results_page_has_reports Demo.str PlanDemo.session_at_results);
    [exact session_at_results_reachable | by vm_compute].
Defined.

(** ** The timing tables on the quiz page *)

Lemma quiz_buttons_times (pressed : option quiz_button) (q_id : string)
    (st : session) :
  question_start_times (quiz_buttons pressed q_id st) = question_start_times st
  /\ first_attempt_times (quiz_buttons pressed q_id st) = first_attempt_times st.
Proof.
  unfold quiz_buttons. destruct pressed as [[| |]|]; repeat case_match; by split.
Qed.

Lemma record_typed_work_times (typed q_id : string) (st : session) :
  question_start_times (record_typed_work typed q_id st) = question_start_times st
  /\ first_attempt_times (record_typed_work typed q_id st) = first_attempt_times st.
Proof. unfold record_typed_work. by destruct (responses st !! q_id). Qed.

Lemma record_answer_times (inp : quiz_input) (q_id : string) (st : session) :
  question_start_times (record_answer inp q_id st) = question_start_times st
  /\ first_attempt_times (record_answer inp q_id st)
     = match first_attempt_times st !! q_id with
       | Some _ => first_attempt_times st
       | None =>
           <[q_id := (qi_t_edit inp
                      - default (qi_t_shown inp) (question_start_times st !! q_id))%Q]>
             (first_attempt_times st)
       end.
Proof. unfold record_answer. by destruct (first_attempt_times st !! q_id). Qed.

(** The two timing tables after one run of the quiz page: either both
    are as before, or the run was on the current question. *)
Lemma render_quiz_page_times (rt : runtime) (inp : quiz_input) (st : session) :
  let st' := render_quiz_page rt inp st in
  (question_start_times st' = question_start_times st
   /\ first_attempt_times st' = first_attempt_times st)
  \/ exists cur,
       py_index (questions st) (current_question_idx st) = Some cur
       /\ question_start_times st'
          = match question_start_times st !! question_id cur with
            | Some _ => question_start_times st
            | None => <[question_id cur := qi_t_shown inp]> (question_start_times st)
            end
       /\ (first_attempt_times st' = first_attempt_times st
           \/ Py.truthy (qi_numerical_answer inp) = true
              /\ first_attempt_times st'
                 = match first_attempt_times st !! question_id cur with
                   | Some _ => first_attempt_times st
                   | None =>
                       <[question_id cur :=
                           (qi_t_edit inp
                            - default (qi_t_shown inp)
                                (question_start_times st !! question_id cur))%Q]>
                         (first_attempt_times st)
                   end).
Proof.
  simpl. unfold render_quiz_page.
  destruct (questions st) as [|q0 qs0] eqn:Hqs.
  { left. by destruct (qi_back_home inp). }
  rewrite <- Hqs.
  match goal with |- context [match ?n with Some i => set_current_question_idx _ _ | None => _ end] =>
    destruct n as [i|] end; [by left|].
  destruct (py_index _ _) as [cur|]; [|by left].
  right. exists cur. split; [done|].
  set (q_id := question_id cur).
  set (st1 := match question_start_times st !! q_id with
              | Some _ => st | None => _ end).
  assert (H1 : question_start_times st1
               = match question_start_times st !! q_id with
                 | Some _ => question_start_times st
                 | None => <[q_id := qi_t_shown inp]> (question_start_times st)
                 end
               /\ first_attempt_times st1 = first_attempt_times st
               /\ default (qi_t_shown inp) (question_start_times st1 !! q_id)
                  = default (qi_t_shown inp) (question_start_times st !! q_id)).
  { subst st1. destruct (question_start_times st !! q_id) eqn:Hs; simpl.
    - by rewrite Hs.
    - by rewrite lookup_insert_eq. }
  destruct H1 as (H1s & H1f & H1d).
  set (st2 := if Py.truthy (qi_numerical_answer inp) && _
              then record_answer inp q_id st1 else st1).
  assert (H2 : question_start_times st2 = question_start_times st1
               /\ (first_attempt_times st2 = first_attempt_times st
                   \/ Py.truthy (qi_numerical_answer inp) = true
                      /\ first_attempt_times st2
                         = match first_attempt_times st !! q_id with
                           | Some _ => first_attempt_times st
                           | None =>
                               <[q_id :=
                                   (qi_t_edit inp
                                    - default (qi_t_shown inp)
                                        (question_start_times st !! q_id))%Q]>
                                 (first_attempt_times st)
                           end)).
  { subst st2. destruct (Py.truthy (qi_numerical_answer inp)) eqn:Hty; simpl.
    - destruct (negb _); [|by split; [|left]].
      destruct (record_answer_times inp q_id st1) as [Hs Hf].
      split; [done|]. right. split; [done|].
      by rewrite Hf, H1f, H1d.
    - by split; [|left]. }
  destruct H2 as (H2s & H2f).
  set (st3 := match qi_uploaded_file inp with Some f => _ | None => st2 end).
  assert (H3 : question_start_times st3 = question_start_times st2
               /\ first_attempt_times st3 = first_attempt_times st2)
    by (subst st3; by destruct (qi_uploaded_file inp)).
  destruct H3 as (H3s & H3f).
  destruct (negb (default true _)).
  { rewrite H3s, H3f, H2s, H1s. by split. }
  set (st4 := if Py.truthy (qi_typed_work inp) then _ else st3).
  assert (H4 : question_start_times st4 = question_start_times st3
               /\ first_attempt_times st4 = first_attempt_times st3).
  { subst st4. destruct (Py.truthy (qi_typed_work inp)); [|done].
    apply record_typed_work_times. }
  destruct H4 as (H4s & H4f).
  destruct (quiz_buttons_times (qi_pressed inp) q_id st4) as [H5s H5f].
  rewrite H5s, H5f, H4s, H4f, H3s, H3f, H2s, H1s. by split.
Qed.

(** X25. The quiz page writes each entry of the two timing tables at
    most once: a start time or a first-attempt latency recorded for a
    question is still the same after any further run of the page. *)
Theorem quiz_page_timing_write_once
    (rt : runtime) (inp : quiz_input) (st : session) (q_id : string) (t : Q) :
  (question_start_times st !! q_id = Some t ->
   question_start_times (render_quiz_page rt inp st) !! q_id = Some t)
  /\ (first_attempt_times st !! q_id = Some t ->
      first_attempt_times (render_quiz_page rt inp st) !! q_id = Some t).
Proof.
  destruct (render_quiz_page_times rt inp st)
    as [[Hs Hf]|(cur & _ & Hs & Hf)]; rewrite Hs.
  { by rewrite Hf. }
  split.
  - intros Ht. destruct (question_start_times st !! question_id cur) eqn:Hc; [done|].
    rewrite lookup_insert_ne; [done|]. intros Heq. subst q_id. congruence.
  - intros Ht. destruct Hf as [->|[_ ->]]; [done|].
    destruct (first_attempt_times st !! question_id cur) eqn:Hc; [done|].
    rewrite lookup_insert_ne; [done|]. intros Heq. subst q_id. congruence.
Qed.

(** X26. When a run of the quiz page records a first-attempt latency
    for a question that had none, this question is the current one, the
    answer widget holds a non-empty value, and the latency is the time
    of the edit minus the time the question was first shown (this run's
    if it was not shown before). *)
Theorem first_attempt_latency_recorded
    (rt : runtime) (inp : quiz_input) (st : session) (q_id : string) (t : Q) :
  first_attempt_times st !! q_id = None ->
  first_attempt_times (render_quiz_page rt inp st) !! q_id = Some t ->
  Py.truthy (qi_numerical_answer inp) = true
  /\ (exists cur, py_index (questions st) (current_question_idx st) = Some cur
                  /\ question_id cur = q_id)
  /\ t = (qi_t_edit inp
          - default (qi_t_shown inp) (question_start_times st !! q_id))%Q
  /\ is_Some (question_start_times (render_quiz_page rt inp st) !! q_id).
Proof.
  intros Hnone Hsome.
  destruct (render_quiz_page_times rt inp st)
    as [[Hs Hf]|(cur & Hcur & Hs & [Hf|[Hty Hf]])];
    rewrite Hf in Hsome; try congruence.
  destruct (first_attempt_times st !! question_id cur) eqn:Hc; [congruence|].
  destruct (decide (question_id cur = q_id)) as [Heq|Hne];
    [|rewrite lookup_insert_ne in Hsome by done; congruence].
  subst q_id. rewrite lookup_insert_eq in Hsome. injection Hsome as <-.
  split; [done|]. split; [by exists cur|]. split; [done|].
  rewrite Hs. destruct (question_start_times st !! question_id cur) eqn:Hq.
  - by rewrite Hq.
  - by rewrite lookup_insert_eq.
Qed.

Lemma first_attempt_latency_recorded_witness :
  Py.truthy (qi_numerical_answer (in_quiz Demo.answer_and_finish)) = true
  /\ (exists cur,
        py_index (questions (fst (main Demo.offline Demo.start_quiz
                   (fst (main Demo.offline Demo.pick_topic initial_session
                           Demo.empty_world)) Demo.empty_world)))
          0 = Some cur
        /\ question_id cur = question_id Demo.the_question)
  /\ 5%Q = (16 - default 11%Q (@None Q))%Q
  /\ is_Some (question_start_times Demo.session_at_submit
              !! question_id Demo.the_question).
Proof.
  apply (first_attempt_latency_recorded Demo.offline
           (in_quiz Demo.answer_and_finish)
           (fst (main Demo.offline Demo.start_quiz
                   (fst (main Demo.offline Demo.pick_topic initial_session
                           Demo.empty_world)) Demo.empty_world))
           (question_id Demo.the_question) 5%Q); by vm_compute.
Defined.

(** ** The submit page *)



(** X28. When the final report is truthy but has no [report_meta], or
    its [report_meta] has no [report_id], building the file name raises
    after the directory was made: [quiz_reports] exists, no file is
    written, nothing is stored in the session, the page stays the
    submit page and the failure message of the page is not shown. *)
Theorem submission_without_report_id
    (rt : runtime) (inp : submit_input) (st : session) (w : world)
    (stage1 : stage1_report) (w1 w2 : world) (stage3 : json) :
  si_pressed inp = Some SubmitQuiz ->
  generate_performance_report rt st (si_now inp) (si_clocks inp) w
  = (Some stage1, w1) ->
  generate_stage3_report_with_llm rt
    (generate_stage2_report stage1 (si_stage2_now_iso inp)) stage1
    (si_stage3_now_iso inp) w1 = (stage3, w2) ->
  json_truthy stage3 = true ->
  (subscript stage3 "report_meta" ≫= fun meta => subscript meta "report_id")
  = None ->
  fst (render_submit_page rt inp st w) = st
  /\ reports_dir ∈ dirs (snd (render_submit_page rt inp st w))
  /\ files (snd (render_submit_page rt inp st w)) = files w2
  /\ notices (snd (render_submit_page rt inp st w)) = notices w2.
Proof.
  intros Hpressed Hs1 Hs3 Htruthy Hnone.
  unfold render_submit_page, submit_quiz.
  rewrite Hpressed, Hs1, Hs3, Htruthy.
  destruct (subscript stage3 _) as [meta|]; simpl in *.
  - rewrite Hnone. simpl. by repeat split; [set_solver|..].
  - by repeat split; [set_solver|..].
Qed.

Lemma submission_without_report_id_witness :
  fst (render_submit_page PlanDemo.bare_planner Demo.submit_pressed
         Demo.session_at_submit Demo.empty_world) = Demo.session_at_submit
  /\ reports_dir ∈ dirs (snd (render_submit_page PlanDemo.bare_planner
                                Demo.submit_pressed Demo.session_at_submit
                                Demo.empty_world))
  /\ files (snd (render_submit_page PlanDemo.bare_planner Demo.submit_pressed
                   Demo.session_at_submit Demo.empty_world))
     = files
         (snd (generate_stage3_report_with_llm PlanDemo.bare_planner
                 (generate_stage2_report PlanDemo.stage1
                    (si_stage2_now_iso Demo.submit_pressed))
                 PlanDemo.stage1 (si_stage3_now_iso Demo.submit_pressed)
                 PlanDemo.world_after_stage1))
  /\ notices (snd (render_submit_page PlanDemo.bare_planner Demo.submit_pressed
                     Demo.session_at_submit Demo.empty_world))
     = notices
         (snd (generate_stage3_report_with_llm PlanDemo.bare_planner
                 (generate_stage2_report PlanDemo.stage1
                    (si_stage2_now_iso Demo.submit_pressed))
                 PlanDemo.stage1 (si_stage3_now_iso Demo.submit_pressed)
                 PlanDemo.world_after_stage1)).
Proof.
  exact (submission_without_report_id PlanDemo.bare_planner Demo.submit_pressed
           Demo.session_at_submit Demo.empty_world PlanDemo.stage1
           PlanDemo.world_after_stage1 _ PlanDemo.bare_plan
           eq_refl ltac:(by vm_compute) ltac:(by vm_compute) eq_refl eq_refl).
Defined.

(** ** Answers and uploads on the quiz page *)

Lemma record_typed_work_answers (typed q_id : string) (st : session) :
  option_changes (record_typed_work typed q_id st) = option_changes st
  /\ uploaded_files (record_typed_work typed q_id st) = uploaded_files st
  /\ (forall k, k <> q_id ->
        responses (record_typed_work typed q_id st) !! k = responses st !! k)
  /\ (responses (record_typed_work typed q_id st) !! q_id ≫= final_answer)
     = (responses st !! q_id ≫= final_answer)
  /\ (responses (record_typed_work typed q_id st) !! q_id ≫= changed_answer)
     = (responses st !! q_id ≫= changed_answer).
Proof.
  unfold record_typed_work.
  destruct (responses st !! q_id) as [r|] eqn:Hr; simpl;
    rewrite lookup_insert_eq; simpl;
    (repeat split; [by intros k Hk; rewrite lookup_insert_ne|..]); done.
Qed.

Lemma record_answer_answers (inp : quiz_input) (q_id : string) (st : session) :
  let changes :=
    match option_changes st !! q_id with None => 0 | Some n => n + 1 end in
  option_changes (record_answer inp q_id st)
  = <[q_id := changes]> (option_changes st)
  /\ uploaded_files (record_answer inp q_id st) = uploaded_files st
  /\ (forall k, k <> q_id ->
        responses (record_answer inp q_id st) !! k = responses st !! k)
  /\ (responses (record_answer inp q_id st) !! q_id ≫= final_answer)
     = Some (qi_numerical_answer inp)
  /\ (responses (record_answer inp q_id st) !! q_id ≫= changed_answer)
     = Some (changes >? 0).
Proof.
  unfold record_answer.
  destruct (first_attempt_times st !! q_id); simpl;
    rewrite lookup_insert_eq; simpl;
    (repeat split; [by intros k Hk; rewrite lookup_insert_ne|..]); done.
Qed.

Lemma quiz_buttons_uploads (pressed : option quiz_button) (q_id : string)
    (st : session) :
  uploaded_files (quiz_buttons pressed q_id st) = uploaded_files st.
Proof.
  unfold quiz_buttons. destruct pressed as [[| |]|]; by repeat case_match.
Qed.

Lemma py_index_nonempty {A : Type} (l : list A) (i : Z) (x : A) :
  py_index l i = Some x -> l <> [].
Proof.
  intros H ->. unfold py_index in H.
  repeat case_match; by rewrite ?lookup_nil in H.
Qed.

(** X29. One run of the quiz page on the current question, without a
    jump to another question, touches the answer and the edit counter of
    no other question. If the answer widget is empty or holds the stored
    final answer, the stored answer and the counter of the question stay
    as they are: showing a question again is no edit. Otherwise the
    widget's value becomes the final answer, the counter is 0 for a
    first answer and one more than before for a later one, and the
    stored flag says whether the new counter is positive. *)
Theorem answer_edit_counting
    (rt : runtime) (inp : quiz_input) (st : session) (cur : question) :
  qi_nav inp = None ->
  py_index (questions st) (current_question_idx st) = Some cur ->
  let q_id := question_id cur in
  let st' := render_quiz_page rt inp st in
  let stored :=
    default "" (final_answer (default no_response (responses st !! q_id))) in
  let edited :=
    Py.truthy (qi_numerical_answer inp)
    && negb (String.eqb (qi_numerical_answer inp) stored) in
  let changes :=
    match option_changes st !! q_id with None => 0 | Some n => n + 1 end in
  (forall k, k <> q_id ->
     responses st' !! k = responses st !! k
     /\ option_changes st' !! k = option_changes st !! k)
  /\ (edited = false ->
      option_changes st' !! q_id = option_changes st !! q_id
      /\ (responses st' !! q_id ≫= final_answer)
         = (responses st !! q_id ≫= final_answer)
      /\ (responses st' !! q_id ≫= changed_answer)
         = (responses st !! q_id ≫= changed_answer))
  /\ (edited = true ->
      option_changes st' !! q_id = Some changes
      /\ (responses st' !! q_id ≫= final_answer)
         = Some (qi_numerical_answer inp)
      /\ (responses st' !! q_id ≫= changed_answer) = Some (changes >? 0)).
Proof.
  intros Hnav Hcur. simpl. unfold render_quiz_page.
  pose proof (py_index_nonempty _ _ _ Hcur) as Hne.
  destruct (questions st) as [|q0 qs0] eqn:Hqs; [done|]. clear Hne.
  rewrite <- Hqs in Hcur |- *. rewrite Hnav, Hcur.
  set (q_id := question_id cur).
  set (st1 := match question_start_times st !! q_id with
              | Some _ => st | None => _ end).
  assert (H1 : responses st1 = responses st
               /\ option_changes st1 = option_changes st)
    by (subst st1; by destruct (question_start_times st !! q_id)).
  destruct H1 as [H1r H1c]. rewrite H1r.
  set (edited := Py.truthy (qi_numerical_answer inp) && _).
  set (st2 := if edited then record_answer inp q_id st1 else st1).
  set (st3 := match qi_uploaded_file inp with Some f => _ | None => st2 end).
  assert (H3 : responses st3 = responses st2
               /\ option_changes st3 = option_changes st2)
    by (subst st3; by destruct (qi_uploaded_file inp)).
  destruct H3 as [H3r H3c].
  set (st4 := if Py.truthy (qi_typed_work inp)
              then record_typed_work (qi_typed_work inp) q_id st3 else st3).
  assert (H4 : option_changes st4 = option_changes st3
               /\ (forall k, k <> q_id -> responses st4 !! k = responses st3 !! k)
               /\ (responses st4 !! q_id ≫= final_answer)
                  = (responses st3 !! q_id ≫= final_answer)
               /\ (responses st4 !! q_id ≫= changed_answer)
                  = (responses st3 !! q_id ≫= changed_answer)).
  { subst st4. destruct (Py.truthy (qi_typed_work inp)); [|done].
    destruct (record_typed_work_answers (qi_typed_work inp) q_id st3)
      as (? & _ & ? & ? & ?). done. }
  destruct H4 as (H4c & H4k & H4f & H4a).
  set (out := if negb (default true (uw_opens <$> qi_uploaded_file inp))
              then st3 else quiz_buttons (qi_pressed inp) q_id st4).
  assert (Hout : option_changes out = option_changes st2
                 /\ (forall k, k <> q_id -> responses out !! k = responses st2 !! k)
                 /\ (responses out !! q_id ≫= final_answer)
                    = (responses st2 !! q_id ≫= final_answer)
                 /\ (responses out !! q_id ≫= changed_answer)
                    = (responses st2 !! q_id ≫= changed_answer)).
  { subst out. destruct (negb (default true (uw_opens <$> qi_uploaded_file inp))).
    - by rewrite H3r, H3c.
    - destruct (quiz_buttons_tables (qi_pressed inp) q_id st4)
        as (Hr & _ & Hc & _).
      rewrite Hr, Hc, H4c, H4f, H4a, H3c, <- H3r.
      split; [done|]. split; [|done]. intros k Hk. by rewrite H4k. }
  destruct Hout as (Hc & Hk & Hf & Ha). rewrite Hc, Hf, Ha.
  destruct (record_answer_answers inp q_id st1) as (Rc & _ & Rk & Rf & Ra).
  rewrite H1c in Rc, Ra. rewrite H1r in Rk.
  subst st2. destruct edited.
  - split; [|split; [discriminate|]].
    + intros k Hne. rewrite (Hk k Hne), (Rk k Hne), Rc.
      by rewrite lookup_insert_ne.
    + intros _. rewrite Rc, lookup_insert_eq, Rf, Ra. done.
  - split; [|split; [|discriminate]].
    + intros k Hne. by rewrite (Hk k Hne), H1r, H1c.
    + intros _. by rewrite H1r, H1c.
Qed.

Lemma answer_edit_counting_witness :
  let st := PlanDemo.session_at_quiz in
  let inp := in_quiz PlanDemo.change_answer in
  let q_id := question_id Demo.the_question in
  let st' := render_quiz_page Demo.offline inp st in
  let stored :=
    default "" (final_answer (default no_response (responses st !! q_id))) in
  let edited :=
    Py.truthy (qi_numerical_answer inp)
    && negb (String.eqb (qi_numerical_answer inp) stored) in
  let changes :=
    match option_changes st !! q_id with None => 0 | Some n => n + 1 end in
  (forall k, k <> q_id ->
     responses st' !! k = responses st !! k
     /\ option_changes st' !! k = option_changes st !! k)
  /\ (edited = false ->
      option_changes st' !! q_id = option_changes st !! q_id
      /\ (responses st' !! q_id ≫= final_answer)
         = (responses st !! q_id ≫= final_answer)
      /\ (responses st' !! q_id ≫= changed_answer)
         = (responses st !! q_id ≫= changed_answer))
  /\ (edited = true ->
      option_changes st' !! q_id = Some changes
      /\ (responses st' !! q_id ≫= final_answer)
         = Some (qi_numerical_answer inp)
      /\ (responses st' !! q_id ≫= changed_answer) = Some (changes >? 0)).
Proof.
  exact (answer_edit_counting Demo.offline (in_quiz PlanDemo.change_answer)
           PlanDemo.session_at_quiz Demo.the_question eq_refl
           ltac:(by vm_compute)).
Defined.

(** X30. No run of the application forgets an upload: a question with a
    stored handwritten file still has one after any run of any page, and
    only the quiz page can change the table at all; starting a new quiz
    or going back to the home page leaves the uploads of earlier quizzes
    in place. *)
Theorem uploads_survive
    (rt : runtime) (inp : inputs) (st : session) (w : world) (q_id : string) :
  is_Some (uploaded_files st !! q_id) ->
  is_Some (uploaded_files (fst (main rt inp st w)) !! q_id)
  /\ (page st <> PageQuiz ->
      uploaded_files (fst (main rt inp st w)) = uploaded_files st).
Proof.
  intros Hq. unfold main. destruct (page st) eqn:Hp; simpl.
  - assert (H : uploaded_files (render_home_page (in_home inp) st)
                = uploaded_files st).
    { unfold render_home_page.
      destruct (hi_pressed (in_home inp)) as [[name|]|]; [| |done].
      - by destruct (existsb _ _).
      - destruct (Py.truthy _); [|done]. by destruct (hi_fetched (in_home inp)). }
    by rewrite H.
  - split; [|done]. unfold render_quiz_page.
    destruct (questions st) as [|q0 qs0] eqn:Hqs.
    { by destruct (qi_back_home (in_quiz inp)). }
    rewrite <- Hqs.
    match goal with
    | |- context [match ?n with
                  | Some i => set_current_question_idx _ _ | None => _ end] =>
        destruct n as [i|] end; [done|].
    destruct (py_index _ _) as [cur|]; [|done].
    set (q := question_id cur).
    set (st1 := match question_start_times st !! q with
                | Some _ => st | None => _ end).
    assert (H1 : uploaded_files st1 = uploaded_files st)
      by (subst st1; by destruct (question_start_times st !! q)).
    set (st2 := if Py.truthy (qi_numerical_answer (in_quiz inp)) && _
                then record_answer (in_quiz inp) q st1 else st1).
    assert (H2 : uploaded_files st2 = uploaded_files st).
    { subst st2. destruct (Py.truthy (qi_numerical_answer (in_quiz inp)) && _);
        [|done].
      destruct (record_answer_answers (in_quiz inp) q st1) as (_ & Hu & _).
      by rewrite Hu. }
    set (st3 := match qi_uploaded_file (in_quiz inp) with
                | Some f => _ | None => st2 end).
    assert (H3 : is_Some (uploaded_files st3 !! q_id)).
    { subst st3. destruct (qi_uploaded_file (in_quiz inp)); simpl.
      - destruct (decide (q = q_id)) as [->|Hne].
        + rewrite lookup_insert_eq. by eexists.
        + rewrite lookup_insert_ne by done. by rewrite H2.
      - by rewrite H2. }
    destruct (negb (default true _)); [done|].
    rewrite quiz_buttons_uploads.
    destruct (Py.truthy (qi_typed_work (in_quiz inp))); [|done].
    destruct (record_typed_work_answers (qi_typed_work (in_quiz inp)) q st3)
      as (_ & Hu & _).
    by rewrite Hu.
  - assert (H : uploaded_files (fst (render_submit_page rt (in_submit inp) st w))
                = uploaded_files st).
    { unfold render_submit_page.
      destruct (si_pressed (in_submit inp)) as [[|]|]; [done| |done].
      destruct (submit_quiz_session rt (in_submit inp) st w) as [->|[f ->]]; done. }
    by rewrite H.
  - assert (H : uploaded_files (render_results_page (in_results inp) st)
                = uploaded_files st).
    { unfold render_results_page. by destruct (in_results inp). }
    by rewrite H.
Qed.

Lemma uploads_survive_witness :
  is_Some (uploaded_files
             (fst (main PlanDemo.planner Demo.answer_and_finish
                     Demo.session_at_submit Demo.empty_world))
           !! question_id Demo.the_question)
  /\ (page Demo.session_at_submit <> PageQuiz ->
      uploaded_files
        (fst (main PlanDemo.planner Demo.answer_and_finish
                Demo.session_at_submit Demo.empty_world))
      = uploaded_files Demo.session_at_submit).
Proof.
  apply (uploads_survive PlanDemo.planner Demo.answer_and_finish
           Demo.session_at_submit Demo.empty_world
           (question_id Demo.the_question)).
  vm_compute. by eexists.
Defined.
